(** * WaterUseQA: the water-use cleaning and aggregation pipeline

    A shallow embedding of the table transforms of

      - [Create time-series plots/v2/Analyse Time Series - Single WAP V2.py]
      - [CreateTimeSeriesPlots/AnalyseTimeSeriesWithConsentConditionsWAPListDateV1.py]
      - [water_use_data__snowflake_extraction.py] (the SQL CASE expression)

    A pandas frame is a list of row records in index order.  A float column
    holds exact reals extended with NaN (rounding is not modelled); a
    calendar date is a (year, month, day) triple as [datetime.date] has it. *)

From Stdlib Require Import Reals Lra Lia ZArith List String Ascii Bool.
From Stdlib Require Import DecimalString Sorted.
Import ListNotations.

Local Open Scope string_scope.
Local Open Scope list_scope.
Local Open Scope Z_scope.

(** ** Floats with NaN *)

Definition float := option R.
Definition NaN : float := None.

Definition Rltb (x y : R) : bool := if Rlt_dec x y then true else false.
Definition Rleb (x y : R) : bool := if Rle_dec x y then true else false.

Definition fadd (a b : float) : float :=
  match a, b with Some x, Some y => Some (x + y)%R | _, _ => NaN end.
Definition fsub (a b : float) : float :=
  match a, b with Some x, Some y => Some (x - y)%R | _, _ => NaN end.
Definition fmul (a b : float) : float :=
  match a, b with Some x, Some y => Some (x * y)%R | _, _ => NaN end.

(** Comparisons with NaN are false, as in IEEE and numpy. *)
Definition flt (a b : float) : bool :=
  match a, b with Some x, Some y => Rltb x y | _, _ => false end.
Definition fle (a b : float) : bool :=
  match a, b with Some x, Some y => Rleb x y | _, _ => false end.
Definition fgt (a b : float) : bool := flt b a.
Definition fge (a b : float) : bool := fle b a.

(** [Series.dropna]: the non-NaN entries. *)
Fixpoint dropna (l : list float) : list R :=
  match l with
  | [] => []
  | Some x :: tl => x :: dropna tl
  | None :: tl => dropna tl
  end.

Definition Rsum (l : list R) : R := fold_right Rplus 0%R l.
Definition Zsum (l : list Z) : Z := fold_right Z.add 0 l.

(** [Series.count], [Series.sum], [Series.mean], [Series.std] (ddof = 1),
    [Series.min], [Series.max]; all skip NaN. *)
Definition count (l : list float) : Z := Z.of_nat (List.length (dropna l)).
Definition sum (l : list float) : float := Some (Rsum (dropna l)).

Definition Rmean (l : list R) : R := (Rsum l / INR (List.length l))%R.

Definition mean (l : list float) : float :=
  match dropna l with
  | [] => NaN
  | xs => Some (Rmean xs)
  end.

Definition Rvar (l : list R) : R :=
  (Rsum (map (fun x => (x - Rmean l) * (x - Rmean l)) l) / (INR (List.length l) - 1))%R.

Definition std (l : list float) : float :=
  match dropna l with
  | [] => NaN
  | [_] => NaN
  | xs => Some (sqrt (Rvar xs))
  end.

Definition fmin (l : list float) : float :=
  match dropna l with
  | [] => NaN
  | x :: xs => Some (fold_left Rmin xs x)
  end.

Definition fmax (l : list float) : float :=
  match dropna l with
  | [] => NaN
  | x :: xs => Some (fold_left Rmax xs x)
  end.

(** [Series.diff()]: first entry NaN, then each entry minus its predecessor. *)
Fixpoint diff_from (prev : float) (vs : list float) : list float :=
  match vs with
  | [] => []
  | v :: tl => fsub v prev :: diff_from v tl
  end.

Definition diff (vs : list float) : list float :=
  match vs with
  | [] => []
  | v :: tl => NaN :: diff_from v tl
  end.

(** ** Calendar *)

Record date := mkdate { year : Z; month : Z; day : Z }.

(** A pandas [Timestamp]: the calendar day and the seconds since midnight.
    Timestamps lie between the years 1677 and 2262, so every date the
    scripts build with [dt.date] is inside datetime's year range. *)
Record Timestamp := mkts { ts_date : date; ts_seconds : Z }.

Definition date_eqb (a b : date) : bool :=
  (year a =? year b) && (month a =? month b) && (day a =? day b).

(** Order of [datetime.date]: lexicographic on (year, month, day). *)
Definition date_ltb (a b : date) : bool :=
  (year a <? year b)
  || ((year a =? year b)
      && ((month a <? month b) || ((month a =? month b) && (day a <? day b)))).

Definition date_leb (a b : date) : bool := date_ltb a b || date_eqb a b.

Definition is_leap (y : Z) : bool :=
  (y mod 4 =? 0) && (negb (y mod 100 =? 0) || (y mod 400 =? 0)).

Definition days_in_month (y m : Z) : Z :=
  if m =? 2 then (if is_leap y then 29 else 28)
  else if (m =? 4) || (m =? 6) || (m =? 9) || (m =? 11) then 30
  else 31.

Definition days_before_year (y : Z) : Z :=
  let y1 := y - 1 in y1 * 365 + y1 / 4 - y1 / 100 + y1 / 400.

Definition days_before_month_table (m : Z) : Z :=
  match m with
  | 1 => 0 | 2 => 31 | 3 => 59 | 4 => 90 | 5 => 120 | 6 => 151
  | 7 => 181 | 8 => 212 | 9 => 243 | 10 => 273 | 11 => 304 | 12 => 334
  | _ => 0
  end.

Definition days_before_month (y m : Z) : Z :=
  days_before_month_table m + (if (2 <? m) && is_leap y then 1 else 0).

(** [date.toordinal()]: 0001-01-01 is day 1. *)
Definition toordinal (d : date) : Z :=
  days_before_year (year d) + days_before_month (year d) (month d) + day d.

(** [d + dt.timedelta(days=1)]. *)
Definition next_day (d : date) : date :=
  if day d <? days_in_month (year d) (month d) then mkdate (year d) (month d) (day d + 1)
  else if month d <? 12 then mkdate (year d) (month d + 1) 1
  else mkdate (year d + 1) 1 1.

Fixpoint days_from (n : nat) (d : date) : list date :=
  match n with
  | O => []
  | S k => d :: days_from k (next_day d)
  end.

(** [pd.date_range(start, end)] at daily frequency, both ends included;
    empty when [end] is before [start]. *)
Definition date_range (start_date to_date : date) : list date :=
  days_from (Z.to_nat (toordinal to_date - toordinal start_date + 1)) start_date.

Definition valid_date (d : date) : Prop :=
  1 <= month d <= 12 /\ 1 <= day d <= days_in_month (year d) (month d).

(** [Series.min()] and [Series.max()] of a column of dates. *)
Definition date_min2 (a b : date) : date := if date_ltb b a then b else a.
Definition date_max2 (a b : date) : date := if date_ltb a b then b else a.

Definition min_date (l : list date) : option date :=
  match l with
  | [] => None
  | d :: tl => Some (fold_left date_min2 tl d)
  end.

Definition max_date (l : list date) : option date :=
  match l with
  | [] => None
  | d :: tl => Some (fold_left date_max2 tl d)
  end.

(** ** Month keys *)

(** [str(n)] for an integer. *)
Definition str (z : Z) : string := NilZero.string_of_int (Z.to_int z).

Fixpoint zeros (n : nat) : string :=
  match n with
  | O => ""
  | S k => ("0" ++ zeros k)%string
  end.

(** ['{0:0>2}'.format(x)]: right-aligned in width 2, filled with '0'. *)
Definition format_02 (x : Z) : string :=
  let s := str x in (zeros (2 - String.length s) ++ s)%string.

(** [Year.astype(str) + "-" + MonthVal2.astype(str)]. *)
Definition month_key (d : date) : string :=
  (str (year d) ++ "-" ++ format_02 (month d))%string.

(** ** Sorting and grouping *)

Section Grouping.
Context {K : Type} (K_eq_dec : forall a b : K, {a = b} + {a <> b}) (leb : K -> K -> bool).

Fixpoint insert_sorted (k : K) (l : list K) : list K :=
  match l with
  | [] => [k]
  | h :: tl => if leb k h then k :: l else h :: insert_sorted k tl
  end.

Definition sort_keys (l : list K) : list K := fold_right insert_sorted [] l.

(** The group labels of [groupby]: the distinct keys in ascending order. *)
Definition group_keys (l : list K) : list K := sort_keys (nodup K_eq_dec l).

(** [frame.groupby(key)]: one group per distinct key, in ascending key
    order, each holding its rows in frame order. *)
Definition groupby {A : Type} (key : A -> K) (rows : list A) : list (K * list A) :=
  map (fun k => (k, filter (fun r => if K_eq_dec (key r) k then true else false) rows))
      (group_keys (map key rows)).
End Grouping.

Definition date_eq_dec (a b : date) : {a = b} + {a <> b}.
Proof. decide equality; apply Z.eq_dec. Defined.

(** ** Rows *)

(** A row of the raw extraction: columns Measurement, DateTime, Value. *)
Record Reading := mkReading {
  Measurement : string;
  DateTime : Timestamp;
  Value : float
}.

(** A row after unit conversion: the raw columns plus Date and Vol. *)
Record VolRow := mkVolRow {
  reading : Reading;
  Date : date;
  Vol : float
}.

(** A row after spike detection: the converted columns plus the three flags. *)
Record StatRow := mkStatRow {
  vol_row : VolRow;
  sd5 : Z;
  sd10 : Z;
  sd20 : Z
}.

(** ** Errors *)

Inductive exn := AttributeError | IndexError | DivisionByZero.

Inductive result (A : Type) :=
| Ok (a : A)
| Raise (e : exn).
Arguments Ok {A} a.
Arguments Raise {A} e.

Definition bind {A B} (r : result A) (f : A -> result B) : result B :=
  match r with
  | Ok a => f a
  | Raise e => Raise e
  end.

Notation "x <- c1 ;; c2" := (bind c1 (fun x => c2))
  (at level 61, c1 at next level, right associativity).

(** ** Extraction of the raw table *)

(** The table [raw_data].  It starts as [pd.DataFrame(columns=[...])],
    which has no rows and untyped (object) columns; once a fetched table
    with rows has been concatenated to it, the columns carry the types of
    the fetched data (DateTime is datetime64). *)
Inductive RawFrame :=
| ColumnsOnly
| Frame (rows : list Reading).

(** [pd.concat([raw_data, tsdata2], ignore_index=True)].  A fetched table
    without rows leaves the column-only table as it is, object columns
    included: the result takes its column types from the tables that have
    rows. *)
Definition concat (raw_data : RawFrame) (tsdata2 : list Reading) : RawFrame :=
  match raw_data, tsdata2 with
  | ColumnsOnly, [] => ColumnsOnly
  | ColumnsOnly, _ => Frame tsdata2
  | Frame rows, _ => Frame (rows ++ tsdata2)
  end.

(** A row of the processed measurement list. *)
Record MeasurementRow := mkMeasurementRow {
  ml_Measurement : string;
  FromDate : date;
  ToDate : date
}.

Section Fetching.
(** [ws.get_data(base_url, hts, site, measurement, from_date, to_date)]
    for the site at hand; [None] when the call raises. *)
Variable get_data : string -> date -> date -> option (list Reading).

Definition extract_step (st : RawFrame * date) (row : MeasurementRow) : RawFrame * date :=
  let '(raw_data, from_d) := st in
  let measurement := ml_Measurement row in
  let to_d := ToDate row in
  if date_leb from_d to_d then
    match get_data measurement from_d to_d with
    | Some tsdata2 => (concat raw_data tsdata2, next_day to_d)
    | None => (raw_data, next_day to_d)
    end
  else (raw_data, from_d).

Definition extract_water_use_data (dataframe : list MeasurementRow) : result RawFrame :=
  match dataframe with
  | [] => Raise IndexError
  | first :: _ =>
      Ok (fst (fold_left extract_step dataframe (ColumnsOnly, FromDate first)))
  end.
End Fetching.

(** ** Unit conversion *)

(** [vol_data['DateTime'].dt]: pandas defines the accessor on datetime-typed
    columns only, and raises AttributeError ("Can only use .dt accessor with
    datetimelike values") on an object column. *)
Definition dt_accessor (dataframe : RawFrame) : result (list Reading) :=
  match dataframe with
  | ColumnsOnly => Raise AttributeError
  | Frame rows => Ok rows
  end.

Definition is_water_meter (r : Reading) : bool := (Measurement r =? "Water Meter")%string.

(** The two [.loc] assignments on the typed rows: Water Meter rows take the
    entry of [Value.diff()] at their index, every other row takes its Value. *)
Definition convert_rows (rows : list Reading) : list VolRow :=
  map (fun '(r, d) =>
         {| reading := r;
            Date := ts_date (DateTime r);
            Vol := if is_water_meter r then d else Value r |})
      (combine rows (diff (map Value rows))).

Definition convert_water_use_data (dataframe : RawFrame) : result (list VolRow) :=
  rows <- dt_accessor dataframe ;;
  Ok (convert_rows rows).

(** ** Negative values *)

Record NegMonthly := mkNegMonthly {
  neg_Month : string;
  Negative_Value_Count : Z;
  Negative_Value_Sum : float
}.

Definition row_month (r : VolRow) : string := month_key (ts_date (DateTime (reading r))).

Definition summarise_negative_values (dataframe : list VolRow) : list NegMonthly :=
  let neg_data := filter (fun r => flt (Vol r) (Some 0%R)) dataframe in
  map (fun '(m, g) =>
         {| neg_Month := m;
            Negative_Value_Count := count (map Vol g);
            Negative_Value_Sum := sum (map Vol g) |})
      (groupby string_dec String.leb row_month neg_data).

Definition remove_negative_values (dataframe : list VolRow) : list VolRow :=
  filter (fun r => fge (Vol r) (Some 0%R)) dataframe.

(** ** Spike detection *)

Definition calculate_spike_parameters (dataframe : list VolRow) : float * float :=
  let nonzero_vol := filter (fun r => fgt (Vol r) (Some 0%R)) dataframe in
  let mean := mean (map Vol nonzero_vol) in
  let sd := std (map Vol nonzero_vol) in
  (mean, sd).

Definition set_sd5 (r : StatRow) : StatRow :=
  {| vol_row := vol_row r; sd5 := 1; sd10 := sd10 r; sd20 := sd20 r |}.
Definition set_sd10 (r : StatRow) : StatRow :=
  {| vol_row := vol_row r; sd5 := sd5 r; sd10 := 1; sd20 := sd20 r |}.
Definition set_sd20 (r : StatRow) : StatRow :=
  {| vol_row := vol_row r; sd5 := sd5 r; sd10 := sd10 r; sd20 := 1 |}.

(** [frame.loc[mask, column] = 1]. *)
Definition loc_set (mask : StatRow -> bool) (set : StatRow -> StatRow)
    (frame : list StatRow) : list StatRow :=
  map (fun r => if mask r then set r else r) frame.

(** [Vol > mean + sd * k]. *)
Definition above (mean sd : float) (k : R) (r : StatRow) : bool :=
  fgt (Vol (vol_row r)) (fadd mean (fmul sd (Some k))).

Definition detect_spikes (dataframe : list VolRow) (mean sd : float) : list StatRow :=
  let vol_stats := map (fun r => {| vol_row := r; sd5 := 0; sd10 := 0; sd20 := 0 |}) dataframe in
  if fge sd (Some 1%R) && (100 <? Z.of_nat (List.length vol_stats)) then
    let vol_stats := loc_set (above mean sd 5) set_sd5 vol_stats in
    let vol_stats := loc_set (above mean sd 10) set_sd10 vol_stats in
    let vol_stats := loc_set (above mean sd 20) set_sd20 vol_stats in
    vol_stats
  else vol_stats.

(** ** Daily and monthly statistics *)

Definition string_max2 (a b : string) : string := if String.leb a b then b else a.

(** [max] of a column of strings; the empty string is below every string. *)
Definition string_max (l : list string) : string := fold_right string_max2 "" l.

Record DailyStat := mkDailyStat {
  ds_Date : date;
  ds_Measurement : string;
  ds_Vol : Z;
  ds_sd5 : Z;
  ds_sd10 : Z;
  ds_sd20 : Z;
  ds_Year : Z;
  ds_MonthVal : Z;
  ds_Month : string
}.

Definition generate_daily_stats (dataframe : list StatRow) : list DailyStat :=
  map (fun '(d, g) =>
         {| ds_Date := d;
            ds_Measurement := string_max (map (fun r => Measurement (reading (vol_row r))) g);
            ds_Vol := count (map (fun r => Vol (vol_row r)) g);
            ds_sd5 := Zsum (map sd5 g);
            ds_sd10 := Zsum (map sd10 g);
            ds_sd20 := Zsum (map sd20 g);
            ds_Year := year d;
            ds_MonthVal := month d;
            ds_Month := month_key d |})
      (groupby date_eq_dec date_leb (fun r => Date (vol_row r)) dataframe).

(** The monthly table; the column names are those of the consent-aware
    script (the single-WAP script names them 'Measurement type',
    'Days with data' and 'Meter reports'). *)
Record MonthlyStat := mkMonthlyStat {
  ms_Month : string;
  MeasType : string;
  DaysWithData : Z;
  TotalReports : Z;
  Spikes_5sd : Z;
  Spikes_10sd : Z;
  Spikes_20sd : Z
}.

Definition generate_monthly_stats (dataframe : list DailyStat) : list MonthlyStat :=
  map (fun '(m, g) =>
         {| ms_Month := m;
            MeasType := string_max (map ds_Measurement g);
            DaysWithData := Z.of_nat (List.length (map ds_Vol g));
            TotalReports := Zsum (map ds_Vol g);
            Spikes_5sd := Zsum (map ds_sd5 g);
            Spikes_10sd := Zsum (map ds_sd10 g);
            Spikes_20sd := Zsum (map ds_sd20 g) |})
      (groupby string_dec String.leb ds_Month dataframe).

(** ** Monthly extraction statistics (consent-aware script) *)

(** Round half to even, as [numpy.rint]. *)
Definition rint (x : R) : Z :=
  let n := Int_part x in
  let f := frac_part x in
  if Rlt_dec f (1 / 2) then n
  else if Rlt_dec (1 / 2) f then n + 1
  else if Z.even n then n else n + 1.

(** [Series.round(decimals)]. *)
Definition round (x : float) (decimals : nat) : float :=
  match x with
  | Some v => Some (IZR (rint (v * 10 ^ decimals)) / 10 ^ decimals)%R
  | None => NaN
  end.

Record ExtractionMonthly := mkExtractionMonthly {
  ex_Month : string;
  MinExtraction : float;
  MeanExtraction : float;
  MaxExtraction : float
}.

Definition generate_extraction_stats (dataframe : list VolRow) : list ExtractionMonthly :=
  let extraction_data := filter (fun r => fgt (Vol r) (Some 0%R)) dataframe in
  if 1 <=? Z.of_nat (List.length extraction_data) then
    map (fun '(m, g) =>
           {| ex_Month := m;
              MinExtraction := round (fmin (map Vol g)) 3;
              MeanExtraction := round (mean (map Vol g)) 1;
              MaxExtraction := round (fmax (map Vol g)) 1 |})
        (groupby string_dec String.leb row_month extraction_data)
  else [].

(** [pd.merge(dataframe1, dataframe2, on='Month', how='left')]: every left
    row once per matching right row, or once with nulls when none matches;
    left order is kept. *)
Definition merge_left (dataframe1 : list MonthlyStat) (dataframe2 : list ExtractionMonthly)
    : list (MonthlyStat * option ExtractionMonthly) :=
  flat_map (fun l =>
              match filter (fun r => (ex_Month r =? ms_Month l)%string) dataframe2 with
              | [] => [(l, None)]
              | matches => map (fun r => (l, Some r)) matches
              end)
           dataframe1.

(** The nine columns kept by [combine_monthly_stats]. *)
Record CombinedStat := mkCombinedStat {
  c_MeasType : string;
  c_DaysWithData : Z;
  c_TotalReports : Z;
  c_MinExtraction : float;
  c_MeanExtraction : float;
  c_MaxExtraction : float;
  c_Spikes_5sd : Z;
  c_Spikes_10sd : Z;
  c_Spikes_20sd : Z
}.

Definition right_column (f : ExtractionMonthly -> float) (r : option ExtractionMonthly) : float :=
  match r with
  | Some e => f e
  | None => NaN
  end.

Definition combine_monthly_stats (dataframe1 : list MonthlyStat)
    (dataframe2 : list ExtractionMonthly) : list CombinedStat :=
  let monthly_stats2 := merge_left dataframe1 dataframe2 in
  map (fun '(l, r) =>
         {| c_MeasType := MeasType l;
            c_DaysWithData := DaysWithData l;
            c_TotalReports := TotalReports l;
            c_MinExtraction := right_column MinExtraction r;
            c_MeanExtraction := right_column MeanExtraction r;
            c_MaxExtraction := right_column MaxExtraction r;
            c_Spikes_5sd := Spikes_5sd l;
            c_Spikes_10sd := Spikes_10sd l;
            c_Spikes_20sd := Spikes_20sd l |})
      monthly_stats2.

(** ** Gap-filled daily series *)

(** A row of [daily_counts]: the date (index), the count and the sum of Vol. *)
Record DailyCount := mkDailyCount {
  dc_Date : date;
  dc_Readings : Z;
  dc_Volume : float
}.

Definition daily_counts (dataframe : list VolRow) : list DailyCount :=
  map (fun '(d, g) =>
         {| dc_Date := d;
            dc_Readings := count (map Vol g);
            dc_Volume := sum (map Vol g) |})
      (groupby date_eq_dec date_leb Date dataframe).

(** [daily_counts.reindex(idx)]: the row of each label of [idx], or a row
    of nulls when the label is not in the index. *)
Definition reindex (counts : list DailyCount) (idx : list date) : list (date * float * float) :=
  map (fun d =>
         match find (fun c => date_eqb (dc_Date c) d) counts with
         | Some c => (d, Some (IZR (dc_Readings c)), dc_Volume c)
         | None => (d, NaN, NaN)
         end)
      idx.

(** The trailing window of [w] entries ending at position [i]. *)
Definition window_at (w : nat) (l : list float) (i : nat) : list float :=
  skipn (S i - w) (firstn (S i) l).

(** [Series.rolling(window, min_periods).mean()]. *)
Definition rolling_mean (window min_periods : nat) (l : list float) : list float :=
  map (fun i =>
         let xs := window_at window l i in
         if (min_periods <=? List.length (dropna xs))%nat then mean xs else NaN)
      (seq 0 (List.length l)).

(** [Series.fillna(value)]. *)
Definition fillna (value : R) (x : float) : float :=
  match x with
  | Some v => Some v
  | None => Some value
  end.

Record PlotRow := mkPlotRow {
  p_Date : date;
  Readings : float;
  Volume : float;
  p_Year : Z;
  p_MonthVal : Z;
  p_Month : string;
  p_Day : Z;
  Rate : float;
  MA30 : float
}.

(** The start of the first water year: the [if from_month <= 6 ... elif
    from_month > 6 ...] block of [process_plot_data]. *)
Definition start_date (from_date : date) : date :=
  let from_year := year from_date in
  let from_month := month from_date in
  if from_month <=? 6 then mkdate (from_year - 1) 7 1
  else mkdate from_year 7 1.

(** On a frame with no rows [dataframe['Date'].min()] is NaN, and [.year]
    of it raises. *)
Definition process_plot_data (dataframe : list VolRow) : result (list PlotRow) :=
  let counts := daily_counts dataframe in
  match min_date (map Date dataframe), max_date (map Date dataframe) with
  | Some from_date, Some to_date =>
      let idx := date_range (start_date from_date) to_date in
      let daily_counts2 := reindex counts idx in
      let ma30 := rolling_mean 30 21 (map snd daily_counts2) in
      Ok (map (fun '((d, readings, volume), ma) =>
                 {| p_Date := d;
                    Readings := fillna 0 readings;
                    Volume := volume;
                    p_Year := year d;
                    p_MonthVal := month d;
                    p_Month := month_key d;
                    p_Day := day d;
                    Rate := fmul volume (Some (1000 / 86400)%R);
                    MA30 := ma |})
              (combine daily_counts2 ma30))
  | _, _ => Raise AttributeError
  end.

(** ** The Snowflake extraction: the CASE of TYPE_CORRECTED_COMBINED_METERS *)

(** A row of one partition (SiteId, AttributeName, DataSource); a SQL NULL
    is [None]. *)
Record Observation := mkObservation {
  AttributeName : string;
  ObservationValue : option R;
  ObservationDateTime : Timestamp
}.

Definition epoch_seconds (t : Timestamp) : Z :=
  toordinal (ts_date t) * 86400 + ts_seconds t.

(** [TIMEDIFF(seconds, a, b)] and [TIMEDIFF(hours, a, b)]: the number of
    unit boundaries between the two timestamps. *)
Definition TIMEDIFF_seconds (a b : option Timestamp) : option Z :=
  match a, b with
  | Some x, Some y => Some (epoch_seconds y - epoch_seconds x)
  | _, _ => None
  end.

Definition TIMEDIFF_hours (a b : option Timestamp) : option Z :=
  match a, b with
  | Some x, Some y => Some (epoch_seconds y / 3600 - epoch_seconds x / 3600)
  | _, _ => None
  end.

Definition sql_sub (a b : option R) : option R := fsub a b.

Definition sql_div (a : option R) (n : option Z) : result (option R) :=
  match a, n with
  | Some x, Some k => if k =? 0 then Raise DivisionByZero else Ok (Some (x / IZR k)%R)
  | _, _ => Ok None
  end.

(** [prev] is the row LAG sees: the previous row of the partition in
    ObservationDateTime order, if any. *)
Definition MeasuredValue (obs : Observation) (prev : option Observation) : result (option R) :=
  let PrevObservationValue :=
    match prev with Some p => ObservationValue p | None => None end in
  let PrevObservationDateTime := option_map ObservationDateTime prev in
  if (AttributeName obs =? "Water Meter")%string then
    Ok (sql_sub (ObservationValue obs) PrevObservationValue)
  else if (AttributeName obs =? "Flow")%string then
    sql_div (fmul (ObservationValue obs) (Some 1000%R))
            (TIMEDIFF_seconds PrevObservationDateTime (Some (ObservationDateTime obs)))
  else if (AttributeName obs =? "Average Flow")%string then
    sql_div (ObservationValue obs)
            (TIMEDIFF_hours PrevObservationDateTime (Some (ObservationDateTime obs)))
  else Ok (ObservationValue obs).

(** ** The statistics branch of [main]

    [main] computes the negative-value summary and the filtered series from
    the same converted table, then derives the spike parameters from the
    filtered series and flags that same series. *)

Definition spike_flagged (vol_data2 : list VolRow) : list StatRow :=
  let '(mean, sd) := calculate_spike_parameters vol_data2 in
  detect_spikes vol_data2 mean sd.

Definition negative_handling (vol_data : list VolRow) : list NegMonthly * list VolRow :=
  let neg_summary := summarise_negative_values vol_data in
  let vol_data2 := remove_negative_values vol_data in
  (neg_summary, vol_data2).

Section Main.
Variable get_data : string -> date -> date -> option (list Reading).

Definition main_statistics (mslist2 : list MeasurementRow)
    : result (list NegMonthly * list MonthlyStat) :=
  wu_data <- extract_water_use_data get_data mslist2 ;;
  vol_data <- convert_water_use_data wu_data ;;
  let '(neg_summary, vol_data2) := negative_handling vol_data in
  let vol_stats := spike_flagged vol_data2 in
  let daily_stats := generate_daily_stats vol_stats in
  let monthly_stats := generate_monthly_stats daily_stats in
  Ok (neg_summary, monthly_stats).

Definition main_plots (mslist2 : list MeasurementRow) : result (list PlotRow) :=
  wu_data <- extract_water_use_data get_data mslist2 ;;
  vol_data <- convert_water_use_data wu_data ;;
  let '(_, vol_data2) := negative_handling vol_data in
  process_plot_data vol_data2.
End Main.

(** ** Example tables *)

Definition at_day (y m d : Z) (secs : Z) : Timestamp := mkts (mkdate y m d) secs.

(** Four Water Meter readings 10, 15, 12, 20, a quarter of an hour apart. *)
Definition meter_run : list Reading :=
  [ mkReading "Water Meter" (at_day 2020 3 15 0) (Some 10%R);
    mkReading "Water Meter" (at_day 2020 3 15 900) (Some 15%R);
    mkReading "Water Meter" (at_day 2020 3 15 1800) (Some 12%R);
    mkReading "Water Meter" (at_day 2020 3 15 2700) (Some 20%R) ].

(** A Flow observation of 9 L/s, 900 seconds after the previous one. *)
Definition flow_prev : Observation :=
  mkObservation "Flow" (Some 4%R) (at_day 2022 2 17 0).
Definition flow_obs : Observation :=
  mkObservation "Flow" (Some 9%R) (at_day 2022 2 17 900).

(** An Average Flow observation of 6 m3/hr at 12:30, after one at 10:00. *)
Definition hourly_flow_prev : Observation :=
  mkObservation "Average Flow" (Some 4%R) (at_day 2022 2 17 36000).
Definition hourly_flow_obs : Observation :=
  mkObservation "Average Flow" (Some 6%R) (at_day 2022 2 17 45000).

Definition compliance_reading : Reading :=
  mkReading "Compliance Volume" (at_day 2020 3 15 0) (Some 7%R).
Definition compliance_obs : Observation :=
  mkObservation "Compliance Volume" (Some 7%R) (at_day 2022 2 17 0).

(** A series of 101 Compliance Volume readings a minute apart: 65 of
    volume 0, then 35 of volume 1, then one of volume 7. *)
Definition compliance_volume (v : R) (i : nat) : Reading :=
  mkReading "Compliance Volume" (at_day 2020 3 15 (60 * Z.of_nat i)) (Some v).

Definition segment (v : R) (start len : nat) : list Reading :=
  map (compliance_volume v) (seq start len).

Definition sparse_readings : list Reading :=
  segment 0 0 65 ++ segment 1 65 35 ++ segment 7 100 1.

Definition sparse_series : list VolRow :=
  remove_negative_values (convert_rows sparse_readings).

(** The same series with a last reading of volume 70: 36 records of
    positive volume, with a standard deviation well above 1. *)
Definition burst_readings : list Reading :=
  segment 0 0 65 ++ segment 1 65 35 ++ segment 70 100 1.

Definition burst_series : list VolRow :=
  remove_negative_values (convert_rows burst_readings).

Definition burst_spike : StatRow :=
  {| vol_row := {| reading := compliance_volume 70 100;
                   Date := mkdate 2020 3 15;
                   Vol := Some 70%R |};
     sd5 := 1; sd10 := 0; sd20 := 0 |}.

(** The sample of the spike example: 149 records of volume 10 and one of
    volume 31. *)
Definition spike_sample : list VolRow :=
  map (fun r => {| reading := r; Date := ts_date (DateTime r); Vol := Value r |})
      (segment 10 0 149 ++ segment 31 149 1).

Definition spike_sample_row : StatRow :=
  {| vol_row := {| reading := compliance_volume 31 149;
                   Date := mkdate 2020 3 15;
                   Vol := Some 31%R |};
     sd5 := 1; sd10 := 1; sd20 := 0 |}.

(** A Compliance Volume reading followed by two Water Meter readings. *)
Definition mixed_readings : list Reading :=
  [ mkReading "Compliance Volume" (at_day 2020 3 15 0) (Some 7%R);
    mkReading "Water Meter" (at_day 2020 3 16 0) (Some 100%R);
    mkReading "Water Meter" (at_day 2020 3 16 900) (Some 105%R) ].

(** Volumes -2, -2, 5, -1 within March 2020. *)
Definition negative_month_readings : list Reading :=
  [ mkReading "Compliance Volume" (at_day 2020 3 15 0) (Some (-2)%R);
    mkReading "Compliance Volume" (at_day 2020 3 15 900) (Some (-2)%R);
    mkReading "Compliance Volume" (at_day 2020 3 16 0) (Some 5%R);
    mkReading "Compliance Volume" (at_day 2020 3 16 900) (Some (-1)%R) ].

Definition negative_month : list VolRow := convert_rows negative_month_readings.

Definition sparse_idle : StatRow :=
  {| vol_row := {| reading := compliance_volume 0 0;
                   Date := mkdate 2020 3 15;
                   Vol := Some 0%R |};
     sd5 := 0; sd10 := 0; sd20 := 0 |}.

(** Two readings, on 15 and 17 March 2020; and two on 1 and 2 September 2020. *)
Definition march_series : list VolRow :=
  convert_rows
    [ mkReading "Compliance Volume" (at_day 2020 3 15 0) (Some 5%R);
      mkReading "Compliance Volume" (at_day 2020 3 17 0) (Some 3%R) ].

Definition september_series : list VolRow :=
  convert_rows
    [ mkReading "Compliance Volume" (at_day 2020 9 1 0) (Some 5%R);
      mkReading "Compliance Volume" (at_day 2020 9 2 0) (Some 3%R) ].

(** A reading of volume 0 in March 2020 and two positive readings in April. *)
Definition idle_march_series : list VolRow :=
  convert_rows
    [ mkReading "Compliance Volume" (at_day 2020 3 15 0) (Some 0%R);
      mkReading "Compliance Volume" (at_day 2020 4 2 0) (Some 5%R);
      mkReading "Compliance Volume" (at_day 2020 4 3 0) (Some 3%R) ].

Definition idle_march_row : MonthlyStat :=
  {| ms_Month := "2020-03"; MeasType := "Compliance Volume";
     DaysWithData := 1; TotalReports := 1;
     Spikes_5sd := 0; Spikes_10sd := 0; Spikes_20sd := 0 |}.

(** A measurement list of one row, and a service that has nothing for it. *)
Definition single_measurement : list MeasurementRow :=
  [ mkMeasurementRow "Water Meter" (mkdate 2018 7 1) (mkdate 2019 6 30) ].

Definition no_data (measurement : string) (from_d to_d : date) : option (list Reading) :=
  None.

(** ** The Snowflake extraction: LAG over one partition *)

Fixpoint lag_from (prev : option Observation) (partition : list Observation)
    : list (result (option R)) :=
  match partition with
  | [] => []
  | obs :: tl => MeasuredValue obs prev :: lag_from (Some obs) tl
  end.

(** The MeasuredValue column of TYPE_CORRECTED_COMBINED_METERS over the rows
    of one partition (SiteId, AttributeName, DataSource), taken in
    ObservationDateTime order: the first row has no previous row. *)
Definition TYPE_CORRECTED_COMBINED_METERS (partition : list Observation)
    : list (result (option R)) :=
  lag_from None partition.

(** ** The Quality Assessment script
    ([Quality Assessment - WAP List - Combined Series V1.py])

    Its conversion, negative-value filter and spike detection are the
    functions above, word for word; its summary functions differ. *)

Module QualityAssessment.

(** [neg_filter.count()['Vol']]. *)
Definition summarise_negative_values (dataframe : list VolRow) : Z :=
  let neg_filter := filter (fun r => flt (Vol r) (Some 0%R)) dataframe in
  count (map Vol neg_filter).

Record SummaryStats := mkSummaryStats {
  Site : string;
  InHilltop : string;
  MeasTypes : Z;
  MeasUsed : Z;
  StartDate : date;
  EndDate : date;
  TotalDays : Z;
  DaysWithData : Z;
  TotalReports : Z;
  MinExtraction : float;
  MeanExtraction : float;
  MaxExtraction : float;
  NegativeValues : Z;
  Spikes_5sd : Z;
  Spikes_10sd : Z;
  Spikes_20sd : Z
}.

(** [Series.nunique()] of a column without nulls. *)
Definition nunique {A} (A_eq_dec : forall a b : A, {a = b} + {a <> b}) (l : list A) : Z :=
  Z.of_nat (List.length (nodup A_eq_dec l)).

(** On a frame with no rows the minimum and the maximum of Date are NaN,
    and [.days] of their difference raises. *)
Definition generate_summary_stats (dataframe : list StatRow) (site data_exists : string)
    (meas_types neg_count : Z) (mean : float) : result SummaryStats :=
  let dates := map (fun r => Date (vol_row r)) dataframe in
  let vols := map (fun r => Vol (vol_row r)) dataframe in
  match min_date dates, max_date dates with
  | Some start_date, Some end_date =>
      Ok {| Site := site;
            InHilltop := data_exists;
            MeasTypes := meas_types;
            MeasUsed := nunique string_dec
                          (map (fun r => Measurement (reading (vol_row r))) dataframe);
            StartDate := start_date;
            EndDate := end_date;
            TotalDays := toordinal end_date - toordinal start_date + 1;
            DaysWithData := nunique date_eq_dec dates;
            TotalReports := count vols;
            MinExtraction :=
              round (fmin (filter (fun v => fgt v (Some 0%R)) vols)) 3;
            MeanExtraction := round mean 1;
            MaxExtraction := round (fmax vols) 1;
            NegativeValues := neg_count;
            Spikes_5sd := Zsum (map sd5 dataframe);
            Spikes_10sd := Zsum (map sd10 dataframe);
            Spikes_20sd := Zsum (map sd20 dataframe) |}
  | _, _ => Raise AttributeError
  end.

(** The per-site body of [main] once the measurement list exists. *)
Definition site_summary (wu_data : RawFrame) (site : string) (meas_types : Z)
    : result SummaryStats :=
  vol_data <- convert_water_use_data wu_data ;;
  let neg_count := summarise_negative_values vol_data in
  let vol_data2 := remove_negative_values vol_data in
  let '(mean, sd) := calculate_spike_parameters vol_data2 in
  let vol_stats := detect_spikes vol_data2 mean sd in
  generate_summary_stats vol_stats site "Y" meas_types neg_count mean.

End QualityAssessment.

(** ** Sums *)

(** The sum of a list in a commutative monoid. *)
Definition msum {M : Type} (zero : M) (add : M -> M -> M) (l : list M) : M :=
  fold_right add zero l.

(** The readings of [meter_run] as one Snowflake partition. *)
Definition meter_partition : list Observation :=
  map (fun r => mkObservation "Water Meter" (Value r) (DateTime r)) meter_run.

(** Two Average Flow observations a quarter of an hour apart, in one hour. *)
Definition average_flow_prev : Observation :=
  mkObservation "Average Flow" (Some 4%R) (at_day 2022 2 17 36000).
Definition average_flow_obs : Observation :=
  mkObservation "Average Flow" (Some 6%R) (at_day 2022 2 17 36900).

Definition spike_sample_month : MonthlyStat :=
  {| ms_Month := "2020-03"; MeasType := "Compliance Volume";
     DaysWithData := 1; TotalReports := 150;
     Spikes_5sd := 1; Spikes_10sd := 1; Spikes_20sd := 0 |}.

(** ** The calls of [ws.get_data]

    The requests that the loop of [extract_water_use_data] sends, in order:
    one for each row of the measurement list that the cursor [from_d] has
    not passed, from the cursor to the row's ToDate; after a request the
    cursor is the day after that ToDate, whether the request succeeded or
    not. *)
Record Call := mkCall {
  c_measurement : string;
  c_from : date;
  c_to : date
}.

Fixpoint get_data_calls (from_d : date) (dataframe : list MeasurementRow) : list Call :=
  match dataframe with
  | [] => []
  | row :: rest =>
      if date_leb from_d (ToDate row)
      then mkCall (ml_Measurement row) from_d (ToDate row)
           :: get_data_calls (next_day (ToDate row)) rest
      else get_data_calls from_d rest
  end.

(** A measurement list of three rows whose second row ends before the first. *)
Definition three_measurements : list MeasurementRow :=
  [ mkMeasurementRow "Water Meter" (mkdate 2018 7 1) (mkdate 2019 6 30);
    mkMeasurementRow "Volume" (mkdate 2018 9 1) (mkdate 2019 3 31);
    mkMeasurementRow "Compliance Volume" (mkdate 2019 1 1) (mkdate 2020 2 29) ].

(** ** The Snowflake extraction: the daily sums and the final SELECT

    The rest of the query works on the rows of TYPE_CORRECTED_COMBINED_METERS
    once every MeasuredValue has been computed.  The rows of a SQL result
    have no order of their own; the final ORDER BY is left out, and the
    tables below are lists only to hold the rows. *)

(** The columns of TYPE_CORRECTED_COMBINED_METERS that the query reads. *)
Record CorrectedRow := mkCorrectedRow {
  cr_SiteId : string;
  cr_DataSource : string;
  cr_ObservationDateTime : Timestamp;
  cr_MeasuredValue : option R
}.

(** [GROUP BY]: one group for each distinct key. *)
Definition GROUP_BY {A K : Type} (K_eq_dec : forall a b : K, {a = b} + {a <> b})
    (key : A -> K) (rows : list A) : list (K * list A) :=
  map (fun k => (k, filter (fun r => if K_eq_dec (key r) k then true else false) rows))
      (nodup K_eq_dec (map key rows)).

(** [SUM] skips NULL and is NULL when no value is left. *)
Definition SUM (l : list (option R)) : option R :=
  match dropna l with
  | [] => None
  | xs => Some (Rsum xs)
  end.

Definition site_date_source_eq_dec (a b : string * date * string) : {a = b} + {a <> b}.
Proof. decide equality; [apply string_dec|decide equality; [apply date_eq_dec|apply string_dec]]. Defined.

Definition site_date_eq_dec (a b : string * date) : {a = b} + {a <> b}.
Proof. decide equality; [apply date_eq_dec|apply string_dec]. Defined.

Record DailySum := mkDailySum {
  dds_SiteId : string;
  dds_DATE : date;
  dds_DataSource : string;
  DailyMeasuredValue : option R
}.

(** A comparison with NULL is not true, so [WHERE MeasuredValue >= 0] drops
    the rows whose value is NULL. *)
Definition DAILY_DATASOURCE_SUM (corrected : list CorrectedRow) : list DailySum :=
  let selected := filter (fun r => fge (cr_MeasuredValue r) (Some 0%R)) corrected in
  map (fun '(k, g) =>
         {| dds_SiteId := fst (fst k);
            dds_DATE := snd (fst k);
            dds_DataSource := snd k;
            DailyMeasuredValue := SUM (map cr_MeasuredValue g) |})
      (GROUP_BY site_date_source_eq_dec
                (fun r => (cr_SiteId r, ts_date (cr_ObservationDateTime r), cr_DataSource r))
                selected).

Record DataSources := mkDataSources {
  nod_SiteId : string;
  nod_DATE : date;
  DuplicateDays : Z;
  nod_Max : option R;
  nod_Min : option R
}.

Definition NUMBER_OF_DATASOURCES (dds : list DailySum) : list DataSources :=
  map (fun '(k, g) =>
         {| nod_SiteId := fst k;
            nod_DATE := snd k;
            DuplicateDays := Z.of_nat (List.length g);
            nod_Max := fmax (map DailyMeasuredValue g);
            nod_Min := fmin (map DailyMeasuredValue g) |})
      (GROUP_BY site_date_eq_dec (fun d => (dds_SiteId d, dds_DATE d)) dds).

Record AbstractionRow := mkAbstractionRow {
  a_SiteId : string;
  a_DATE : date;
  a_DataSource : string;
  a_DailyMeasuredValue : option R;
  a_DuplicateDays : Z;
  a_Max : option R;
  a_Min : option R;
  Difference : option R
}.

(** The final SELECT: DAILY_DATASOURCE_SUM joined with NUMBER_OF_DATASOURCES
    on SiteId and DATE. *)
Definition abstraction_data (corrected : list CorrectedRow) : list AbstractionRow :=
  let DDS := DAILY_DATASOURCE_SUM corrected in
  let NOD := NUMBER_OF_DATASOURCES DDS in
  flat_map (fun d =>
              map (fun n =>
                     {| a_SiteId := dds_SiteId d;
                        a_DATE := dds_DATE d;
                        a_DataSource := dds_DataSource d;
                        a_DailyMeasuredValue := DailyMeasuredValue d;
                        a_DuplicateDays := DuplicateDays n;
                        a_Max := nod_Max n;
                        a_Min := nod_Min n;
                        Difference := sql_sub (nod_Max n) (nod_Min n) |})
                  (filter (fun n => (nod_SiteId n =? dds_SiteId d)%string
                                    && date_eqb (nod_DATE n) (dds_DATE d))
                          NOD))
           DDS.

(** One day of one site, reported by two data sources. *)
Definition two_sources : list CorrectedRow :=
  [ mkCorrectedRow "K37/0001" "Telemetry" (at_day 2022 2 17 0) (Some 3%R);
    mkCorrectedRow "K37/0001" "Telemetry" (at_day 2022 2 17 900) (Some (-1)%R);
    mkCorrectedRow "K37/0001" "Manual" (at_day 2022 2 17 0) (Some 5%R) ].

(** A service that answers every request with a table without rows. *)
Definition empty_answer (measurement : string) (from_d to_d : date)
    : option (list Reading) :=
  Some [].

(** * Properties *)

(** ** Comparisons on reals *)

Lemma Rltb_true (x y : R) : Rltb x y = true <-> (x < y)%R.
Proof. unfold Rltb; destruct (Rlt_dec x y); split; intros; auto; discriminate. Qed.

Lemma Rleb_true (x y : R) : Rleb x y = true <-> (x <= y)%R.
Proof. unfold Rleb; destruct (Rle_dec x y); split; intros; auto; discriminate. Qed.

Lemma Rltb_false (x y : R) : Rltb x y = false <-> (y <= x)%R.
Proof.
  unfold Rltb; destruct (Rlt_dec x y); split; intros; try discriminate; try lra; auto.
Qed.

Lemma Rleb_false (x y : R) : Rleb x y = false <-> (y < x)%R.
Proof.
  unfold Rleb; destruct (Rle_dec x y); split; intros; try discriminate; try lra; auto.
Qed.

(** Settles every comparison of concrete reals in the goal. *)
Ltac Rcompare :=
  unfold fgt, fge, flt, fle, Rltb, Rleb in *;
  repeat match goal with
  | |- context [Rlt_dec ?a ?b] =>
      destruct (Rlt_dec a b); [ try (exfalso; lra) | try (exfalso; lra) ]
  | |- context [Rle_dec ?a ?b] =>
      destruct (Rle_dec a b); [ try (exfalso; lra) | try (exfalso; lra) ]
  end.

Lemma flt_Some (a b : float) :
  flt a b = true <-> exists x y, a = Some x /\ b = Some y /\ (x < y)%R.
Proof.
  unfold flt; destruct a as [x|], b as [y|]; split; intros H;
    try discriminate; try (destruct H as (? & ? & ? & ? & _); discriminate).
  - exists x, y; rewrite <- Rltb_true; auto.
  - destruct H as (x' & y' & Hx & Hy & Hlt); inversion Hx; inversion Hy; subst.
    now apply Rltb_true.
Qed.

Lemma fle_Some (a b : float) :
  fle a b = true <-> exists x y, a = Some x /\ b = Some y /\ (x <= y)%R.
Proof.
  unfold fle; destruct a as [x|], b as [y|]; split; intros H;
    try discriminate; try (destruct H as (? & ? & ? & ? & _); discriminate).
  - exists x, y; rewrite <- Rleb_true; auto.
  - destruct H as (x' & y' & Hx & Hy & Hlt); inversion Hx; inversion Hy; subst.
    now apply Rleb_true.
Qed.

(** ** Unit conversion *)

Lemma diff_length (vs : list float) : List.length (diff vs) = List.length vs.
Proof.
  destruct vs as [|v tl]; simpl; auto. f_equal.
  revert v; induction tl as [|w tl IH]; intros v; simpl; auto.
Qed.

Lemma diff_from_nth (vs : list float) : forall prev i v,
  nth_error vs i = Some v ->
  nth_error (diff_from prev vs) i
  = Some (fsub v (match i with O => prev | S j => nth j vs NaN end)).
Proof.
  induction vs as [|w tl IH]; intros prev i v H.
  - destruct i; discriminate.
  - destruct i as [|i]; simpl in *.
    + now inversion H.
    + rewrite (IH w i v H). destruct i; reflexivity.
Qed.

Lemma diff_nth_succ (vs : list float) (i : nat) (p v : float) :
  nth_error vs i = Some p -> nth_error vs (S i) = Some v ->
  nth_error (diff vs) (S i) = Some (fsub v p).
Proof.
  destruct vs as [|w tl]; intros Hp Hv; [destruct i; discriminate|].
  simpl in *. rewrite (diff_from_nth tl w i v Hv).
  destruct i as [|i]; simpl in Hp.
  - now inversion Hp.
  - now rewrite (nth_error_nth _ _ NaN Hp).
Qed.

Lemma combine_nth_error {A B} (l : list A) : forall (l' : list B) i a b,
  nth_error l i = Some a -> nth_error l' i = Some b ->
  nth_error (combine l l') i = Some (a, b).
Proof.
  induction l as [|x l IH]; intros l' i a b Ha Hb.
  - destruct i; discriminate.
  - destruct l' as [|y l']; [destruct i; discriminate|].
    destruct i as [|i]; simpl in *.
    + now inversion Ha; inversion Hb.
    + now apply IH.
Qed.

Lemma convert_rows_length (rows : list Reading) :
  List.length (convert_rows rows) = List.length rows.
Proof.
  unfold convert_rows.
  rewrite length_map, length_combine, diff_length, length_map. lia.
Qed.

Lemma convert_rows_nth (rows : list Reading) (i : nat) (r : Reading) (d : float) :
  nth_error rows i = Some r ->
  nth_error (diff (map Value rows)) i = Some d ->
  nth_error (convert_rows rows) i
  = Some {| reading := r; Date := ts_date (DateTime r);
            Vol := if is_water_meter r then d else Value r |}.
Proof.
  intros Hr Hd. unfold convert_rows.
  rewrite nth_error_map, (combine_nth_error _ _ _ _ _ Hr Hd). reflexivity.
Qed.

Lemma diff_nth_defined (vs : list float) (i : nat) :
  (i < List.length vs)%nat -> exists d, nth_error (diff vs) i = Some d.
Proof.
  intros H. rewrite <- diff_length in H.
  destruct (nth_error (diff vs) i) eqn:E; eauto.
  apply nth_error_None in E. lia.
Qed.

Lemma remove_negative_values_In (dataframe : list VolRow) (v : VolRow) :
  In v (remove_negative_values dataframe)
  <-> In v dataframe /\ exists x, Vol v = Some x /\ (0 <= x)%R.
Proof.
  unfold remove_negative_values. rewrite filter_In. unfold fge.
  rewrite fle_Some. split.
  - intros [Hin (x & y & Hx & Hy & Hle)]. inversion Hx; subst. eauto.
  - intros [Hin (x & Hx & Hle)]. split; auto. exists 0%R, x. auto.
Qed.

(** Differencing runs over the whole Value column: a Water Meter row that
    follows a row of another kind is differenced against that row. *)
Example mixed_readings_volumes :
  map Vol (convert_rows mixed_readings) = [Some 7%R; Some 93%R; Some 5%R].
Proof. unfold convert_rows, mixed_readings; simpl. repeat f_equal; lra. Qed.

Lemma remove_negative_values_drops_head (r : Reading) (d : date) (tl : list VolRow) :
  remove_negative_values ({| reading := r; Date := d; Vol := NaN |} :: tl)
  = remove_negative_values tl.
Proof. reflexivity. Qed.

(** C1, as stated, fails: the first Water Meter reading of [meter_run] has
    an undefined volume after conversion, and no record of that reading is
    left in the series that [remove_negative_values] passes downstream. *)
Lemma C1_first_reading_dropped :
  exists v, In v (convert_rows meter_run)
            /\ Vol v = NaN
            /\ forall v', In v' (remove_negative_values (convert_rows meter_run)) ->
                          reading v' <> reading v.
Proof.
  exists {| reading := mkReading "Water Meter" (at_day 2020 3 15 0) (Some 10%R);
            Date := mkdate 2020 3 15; Vol := NaN |}.
  split; [simpl; left; reflexivity|]. split; [reflexivity|].
  intros v' Hin. apply remove_negative_values_In in Hin.
  destruct Hin as [Hin (x & Hx & _)]. simpl in Hin.
  destruct Hin as [E|[E|[E|[E|[]]]]]; subst v'; simpl in *; discriminate.
Qed.

(** C1 (amended): on a table of Water Meter readings only, conversion
    keeps one record per reading, the first with a missing (NaN) volume and
    every later one with the difference to its predecessor; the filter on
    Vol >= 0 then passes on no record with a missing volume.  For the
    readings 10, 15, 12, 20 the volumes are NaN, 5, -3, 8 and the filtered
    series keeps 5 and 8. *)
Theorem C1_water_meter_differencing :
  (forall rows,
      Forall (fun r => Measurement r = "Water Meter") rows ->
      List.length (convert_rows rows) = List.length rows
      /\ (forall r0, nth_error rows 0 = Some r0 ->
            option_map Vol (nth_error (convert_rows rows) 0) = Some NaN)
      /\ (forall i p r, nth_error rows i = Some p -> nth_error rows (S i) = Some r ->
            option_map Vol (nth_error (convert_rows rows) (S i))
            = Some (fsub (Value r) (Value p)))
      /\ (forall v, In v (remove_negative_values (convert_rows rows)) -> Vol v <> NaN)
      /\ remove_negative_values (convert_rows rows)
         = remove_negative_values (tl (convert_rows rows)))
  /\ map Vol (convert_rows meter_run)
     = [NaN; Some 5%R; Some (-3)%R; Some 8%R]
  /\ map Vol (remove_negative_values (convert_rows meter_run))
     = [Some 5%R; Some 8%R].
Proof.
  split; [|split].
  - intros rows Hwm. split; [apply convert_rows_length|]. split; [|split; [|split]].
    + intros r0 H0. destruct rows as [|r rows]; [discriminate|].
      inversion H0; subst r0. inversion Hwm; subst.
      unfold convert_rows, is_water_meter; simpl.
      replace (Measurement r =? "Water Meter")%string with true; auto.
      symmetry; now apply String.eqb_eq.
    + intros i p r Hp Hr.
      assert (Hd : nth_error (diff (map Value rows)) (S i) = Some (fsub (Value r) (Value p))).
      { apply diff_nth_succ; rewrite nth_error_map; [rewrite Hp | rewrite Hr]; reflexivity. }
      rewrite (convert_rows_nth _ _ _ _ Hr Hd). simpl.
      rewrite Forall_forall in Hwm.
      assert (Hm : Measurement r = "Water Meter") by (apply Hwm; eapply nth_error_In; eauto).
      unfold is_water_meter. apply String.eqb_eq in Hm. now rewrite Hm.
    + intros v Hin. apply remove_negative_values_In in Hin.
      destruct Hin as [_ (x & Hx & _)]. rewrite Hx. discriminate.
    + destruct rows as [|r rows]; [reflexivity|].
      inversion Hwm; subst. unfold convert_rows, is_water_meter; simpl.
      replace (Measurement r =? "Water Meter")%string with true; auto.
      symmetry; now apply String.eqb_eq.
  - unfold convert_rows, meter_run; simpl. repeat f_equal; lra.
  - unfold convert_rows, meter_run, remove_negative_values; simpl.
    Rcompare. simpl. repeat f_equal; lra.
Qed.

Lemma C1_water_meter_differencing_witness :
  Forall (fun r => Measurement r = "Water Meter") meter_run
  /\ List.length (convert_rows meter_run) = List.length meter_run
  /\ (forall v, In v (remove_negative_values (convert_rows meter_run)) -> Vol v <> NaN).
Proof.
  assert (H : Forall (fun r => Measurement r = "Water Meter") meter_run)
    by (repeat constructor).
  split; [exact H|].
  destruct (proj1 C1_water_meter_differencing meter_run H) as (Hlen & _ & _ & Hdrop & _).
  split; [exact Hlen | exact Hdrop].
Defined.

(** C9, as stated, fails on the Snowflake extraction: a Flow reading is not
    a Water Meter reading, yet its derived volume is the value times 1000
    over the seconds since the previous reading, here 10 for a raw 9. *)
Lemma C9_flow_reading_rescaled :
  AttributeName flow_obs <> "Water Meter"
  /\ MeasuredValue flow_obs (Some flow_prev) = Ok (Some 10%R)
  /\ MeasuredValue flow_obs (Some flow_prev) <> Ok (ObservationValue flow_obs).
Proof.
  assert (Hv : MeasuredValue flow_obs (Some flow_prev) = Ok (Some 10%R)).
  { unfold MeasuredValue. simpl AttributeName. simpl String.eqb.
    cbv iota. simpl option_map.
    replace (TIMEDIFF_seconds _ _) with (Some 900) by (vm_compute; reflexivity).
    simpl. do 2 f_equal. lra. }
  split; [simpl; discriminate|]. split; [exact Hv|].
  rewrite Hv. simpl. intros H. inversion H as [H1]. lra.
Qed.

(** C9 (amended): in [convert_water_use_data] every reading whose
    Measurement is not 'Water Meter' keeps its raw value as volume; in the
    Snowflake extraction the raw value is kept for every attribute other
    than 'Water Meter', 'Flow' and 'Average Flow'.  There a Flow value is
    multiplied by 1000 and divided by the seconds since the previous
    reading, and an Average Flow value is divided by the hours since the
    previous reading, counted as [TIMEDIFF] counts them (the clock hours
    begun in between), whenever that divisor is not 0. *)
Theorem C9_other_kinds_unchanged :
  (forall rows i r,
      nth_error rows i = Some r ->
      Measurement r <> "Water Meter" ->
      nth_error (convert_rows rows) i
      = Some {| reading := r; Date := ts_date (DateTime r); Vol := Value r |})
  /\ (forall obs prev,
        AttributeName obs <> "Water Meter" ->
        AttributeName obs <> "Flow" ->
        AttributeName obs <> "Average Flow" ->
        MeasuredValue obs prev = Ok (ObservationValue obs))
  /\ (forall obs prev v,
        AttributeName obs = "Flow" ->
        ObservationValue obs = Some v ->
        let seconds := epoch_seconds (ObservationDateTime obs)
                       - epoch_seconds (ObservationDateTime prev) in
        seconds <> 0 ->
        MeasuredValue obs (Some prev) = Ok (Some (v * 1000 / IZR seconds)%R))
  /\ (forall obs prev v,
        AttributeName obs = "Average Flow" ->
        ObservationValue obs = Some v ->
        let hours := epoch_seconds (ObservationDateTime obs) / 3600
                     - epoch_seconds (ObservationDateTime prev) / 3600 in
        hours <> 0 ->
        MeasuredValue obs (Some prev) = Ok (Some (v / IZR hours)%R)).
Proof.
  split; [|split; [|split]].
  - intros rows i r Hr Hk.
    destruct (diff_nth_defined (map Value rows) i) as [d Hd].
    { rewrite length_map. apply nth_error_Some. rewrite Hr. discriminate. }
    rewrite (convert_rows_nth _ _ _ _ Hr Hd).
    unfold is_water_meter. apply String.eqb_neq in Hk. now rewrite Hk.
  - intros obs prev Hwm Hflow Havg. unfold MeasuredValue.
    apply String.eqb_neq in Hwm, Hflow, Havg. now rewrite Hwm, Hflow, Havg.
  - intros obs prev v Hk Hv seconds Hs. unfold MeasuredValue.
    rewrite Hk, Hv. cbn [String.eqb Ascii.eqb Bool.eqb option_map fmul TIMEDIFF_seconds sql_div].
    fold seconds. apply Z.eqb_neq in Hs. now rewrite Hs.
  - intros obs prev v Hk Hv hours Hh. unfold MeasuredValue.
    rewrite Hk, Hv. cbn [String.eqb Ascii.eqb Bool.eqb option_map TIMEDIFF_hours sql_div].
    fold hours. apply Z.eqb_neq in Hh. now rewrite Hh.
Qed.

Lemma C9_other_kinds_unchanged_witness :
  nth_error (convert_rows (compliance_reading :: meter_run)) 0
  = Some {| reading := compliance_reading; Date := mkdate 2020 3 15; Vol := Some 7%R |}
  /\ MeasuredValue compliance_obs None = Ok (Some 7%R)
  /\ MeasuredValue flow_obs (Some flow_prev) = Ok (Some (9 * 1000 / 900)%R)
  /\ MeasuredValue hourly_flow_obs (Some hourly_flow_prev) = Ok (Some (6 / 2)%R).
Proof.
  split; [|split; [|split]].
  - apply (proj1 C9_other_kinds_unchanged (compliance_reading :: meter_run) 0%nat
             compliance_reading).
    + reflexivity.
    + simpl; discriminate.
  - apply (proj1 (proj2 C9_other_kinds_unchanged) compliance_obs None);
      simpl; discriminate.
  - apply (proj1 (proj2 (proj2 C9_other_kinds_unchanged)) flow_obs flow_prev 9%R).
    + reflexivity.
    + reflexivity.
    + vm_compute. discriminate.
  - apply (proj2 (proj2 (proj2 C9_other_kinds_unchanged))
             hourly_flow_obs hourly_flow_prev 6%R).
    + reflexivity.
    + reflexivity.
    + vm_compute. discriminate.
Defined.

(** ** Spike detection *)

(** The three [.loc] assignments, row by row. *)
Lemma detect_spikes_rows (dataframe : list VolRow) (mean sd : float) :
  detect_spikes dataframe mean sd
  = map (fun r =>
           let guard := fge sd (Some 1%R) && (100 <? Z.of_nat (List.length dataframe)) in
           {| vol_row := r;
              sd5 := if guard && fgt (Vol r) (fadd mean (fmul sd (Some 5%R))) then 1 else 0;
              sd10 := if guard && fgt (Vol r) (fadd mean (fmul sd (Some 10%R))) then 1 else 0;
              sd20 := if guard && fgt (Vol r) (fadd mean (fmul sd (Some 20%R))) then 1 else 0 |})
        dataframe.
Proof.
  unfold detect_spikes. rewrite length_map.
  destruct (fge sd (Some 1%R) && (100 <? Z.of_nat (List.length dataframe))); simpl.
  - unfold loc_set. rewrite !map_map. apply map_ext. intros r.
    unfold above, set_sd5, set_sd10, set_sd20; simpl.
    destruct (fgt (Vol r) (fadd mean (fmul sd (Some 5%R)))); simpl;
      destruct (fgt (Vol r) (fadd mean (fmul sd (Some 10%R)))); simpl;
      destruct (fgt (Vol r) (fadd mean (fmul sd (Some 20%R)))); reflexivity.
  - reflexivity.
Qed.

Lemma detect_spikes_length (dataframe : list VolRow) (mean sd : float) :
  List.length (detect_spikes dataframe mean sd) = List.length dataframe.
Proof. rewrite detect_spikes_rows. apply length_map. Qed.

Lemma detect_spikes_vol_rows (dataframe : list VolRow) (mean sd : float) :
  map vol_row (detect_spikes dataframe mean sd) = dataframe.
Proof.
  rewrite detect_spikes_rows, map_map. simpl. apply map_id.
Qed.

(** A threshold comparison that succeeds has all its operands defined. *)
Lemma above_threshold (v mean sd : float) (k : R) :
  fgt v (fadd mean (fmul sd (Some k))) = true ->
  exists x m s, v = Some x /\ mean = Some m /\ sd = Some s /\ (m + s * k < x)%R.
Proof.
  unfold fgt. rewrite flt_Some. intros (t & x & Ht & Hx & Hlt).
  destruct mean as [m|], sd as [s|]; simpl in Ht; try discriminate.
  inversion Ht; subst. exists x, m, s. auto.
Qed.

Lemma above_threshold_iff (x m s k : R) :
  fgt (Some x) (fadd (Some m) (fmul (Some s) (Some k))) = true <-> (m + s * k < x)%R.
Proof. unfold fgt; simpl. apply Rltb_true. Qed.

(** C4: in the table returned by [detect_spikes] (the same function in both
    scripts), whatever mean and sd it is given, a record flagged at 20 sd is
    flagged at 10 sd and at 5 sd, and a record flagged at 10 sd is flagged
    at 5 sd. *)
Theorem C4_spike_flags_nested (dataframe : list VolRow) (mean sd : float) (s : StatRow) :
  In s (detect_spikes dataframe mean sd) ->
  (sd20 s = 1 -> sd10 s = 1 /\ sd5 s = 1) /\ (sd10 s = 1 -> sd5 s = 1).
Proof.
  rewrite detect_spikes_rows, in_map_iff. intros (r & <- & _).
  cbn [sd5 sd10 sd20].
  destruct (fge sd (Some 1%R)) eqn:Hsd; cbn [andb]; [|split; discriminate].
  destruct (100 <? Z.of_nat (List.length dataframe)); cbn [andb]; [|split; discriminate].
  unfold fge in Hsd. apply fle_Some in Hsd.
  destruct Hsd as (one & sg & Hone & -> & Hge). inversion Hone; subst one.
  destruct (Vol r) as [x|], mean as [m|];
    try (split; intros; discriminate).
  unfold fgt, flt, fadd, fmul, Rltb.
  destruct (Rlt_dec (m + sg * 5) x), (Rlt_dec (m + sg * 10) x), (Rlt_dec (m + sg * 20) x);
    (split; [intros; split|intros]); first [reflexivity | discriminate | exfalso; nra].
Qed.

(** *** The example series [sparse_series] *)

Lemma filter_all {A} (f : A -> bool) (l : list A) :
  (forall x, In x l -> f x = true) -> filter f l = l.
Proof.
  induction l as [|a l IH]; intros H; simpl; auto.
  rewrite (H a (or_introl eq_refl)), IH; auto. intros x Hx; apply H; now right.
Qed.

Lemma filter_none {A} (f : A -> bool) (l : list A) :
  (forall x, In x l -> f x = false) -> filter f l = [].
Proof.
  induction l as [|a l IH]; intros H; simpl; auto.
  rewrite (H a (or_introl eq_refl)), IH; auto. intros x Hx; apply H; now right.
Qed.

(** Without Water Meter rows, conversion copies Value into Vol. *)
Lemma convert_rows_no_meter (rows : list Reading) :
  Forall (fun r => Measurement r <> "Water Meter") rows ->
  convert_rows rows
  = map (fun r => {| reading := r; Date := ts_date (DateTime r); Vol := Value r |}) rows.
Proof.
  intros H. unfold convert_rows.
  assert (G : forall ds, List.length ds = List.length rows ->
    map (fun '(r, d) => {| reading := r; Date := ts_date (DateTime r);
                           Vol := if is_water_meter r then d else Value r |})
        (combine rows ds)
    = map (fun r => {| reading := r; Date := ts_date (DateTime r); Vol := Value r |}) rows).
  { induction H as [|r rows Hr Hrows IH]; intros ds Hlen; [reflexivity|].
    destruct ds as [|d ds]; [discriminate|]. simpl.
    unfold is_water_meter at 1. apply String.eqb_neq in Hr. rewrite Hr.
    f_equal. apply IH. simpl in Hlen. lia. }
  apply G. now rewrite diff_length, length_map.
Qed.

Lemma segment_In (v : R) (start len : nat) (r : Reading) :
  In r (segment v start len) ->
  Measurement r = "Compliance Volume" /\ Value r = Some v.
Proof.
  unfold segment. rewrite in_map_iff. intros (i & <- & _). split; reflexivity.
Qed.

Lemma sparse_series_rows :
  sparse_series
  = map (fun r => {| reading := r; Date := ts_date (DateTime r); Vol := Value r |})
        sparse_readings.
Proof.
  unfold sparse_series. rewrite convert_rows_no_meter.
  - unfold remove_negative_values. apply filter_all.
    intros x Hx. apply in_map_iff in Hx. destruct Hx as (r & <- & Hr). simpl.
    unfold sparse_readings in Hr.
    repeat (apply in_app_or in Hr; destruct Hr as [Hr|Hr]);
      apply segment_In in Hr; destruct Hr as [_ ->]; Rcompare; reflexivity.
  - apply Forall_forall. intros r Hr. unfold sparse_readings in Hr.
    repeat (apply in_app_or in Hr; destruct Hr as [Hr|Hr]);
      apply segment_In in Hr; destruct Hr as [-> _]; discriminate.
Qed.

Lemma sparse_series_length : Z.of_nat (List.length sparse_series) = 101.
Proof.
  rewrite sparse_series_rows, length_map. unfold sparse_readings, segment.
  rewrite !length_app, !length_map, !length_seq. reflexivity.
Qed.

Lemma sparse_series_positive :
  map Vol (filter (fun r => fgt (Vol r) (Some 0%R)) sparse_series)
  = map Value (segment 1 65 35 ++ segment 7 100 1).
Proof.
  rewrite sparse_series_rows. unfold sparse_readings.
  rewrite map_app, filter_app, filter_none, filter_all.
  - rewrite app_nil_l, map_map. reflexivity.
  - intros x Hx. apply in_map_iff in Hx. destruct Hx as (r & <- & Hr). simpl.
    repeat (apply in_app_or in Hr; destruct Hr as [Hr|Hr]);
      apply segment_In in Hr; destruct Hr as [_ ->]; Rcompare; reflexivity.
  - intros x Hx. apply in_map_iff in Hx. destruct Hx as (r & <- & Hr). simpl.
    apply segment_In in Hr; destruct Hr as [_ ->]; Rcompare; reflexivity.
Qed.

Lemma sparse_series_parameters :
  calculate_spike_parameters sparse_series = (Some (7 / 6)%R, Some 1%R).
Proof.
  unfold calculate_spike_parameters. rewrite sparse_series_positive.
  unfold mean, std. simpl dropna. cbv iota beta.
  match goal with
  | |- context [Rmean ?l] => assert (Hm : Rmean l = (7 / 6)%R)
  end.
  { unfold Rmean. rewrite INR_IZR_INZ. simpl. lra. }
  match goal with
  | |- context [Rvar ?l] => assert (Hv : Rvar l = 1%R)
  end.
  { unfold Rvar. rewrite Hm, INR_IZR_INZ. simpl. lra. }
  rewrite Hm, Hv, sqrt_1. reflexivity.
Qed.

(** *** The example series [burst_series] *)

Lemma burst_series_rows :
  burst_series
  = map (fun r => {| reading := r; Date := ts_date (DateTime r); Vol := Value r |})
        burst_readings.
Proof.
  unfold burst_series. rewrite convert_rows_no_meter.
  - unfold remove_negative_values. apply filter_all.
    intros x Hx. apply in_map_iff in Hx. destruct Hx as (r & <- & Hr). simpl.
    unfold burst_readings in Hr.
    repeat (apply in_app_or in Hr; destruct Hr as [Hr|Hr]);
      apply segment_In in Hr; destruct Hr as [_ ->]; Rcompare; reflexivity.
  - apply Forall_forall. intros r Hr. unfold burst_readings in Hr.
    repeat (apply in_app_or in Hr; destruct Hr as [Hr|Hr]);
      apply segment_In in Hr; destruct Hr as [-> _]; discriminate.
Qed.

Lemma burst_series_length : Z.of_nat (List.length burst_series) = 101.
Proof.
  rewrite burst_series_rows, length_map. unfold burst_readings, segment.
  rewrite !length_app, !length_map, !length_seq. reflexivity.
Qed.

Lemma burst_series_positive :
  map Vol (filter (fun r => fgt (Vol r) (Some 0%R)) burst_series)
  = map Value (segment 1 65 35 ++ segment 70 100 1).
Proof.
  rewrite burst_series_rows. unfold burst_readings.
  rewrite map_app, filter_app, filter_none, filter_all.
  - rewrite app_nil_l, map_map. reflexivity.
  - intros x Hx. apply in_map_iff in Hx. destruct Hx as (r & <- & Hr). simpl.
    repeat (apply in_app_or in Hr; destruct Hr as [Hr|Hr]);
      apply segment_In in Hr; destruct Hr as [_ ->]; Rcompare; reflexivity.
  - intros x Hx. apply in_map_iff in Hx. destruct Hx as (r & <- & Hr). simpl.
    apply segment_In in Hr; destruct Hr as [_ ->]; Rcompare; reflexivity.
Qed.

(** The 36 positive volumes have mean 35/12 and standard deviation 23/2. *)
Lemma burst_series_parameters :
  calculate_spike_parameters burst_series = (Some (35 / 12)%R, Some (23 / 2)%R).
Proof.
  unfold calculate_spike_parameters. rewrite burst_series_positive.
  unfold mean, std. simpl dropna. cbv iota beta.
  match goal with
  | |- context [Rmean ?l] => assert (Hm : Rmean l = (35 / 12)%R)
  end.
  { unfold Rmean. rewrite INR_IZR_INZ. simpl. lra. }
  match goal with
  | |- context [Rvar ?l] => assert (Hv : Rvar l = ((23 / 2) * (23 / 2))%R)
  end.
  { unfold Rvar. rewrite Hm, INR_IZR_INZ. simpl. lra. }
  rewrite Hm, Hv, sqrt_square by lra. reflexivity.
Qed.

Lemma burst_spike_In_series : In (vol_row burst_spike) burst_series.
Proof.
  rewrite burst_series_rows. apply in_map_iff.
  exists (compliance_volume 70 100). split; [reflexivity|].
  unfold burst_readings. apply in_or_app; right. apply in_or_app; right.
  left; reflexivity.
Qed.

Lemma burst_spike_detected :
  In burst_spike (detect_spikes burst_series (Some (35 / 12)%R) (Some (23 / 2)%R)).
Proof.
  rewrite detect_spikes_rows. apply in_map_iff.
  exists (vol_row burst_spike). split; [|apply burst_spike_In_series].
  rewrite burst_series_length. unfold burst_spike. simpl.
  Rcompare. reflexivity.
Qed.

Lemma burst_spike_flagged : In burst_spike (spike_flagged burst_series).
Proof.
  unfold spike_flagged. rewrite burst_series_parameters. apply burst_spike_detected.
Qed.

(** The spike example with mean 10 and sd 2: a volume of 31 is above
    10 + 2 * 5 and 10 + 2 * 10 but not above 10 + 2 * 20. *)
Lemma spike_sample_detected :
  In spike_sample_row (detect_spikes spike_sample (Some 10%R) (Some 2%R)).
Proof.
  rewrite detect_spikes_rows. apply in_map_iff.
  exists (vol_row spike_sample_row). split.
  - replace (Z.of_nat (List.length spike_sample)) with 150
      by (unfold spike_sample, segment;
          now rewrite length_map, length_app, !length_map, !length_seq).
    unfold spike_sample_row. simpl. Rcompare. reflexivity.
  - unfold spike_sample. apply in_map_iff.
    exists (compliance_volume 31 149). split; [reflexivity|].
    apply in_or_app; right. left; reflexivity.
Qed.

Lemma C4_spike_flags_nested_witness :
  In spike_sample_row (detect_spikes spike_sample (Some 10%R) (Some 2%R))
  /\ (sd20 spike_sample_row = 1 -> sd10 spike_sample_row = 1 /\ sd5 spike_sample_row = 1)
  /\ (sd10 spike_sample_row = 1 -> sd5 spike_sample_row = 1).
Proof.
  split; [apply spike_sample_detected|].
  apply (C4_spike_flags_nested spike_sample (Some 10%R) (Some 2%R) spike_sample_row).
  apply spike_sample_detected.
Defined.

(** *** The parameters come from the positive volumes *)

Lemma positive_volumes (dataframe : list VolRow) :
  Forall (fun x => (0 < x)%R)
         (dropna (map Vol (filter (fun r => fgt (Vol r) (Some 0%R)) dataframe))).
Proof.
  induction dataframe as [|r df IH]; cbn [filter]; [constructor|].
  destruct (fgt (Vol r) (Some 0%R)) eqn:E; [|exact IH].
  unfold fgt in E. apply flt_Some in E. destruct E as (z & x & Hz & Hx & Hlt).
  inversion Hz; subst z. cbn [map dropna]. rewrite Hx. constructor; assumption.
Qed.

Lemma Rsum_positive (xs : list R) :
  Forall (fun x => (0 < x)%R) xs -> xs <> [] -> (0 < Rsum xs)%R.
Proof.
  induction 1 as [|x xs Hx Hxs IH]; intros Hne; [congruence|].
  simpl. destruct xs as [|y ys].
  - simpl. lra.
  - assert (0 < Rsum (y :: ys))%R by (apply IH; discriminate). lra.
Qed.

Lemma Rmean_positive (xs : list R) :
  Forall (fun x => (0 < x)%R) xs -> xs <> [] -> (0 < Rmean xs)%R.
Proof.
  intros Hpos Hne. unfold Rmean. apply Rdiv_lt_0_compat.
  - now apply Rsum_positive.
  - apply lt_0_INR. destruct xs; [congruence|simpl; lia].
Qed.

(** Whenever the standard deviation is defined, the mean is defined and
    strictly positive. *)
Lemma spike_parameters_positive_mean (dataframe : list VolRow) (mu sigma : float) (s : R) :
  calculate_spike_parameters dataframe = (mu, sigma) ->
  sigma = Some s ->
  exists m, mu = Some m /\ (0 < m)%R /\ (0 <= s)%R.
Proof.
  unfold calculate_spike_parameters, mean, std. intros Hp Hs.
  pose proof (positive_volumes dataframe) as Hpos.
  destruct (dropna (map Vol (filter (fun r => fgt (Vol r) (Some 0%R)) dataframe)))
    as [|x [|y ys]]; injection Hp as Hm Hsd; rewrite Hs in Hsd; try discriminate.
  exists (Rmean (x :: y :: ys)). split; [now symmetry|]. split.
  - apply Rmean_positive; [assumption|discriminate].
  - injection Hsd as <-. apply sqrt_pos.
Qed.

Lemma filter_idempotent {A} (f : A -> bool) (l : list A) :
  filter f (filter f l) = filter f l.
Proof.
  apply filter_all. intros x Hx. apply filter_In in Hx. tauto.
Qed.

(** The flags of a row of the flagged series, in terms of the guard. *)
Lemma spike_flagged_In (dataframe : list VolRow) (s : StatRow) :
  In s (spike_flagged dataframe) ->
  let mean := fst (calculate_spike_parameters dataframe) in
  let sd := snd (calculate_spike_parameters dataframe) in
  let guard := fge sd (Some 1%R) && (100 <? Z.of_nat (List.length dataframe)) in
  In (vol_row s) dataframe
  /\ sd5 s = (if guard && fgt (Vol (vol_row s)) (fadd mean (fmul sd (Some 5%R))) then 1 else 0)
  /\ sd10 s = (if guard && fgt (Vol (vol_row s)) (fadd mean (fmul sd (Some 10%R))) then 1 else 0)
  /\ sd20 s = (if guard && fgt (Vol (vol_row s)) (fadd mean (fmul sd (Some 20%R))) then 1 else 0).
Proof.
  unfold spike_flagged.
  destruct (calculate_spike_parameters dataframe) as [m sd] eqn:E.
  rewrite detect_spikes_rows, in_map_iff. intros (r & <- & Hr). simpl. auto.
Qed.




(** C10: in the flagged series that [main] builds (parameters computed
    from the series that is flagged), a record whose volume is missing or
    not above 0 carries no flag. *)
Theorem C10_no_flag_on_nonpositive_volume (dataframe : list VolRow) (s : StatRow) :
  In s (spike_flagged dataframe) ->
  (forall x, Vol (vol_row s) = Some x -> (x <= 0)%R) ->
  sd5 s = 0 /\ sd10 s = 0 /\ sd20 s = 0.
Proof.
  intros Hin Hvol. apply spike_flagged_In in Hin.
  destruct Hin as (_ & H5 & H10 & H20).
  destruct (calculate_spike_parameters dataframe) as [mu sigma] eqn:E.
  cbn [fst snd] in H5, H10, H20.
  assert (Hno : forall k, (0 < k)%R ->
            fge sigma (Some 1%R) = true ->
            fgt (Vol (vol_row s)) (fadd mu (fmul sigma (Some k))) = false).
  { intros k Hk Hsd. unfold fge in Hsd. apply fle_Some in Hsd.
    destruct Hsd as (one & sg & Hone & Hs & Hle). inversion Hone; subst one.
    destruct (spike_parameters_positive_mean _ _ _ _ E Hs) as (m & Hm & Hpos & _).
    subst mu sigma.
    destruct (Vol (vol_row s)) as [x|] eqn:Ex; [|reflexivity].
    specialize (Hvol x eq_refl).
    destruct (fgt (Some x) (fadd (Some m) (fmul (Some sg) (Some k)))) eqn:F; auto.
    apply above_threshold_iff in F. nra. }
  destruct (fge sigma (Some 1%R)) eqn:Hsd; cbn [andb] in H5, H10, H20; [|auto].
  rewrite Hno in H5, H10, H20 by (auto; lra).
  rewrite andb_false_r in H5, H10, H20. auto.
Qed.

(** ** Grouping *)

Section GroupingFacts.
Context {K : Type} (K_eq_dec : forall a b : K, {a = b} + {a <> b}) (leb : K -> K -> bool).

Lemma insert_sorted_In (k x : K) (l : list K) :
  In x (insert_sorted leb k l) <-> x = k \/ In x l.
Proof.
  induction l as [|h tl IH]; simpl.
  - intuition.
  - destruct (leb k h); simpl; rewrite ?IH; intuition.
Qed.

Lemma sort_keys_In (x : K) (l : list K) : In x (sort_keys leb l) <-> In x l.
Proof.
  induction l as [|h tl IH]; simpl; [tauto|].
  rewrite insert_sorted_In, IH. intuition.
Qed.

Lemma insert_sorted_NoDup (k : K) (l : list K) :
  NoDup l -> ~ In k l -> NoDup (insert_sorted leb k l).
Proof.
  induction l as [|h tl IH]; intros Hnd Hk; simpl.
  - constructor; [intros []|constructor].
  - destruct (leb k h).
    + constructor; assumption.
    + inversion Hnd; subst. constructor.
      * rewrite insert_sorted_In. intros [->|Hin]; [apply Hk; now left|contradiction].
      * apply IH; [assumption|]. intros Hin; apply Hk; now right.
Qed.

Lemma sort_keys_NoDup (l : list K) : NoDup l -> NoDup (sort_keys leb l).
Proof.
  induction 1 as [|h tl Hh Hnd IH]; simpl; [constructor|].
  apply insert_sorted_NoDup; [assumption|]. now rewrite sort_keys_In.
Qed.

Lemma group_keys_In (x : K) (l : list K) : In x (group_keys K_eq_dec leb l) <-> In x l.
Proof. unfold group_keys. now rewrite sort_keys_In, nodup_In. Qed.

Lemma group_keys_NoDup (l : list K) : NoDup (group_keys K_eq_dec leb l).
Proof. unfold group_keys. apply sort_keys_NoDup, NoDup_nodup. Qed.

Lemma groupby_keys {A} (key : A -> K) (rows : list A) :
  map fst (groupby K_eq_dec leb key rows) = group_keys K_eq_dec leb (map key rows).
Proof. unfold groupby. rewrite map_map. simpl. apply map_id. Qed.

(** A group is labelled by the key of one of the rows and holds exactly the
    rows of that key. *)
Lemma groupby_In {A} (key : A -> K) (rows : list A) (k : K) (g : list A) :
  In (k, g) (groupby K_eq_dec leb key rows)
  <-> (exists r, In r rows /\ key r = k)
      /\ g = filter (fun r => if K_eq_dec (key r) k then true else false) rows.
Proof.
  unfold groupby. rewrite in_map_iff. split.
  - intros (k' & Heq & Hin). inversion Heq; subst. split; [|reflexivity].
    apply group_keys_In, in_map_iff in Hin. destruct Hin as (r & Hr & Hin). eauto.
  - intros [(r & Hr & Hk) ->]. exists k. split; [reflexivity|].
    apply group_keys_In, in_map_iff. eauto.
Qed.

Lemma groupby_nil {A} (key : A -> K) : groupby K_eq_dec leb key [] = [].
Proof. reflexivity. Qed.

(** Rows that all carry one key form a single group. *)
Lemma groupby_single_key {A} (key : A -> K) (k : K) (r : A) (rows : list A) :
  (forall x, In x (r :: rows) -> key x = k) ->
  groupby K_eq_dec leb key (r :: rows) = [(k, r :: rows)].
Proof.
  intros Hk. unfold groupby, group_keys.
  assert (Hn : forall l, (forall x, In x l -> key x = k) -> l <> [] ->
                         nodup K_eq_dec (map key l) = [k]).
  { induction l as [|a l IH]; intros Hl Hne; [congruence|].
    simpl. rewrite (Hl a (or_introl eq_refl)).
    destruct l as [|b l].
    - simpl. reflexivity.
    - destruct (in_dec K_eq_dec k (map key (b :: l))) as [Hin|Hnin].
      + apply IH; [intros x Hx; apply Hl; now right | discriminate].
      + exfalso. apply Hnin. simpl. left. apply Hl. right. now left. }
  rewrite Hn; [|assumption|discriminate]. cbn [sort_keys fold_right insert_sorted map].
  f_equal. f_equal. apply filter_all. intros x Hx. rewrite (Hk x Hx).
  destruct (K_eq_dec k k); congruence.
Qed.
End GroupingFacts.

Lemma C10_no_flag_on_nonpositive_volume_witness :
  In sparse_idle (spike_flagged sparse_series)
  /\ sd5 sparse_idle = 0 /\ sd10 sparse_idle = 0 /\ sd20 sparse_idle = 0.
Proof.
  assert (Hin : In sparse_idle (spike_flagged sparse_series)).
  { unfold spike_flagged. rewrite sparse_series_parameters.
    rewrite detect_spikes_rows. apply in_map_iff.
    exists (vol_row sparse_idle). split.
    - rewrite sparse_series_length. unfold sparse_idle. simpl. Rcompare. reflexivity.
    - rewrite sparse_series_rows. apply in_map_iff.
      exists (compliance_volume 0 0). split; [reflexivity|].
      unfold sparse_readings. apply in_or_app; left. left; reflexivity. }
  split; [exact Hin|].
  apply (C10_no_flag_on_nonpositive_volume sparse_series sparse_idle Hin).
  intros x Hx. simpl in Hx. injection Hx as <-. lra.
Defined.

(** ** Negative values *)

Lemma filter_filter_andb {A} (f g : A -> bool) (l : list A) :
  filter f (filter g l) = filter (fun x => g x && f x) l.
Proof.
  induction l as [|a l IH]; simpl; auto.
  destruct (g a); simpl; [destruct (f a)|]; now rewrite IH.
Qed.

Lemma dropna_defined (l : list float) :
  Forall (fun v => v <> NaN) l -> List.length (dropna l) = List.length l.
Proof.
  induction 1 as [|v l Hv Hl IH]; simpl; auto.
  destruct v; [simpl; now rewrite IH | exfalso; now apply Hv].
Qed.

Lemma string_dec_eqb (a b : string) :
  (if string_dec a b then true else false) = (a =? b)%string.
Proof.
  destruct (string_dec a b) as [->|Hne].
  - now rewrite String.eqb_refl.
  - symmetry. now apply String.eqb_neq.
Qed.

Lemma negative_group (dataframe : list VolRow) (m : string) :
  filter (fun r => if string_dec (row_month r) m then true else false)
         (filter (fun r => flt (Vol r) (Some 0%R)) dataframe)
  = filter (fun r => flt (Vol r) (Some 0%R) && (row_month r =? m)%string) dataframe.
Proof.
  rewrite filter_filter_andb. apply filter_ext. intros a. now rewrite string_dec_eqb.
Qed.

(** A monthly group of the summary: the negative records of that month. *)
Lemma summarise_negative_values_In (dataframe : list VolRow) (n : NegMonthly) :
  In n (summarise_negative_values dataframe) <->
  let g := filter (fun r => flt (Vol r) (Some 0%R) && (row_month r =? neg_Month n)%string)
                  dataframe in
  g <> []
  /\ Negative_Value_Count n = count (map Vol g)
  /\ Negative_Value_Sum n = sum (map Vol g).
Proof.
  unfold summarise_negative_values. rewrite in_map_iff. cbv zeta. split.
  - intros ([m g] & <- & Hin). apply groupby_In in Hin.
    destruct Hin as [(r & Hr & Hm) ->]. cbn [neg_Month Negative_Value_Count Negative_Value_Sum].
    rewrite negative_group.
    split; [|split; reflexivity].
    intros Hnil.
    assert (Hr' : In r (filter (fun r => flt (Vol r) (Some 0%R) && (row_month r =? m)%string)
                               dataframe)).
    { apply filter_In in Hr. destruct Hr as [Hr Hneg]. apply filter_In. split; auto.
      rewrite Hneg, Hm, String.eqb_refl. reflexivity. }
    rewrite Hnil in Hr'. contradiction.
  - intros (Hne & Hc & Hs).
    exists (neg_Month n,
            filter (fun r => flt (Vol r) (Some 0%R) && (row_month r =? neg_Month n)%string)
                   dataframe).
    split.
    + destruct n as [m c s]; simpl in *. now rewrite Hc, Hs.
    + apply groupby_In. split.
      * destruct (filter (fun r => flt (Vol r) (Some 0%R)
                                   && (row_month r =? neg_Month n)%string) dataframe)
          as [|r g] eqn:E; [congruence|].
        assert (Hr : In r (r :: g)) by now left.
        rewrite <- E in Hr. apply filter_In in Hr. destruct Hr as [Hr Hb].
        apply andb_true_iff in Hb. destruct Hb as [Hneg Hm].
        exists r. split; [apply filter_In; auto | now apply String.eqb_eq].
      * now rewrite negative_group.
Qed.

Lemma negative_count (dataframe : list VolRow) (m : string) :
  let g := filter (fun r => flt (Vol r) (Some 0%R) && (row_month r =? m)%string) dataframe in
  count (map Vol g) = Z.of_nat (List.length g).
Proof.
  cbv zeta. unfold count. rewrite dropna_defined, length_map; [reflexivity|].
  apply Forall_forall. intros v Hv. apply in_map_iff in Hv.
  destruct Hv as (r & <- & Hr). apply filter_In in Hr. destruct Hr as [_ Hb].
  apply andb_true_iff in Hb. destruct Hb as [Hneg _].
  apply flt_Some in Hneg. destruct Hneg as (x & _ & -> & _). discriminate.
Qed.

Lemma summarise_after_removal (dataframe : list VolRow) :
  summarise_negative_values (remove_negative_values dataframe) = [].
Proof.
  unfold summarise_negative_values, remove_negative_values.
  rewrite filter_filter_andb, filter_none; [reflexivity|].
  intros r _. unfold fge, fle, flt. destruct (Vol r) as [x|]; [|reflexivity].
  unfold Rleb, Rltb. destruct (Rle_dec 0 x), (Rlt_dec x 0); try reflexivity. lra.
Qed.

Lemma negative_month_rows :
  negative_month
  = map (fun r => {| reading := r; Date := ts_date (DateTime r); Vol := Value r |})
        negative_month_readings.
Proof.
  apply convert_rows_no_meter. repeat constructor; simpl; discriminate.
Qed.

(** C3: [main] derives the monthly summary of negative volumes and the
    filtered series from the same converted table.  The summary has one row
    per month that holds a record of volume < 0, with the number and the sum
    of those records; the filtered series keeps exactly the records of
    volume >= 0; summarising after the filter would give an empty table.
    On the volumes -2, -2, 5, -1 of March 2020 the summary is the single
    row (2020-03, 3, -5) and the filtered series keeps only 5. *)
Theorem C3_negative_values :
  (forall vol_data,
      negative_handling vol_data
      = (summarise_negative_values vol_data, remove_negative_values vol_data)
      /\ (forall v, In v (remove_negative_values vol_data)
                    <-> In v vol_data /\ exists x, Vol v = Some x /\ (0 <= x)%R)
      /\ (forall n, In n (summarise_negative_values vol_data) ->
            let g := filter (fun r => flt (Vol r) (Some 0%R)
                                      && (row_month r =? neg_Month n)%string) vol_data in
            g <> []
            /\ Negative_Value_Count n = Z.of_nat (List.length g)
            /\ Negative_Value_Sum n = Some (Rsum (dropna (map Vol g))))
      /\ (forall r, In r vol_data -> flt (Vol r) (Some 0%R) = true ->
            exists n, In n (summarise_negative_values vol_data)
                      /\ neg_Month n = row_month r)
      /\ NoDup (map neg_Month (summarise_negative_values vol_data))
      /\ summarise_negative_values (remove_negative_values vol_data) = [])
  /\ summarise_negative_values negative_month
     = [ {| neg_Month := "2020-03";
            Negative_Value_Count := 3;
            Negative_Value_Sum := Some (-5)%R |} ]
  /\ map Vol (remove_negative_values negative_month) = [Some 5%R].
Proof.
  split; [|split].
  - intros vol_data. split; [reflexivity|]. split; [apply remove_negative_values_In|].
    split; [|split; [|split]].
    + intros n Hn. apply summarise_negative_values_In in Hn. cbv zeta in *.
      destruct Hn as (Hne & Hc & Hs). rewrite <- negative_count. auto.
    + intros r Hr Hneg.
      set (g := filter (fun r' => flt (Vol r') (Some 0%R)
                                  && (row_month r' =? row_month r)%string) vol_data).
      exists {| neg_Month := row_month r;
                Negative_Value_Count := count (map Vol g);
                Negative_Value_Sum := sum (map Vol g) |}.
      split; [|reflexivity].
      apply summarise_negative_values_In. cbv zeta. simpl. fold g.
      split; [|split; reflexivity].
      intros Hnil. assert (Hin : In r g).
      { apply filter_In. split; [assumption|]. now rewrite Hneg, String.eqb_refl. }
      rewrite Hnil in Hin. contradiction.
    + unfold summarise_negative_values. rewrite map_map.
      rewrite (map_ext _ fst) by (intros [m g]; reflexivity).
      rewrite groupby_keys. apply group_keys_NoDup.
    + apply summarise_after_removal.
  - rewrite negative_month_rows. unfold summarise_negative_values, negative_month_readings.
    simpl map. simpl filter. Rcompare.
    rewrite (groupby_single_key string_dec String.leb row_month "2020-03")
      by (intros x [<-|[<-|[<-|[]]]]; reflexivity).
    simpl. unfold count, sum. simpl. repeat f_equal. lra.
  - rewrite negative_month_rows. unfold remove_negative_values, negative_month_readings.
    simpl map. simpl filter. Rcompare. reflexivity.
Qed.

Lemma C3_negative_values_witness :
  In {| neg_Month := "2020-03"; Negative_Value_Count := 3;
        Negative_Value_Sum := Some (-5)%R |}
     (summarise_negative_values negative_month)
  /\ Z.of_nat (List.length
       (filter (fun r => flt (Vol r) (Some 0%R) && (row_month r =? "2020-03")%string)
               negative_month)) = 3.
Proof.
  assert (Hin : In {| neg_Month := "2020-03"; Negative_Value_Count := 3;
                      Negative_Value_Sum := Some (-5)%R |}
                   (summarise_negative_values negative_month)).
  { rewrite (proj1 (proj2 C3_negative_values)). left; reflexivity. }
  split; [exact Hin|].
  destruct (proj1 (proj2 (proj2 (proj1 C3_negative_values negative_month))) _ Hin)
    as (_ & Hc & _).
  simpl in Hc. symmetry. exact Hc.
Defined.

(** ** Calendar *)

Example toordinal_2020_03_15 : toordinal (mkdate 2020 3 15) = 737499.
Proof. reflexivity. Qed.

Example date_range_over_leap_day :
  date_range (mkdate 2020 2 27) (mkdate 2020 3 2)
  = [mkdate 2020 2 27; mkdate 2020 2 28; mkdate 2020 2 29; mkdate 2020 3 1; mkdate 2020 3 2].
Proof. reflexivity. Qed.

Example month_key_zero_padded :
  month_key (mkdate 2021 1 5) = "2021-01"
  /\ String.ltb (month_key (mkdate 2021 1 5)) (month_key (mkdate 2021 2 1)) = true.
Proof. split; reflexivity. Qed.

Lemma days_before_year_succ (y : Z) :
  days_before_year (y + 1)
  = days_before_year y + 365 + (if is_leap y then 1 else 0).
Proof.
  unfold days_before_year, is_leap. cbv zeta.
  replace (y + 1 - 1) with y by lia.
  destruct (Z.eqb_spec (y mod 4) 0), (Z.eqb_spec (y mod 100) 0),
    (Z.eqb_spec (y mod 400) 0); simpl; Z.to_euclidean_division_equations; lia.
Qed.

Lemma days_before_year_mono (a b : Z) :
  a <= b -> days_before_year a <= days_before_year b.
Proof.
  unfold days_before_year. cbv zeta. intros H.
  Z.to_euclidean_division_equations. lia.
Qed.

Ltac calendar_calc :=
  cbn -[Z.add Z.sub Z.mul Z.div Z.modulo is_leap days_before_year] in *.

Ltac month_cases m :=
  let H := fresh "Hm" in
  assert (H : m = 1 \/ m = 2 \/ m = 3 \/ m = 4 \/ m = 5 \/ m = 6 \/ m = 7
              \/ m = 8 \/ m = 9 \/ m = 10 \/ m = 11 \/ m = 12) by lia;
  repeat (destruct H as [H|H]); subst m.

(** Within its year a valid date is day 1 to day 365 (366 in a leap year). *)
Lemma day_of_year_bounds (d : date) :
  valid_date d ->
  1 <= days_before_month (year d) (month d) + day d
    <= 365 + (if is_leap (year d) then 1 else 0).
Proof.
  destruct d as [y m dd]. unfold valid_date, days_before_month, days_in_month.
  calendar_calc. intros [Hm Hd].
  month_cases m; calendar_calc; destruct (is_leap y); calendar_calc; lia.
Qed.

Lemma date_ltb_spec (a b : date) :
  date_ltb a b = true <->
  year a < year b
  \/ (year a = year b /\ (month a < month b \/ (month a = month b /\ day a < day b))).
Proof.
  unfold date_ltb.
  rewrite orb_true_iff, andb_true_iff, orb_true_iff, andb_true_iff.
  rewrite !Z.ltb_lt, !Z.eqb_eq. tauto.
Qed.

Lemma date_eqb_eq (a b : date) : date_eqb a b = true <-> a = b.
Proof.
  unfold date_eqb. rewrite !andb_true_iff, !Z.eqb_eq.
  destruct a, b; simpl. split; [intros [[-> ->] ->]; reflexivity|].
  intros H; inversion H; auto.
Qed.

Lemma date_leb_spec (a b : date) : date_leb a b = true <-> date_ltb a b = true \/ a = b.
Proof. unfold date_leb. now rewrite orb_true_iff, date_eqb_eq. Qed.

(** [toordinal] respects the order of valid dates. *)
Lemma toordinal_lt (a b : date) :
  valid_date a -> valid_date b -> date_ltb a b = true -> toordinal a < toordinal b.
Proof.
  intros Ha Hb Hlt. apply date_ltb_spec in Hlt.
  pose proof (day_of_year_bounds a Ha) as Ba.
  pose proof (day_of_year_bounds b Hb) as Bb.
  unfold toordinal. destruct Hlt as [Hy|[Hy Hmd]].
  - pose proof (days_before_year_succ (year a)) as Hs.
    pose proof (days_before_year_mono (year a + 1) (year b)). lia.
  - destruct a as [y m dd], b as [y' m' dd']. calendar_calc. subst y'.
    destruct Ha as [Hma Hda], Hb as [Hmb Hdb]. calendar_calc.
    destruct Hmd as [Hm|[-> Hd]]; [|lia].
    unfold days_before_month, days_in_month in *.
    month_cases m; month_cases m'; calendar_calc; try lia;
      destruct (is_leap y); calendar_calc; lia.
Qed.

Lemma toordinal_le (a b : date) :
  valid_date a -> valid_date b -> date_leb a b = true -> toordinal a <= toordinal b.
Proof.
  intros Ha Hb Hle. apply date_leb_spec in Hle. destruct Hle as [Hlt| ->]; [|lia].
  pose proof (toordinal_lt a b Ha Hb Hlt). lia.
Qed.

Lemma date_ltb_total (a b : date) : date_ltb a b = true \/ a = b \/ date_ltb b a = true.
Proof.
  rewrite !date_ltb_spec. destruct a as [y m d], b as [y' m' d']. simpl.
  destruct (Z.lt_trichotomy y y') as [H|[H|H]];
    [left; left; exact H | subst y' | right; right; left; exact H].
  destruct (Z.lt_trichotomy m m') as [H1|[H1|H1]];
    [left; right; auto | subst m' | right; right; right; auto].
  destruct (Z.lt_trichotomy d d') as [H2|[H2|H2]];
    [left; right; auto | subst d' | right; right; right; auto].
  right; left. reflexivity.
Qed.

Lemma toordinal_inj (a b : date) :
  valid_date a -> valid_date b -> toordinal a = toordinal b -> a = b.
Proof.
  intros Ha Hb Heq. destruct (date_ltb_total a b) as [H|[H|H]]; auto.
  - pose proof (toordinal_lt a b Ha Hb H). lia.
  - pose proof (toordinal_lt b a Hb Ha H). lia.
Qed.

(** The next day is valid and has the next ordinal. *)
Lemma next_day_valid (d : date) : valid_date d -> valid_date (next_day d).
Proof.
  destruct d as [y m dd]. unfold valid_date, next_day. calendar_calc. intros [Hm Hd].
  destruct (Z.ltb_spec dd (days_in_month y m)); calendar_calc; [lia|].
  destruct (Z.ltb_spec m 12); calendar_calc.
  - split; [lia|]. unfold days_in_month.
    month_cases m; simpl; try lia; destruct (is_leap y); lia.
  - split; [lia|]. unfold days_in_month. simpl. lia.
Qed.

Lemma next_day_toordinal (d : date) :
  valid_date d -> toordinal (next_day d) = toordinal d + 1.
Proof.
  destruct d as [y m dd]. unfold valid_date, next_day, toordinal.
  calendar_calc. intros [Hm Hd].
  destruct (Z.ltb_spec dd (days_in_month y m)); calendar_calc; [lia|].
  assert (dd = days_in_month y m) by lia. subst dd.
  destruct (Z.ltb_spec m 12); calendar_calc.
  - unfold days_before_month, days_in_month.
    month_cases m; try lia; destruct (is_leap y); simpl; lia.
  - assert (m = 12) by lia. subst m.
    rewrite days_before_year_succ. unfold days_before_month, days_in_month.
    destruct (is_leap y); simpl; lia.
Qed.

Lemma date_leb_lex (a b : date) :
  date_leb a b = true <->
  year a < year b
  \/ (year a = year b /\ (month a < month b \/ (month a = month b /\ day a <= day b))).
Proof.
  rewrite date_leb_spec, date_ltb_spec. destruct a as [y m d], b as [y' m' d']. simpl.
  split.
  - intros [H|H]; [lia|]. inversion H. lia.
  - intros [H|[-> [H|[-> H]]]]; try lia.
    destruct (Z.eq_dec d d') as [->|]; [now right | left; lia].
Qed.

Lemma date_leb_refl (a : date) : date_leb a a = true.
Proof. apply date_leb_spec. now right. Qed.

Lemma date_leb_trans (a b c : date) :
  date_leb a b = true -> date_leb b c = true -> date_leb a c = true.
Proof. rewrite !date_leb_lex. lia. Qed.

Lemma date_ltb_false (a b : date) : date_ltb a b = false -> date_leb b a = true.
Proof.
  intros H. destruct (date_ltb_total a b) as [H1|[->|H1]].
  - congruence.
  - apply date_leb_refl.
  - apply date_leb_spec. now left.
Qed.

Lemma date_ltb_leb (a b : date) : date_ltb a b = true -> date_leb a b = true.
Proof. intros H. apply date_leb_spec. now left. Qed.

Lemma toordinal_le_inv (a b : date) :
  valid_date a -> valid_date b -> toordinal a <= toordinal b -> date_leb a b = true.
Proof.
  intros Ha Hb H. destruct (date_ltb a b) eqn:E; [now apply date_ltb_leb|].
  apply date_ltb_false in E. pose proof (toordinal_le b a Hb Ha E).
  assert (a = b) as -> by (apply toordinal_inj; auto; lia). apply date_leb_refl.
Qed.

(** The minimum and the maximum of a column of dates. *)
Lemma fold_date_min2 (tl : list date) : forall d,
  let m := fold_left date_min2 tl d in
  In m (d :: tl) /\ forall x, In x (d :: tl) -> date_leb m x = true.
Proof.
  induction tl as [|h tl IH]; intros d; cbv zeta; simpl.
  - split; [now left|]. intros x [<-|[]]. apply date_leb_refl.
  - destruct (IH (date_min2 d h)) as [Hin Hle]. cbv zeta in *. split.
    + destruct Hin as [Hin|Hin]; [|now right; right].
      rewrite <- Hin. unfold date_min2. destruct (date_ltb h d); auto.
    + intros x Hx.
      assert (Hm : date_leb (fold_left date_min2 tl (date_min2 d h)) (date_min2 d h) = true)
        by (apply Hle; now left).
      destruct Hx as [<-|[<-|Hx]].
      * eapply date_leb_trans; [exact Hm|]. unfold date_min2.
        destruct (date_ltb h d) eqn:E; [now apply date_ltb_leb | apply date_leb_refl].
      * eapply date_leb_trans; [exact Hm|]. unfold date_min2.
        destruct (date_ltb h d) eqn:E; [apply date_leb_refl | now apply date_ltb_false].
      * apply Hle. now right.
Qed.

Lemma fold_date_max2 (tl : list date) : forall d,
  let m := fold_left date_max2 tl d in
  In m (d :: tl) /\ forall x, In x (d :: tl) -> date_leb x m = true.
Proof.
  induction tl as [|h tl IH]; intros d; cbv zeta; simpl.
  - split; [now left|]. intros x [<-|[]]. apply date_leb_refl.
  - destruct (IH (date_max2 d h)) as [Hin Hle]. cbv zeta in *. split.
    + destruct Hin as [Hin|Hin]; [|now right; right].
      rewrite <- Hin. unfold date_max2. destruct (date_ltb d h); auto.
    + intros x Hx.
      assert (Hm : date_leb (date_max2 d h) (fold_left date_max2 tl (date_max2 d h)) = true)
        by (apply Hle; now left).
      destruct Hx as [<-|[<-|Hx]].
      * eapply date_leb_trans; [|exact Hm]. unfold date_max2.
        destruct (date_ltb d h) eqn:E; [now apply date_ltb_leb | apply date_leb_refl].
      * eapply date_leb_trans; [|exact Hm]. unfold date_max2.
        destruct (date_ltb d h) eqn:E; [apply date_leb_refl | now apply date_ltb_false].
      * apply Hle. now right.
Qed.

Lemma min_date_spec (l : list date) (m : date) :
  min_date l = Some m -> In m l /\ forall x, In x l -> date_leb m x = true.
Proof.
  destruct l as [|d tl]; [discriminate|]. simpl. intros H; inversion H.
  apply (fold_date_min2 tl d).
Qed.

Lemma max_date_spec (l : list date) (m : date) :
  max_date l = Some m -> In m l /\ forall x, In x l -> date_leb x m = true.
Proof.
  destruct l as [|d tl]; [discriminate|]. simpl. intros H; inversion H.
  apply (fold_date_max2 tl d).
Qed.

(** The dates of [days_from]: consecutive, starting at the first. *)
Lemma days_from_In (n : nat) : forall s d,
  valid_date s -> valid_date d ->
  (In d (days_from n s) <-> toordinal s <= toordinal d < toordinal s + Z.of_nat n).
Proof.
  induction n as [|n IH]; intros s d Hs Hd.
  - simpl. split; [intros []|lia].
  - cbn [days_from In]. rewrite IH by (auto using next_day_valid).
    rewrite next_day_toordinal by assumption. split.
    + intros [<-|H]; lia.
    + intros H. destruct (Z.eq_dec (toordinal s) (toordinal d)) as [E|E].
      * left. now apply toordinal_inj.
      * right. lia.
Qed.

Lemma days_from_valid (n : nat) : forall s d,
  valid_date s -> In d (days_from n s) -> valid_date d.
Proof.
  induction n as [|n IH]; intros s d Hs; simpl; [intros []|].
  intros [<-|H]; [assumption|]. eapply IH; [|exact H]. now apply next_day_valid.
Qed.

Lemma days_from_NoDup (n : nat) : forall s, valid_date s -> NoDup (days_from n s).
Proof.
  induction n as [|n IH]; intros s Hs; simpl; constructor.
  - intros Hin. pose proof (days_from_valid _ _ _ (next_day_valid s Hs) Hin) as Hv.
    apply days_from_In in Hin; auto using next_day_valid.
    rewrite next_day_toordinal in Hin by assumption. lia.
  - apply IH. now apply next_day_valid.
Qed.

(** [date_range] holds every calendar date from the start to the end. *)
Lemma date_range_In (s t d : date) :
  valid_date s -> valid_date t -> valid_date d ->
  (In d (date_range s t) <-> date_leb s d = true /\ date_leb d t = true).
Proof.
  intros Hs Ht Hd. unfold date_range. rewrite days_from_In by assumption. split.
  - intros H. split; apply toordinal_le_inv; auto; lia.
  - intros [H1 H2].
    pose proof (toordinal_le s d Hs Hd H1). pose proof (toordinal_le d t Hd Ht H2). lia.
Qed.

Lemma date_range_head (s t : date) :
  toordinal s <= toordinal t -> hd_error (date_range s t) = Some s.
Proof.
  intros H. unfold date_range.
  destruct (Z.to_nat (toordinal t - toordinal s + 1)) eqn:E; [lia|reflexivity].
Qed.

Lemma start_date_valid (d : date) : valid_date (start_date d).
Proof.
  unfold start_date, valid_date, days_in_month.
  destruct (month d <=? 6); simpl; lia.
Qed.

(** The water year starts on or before the first observation. *)
Lemma start_date_le (d : date) : valid_date d -> date_leb (start_date d) d = true.
Proof.
  intros [Hm Hd]. apply date_leb_lex. unfold start_date.
  destruct (Z.leb_spec (month d) 6); simpl; lia.
Qed.

(** ** Gap-filled daily series *)

Lemma rolling_mean_length (w mp : nat) (l : list float) :
  List.length (rolling_mean w mp l) = List.length l.
Proof. unfold rolling_mean. now rewrite length_map, length_seq. Qed.

Lemma map_fst_combine {A B} (l : list A) : forall (l' : list B),
  List.length l' = List.length l -> map fst (combine l l') = l.
Proof.
  induction l as [|a l IH]; intros [|b l'] H; simpl in *; try discriminate; auto.
  f_equal. apply IH. lia.
Qed.

Lemma reindex_labels (counts : list DailyCount) (idx : list date) :
  map (fun x => fst (fst x)) (reindex counts idx) = idx.
Proof.
  unfold reindex. rewrite map_map. rewrite <- (map_id idx) at 2.
  apply map_ext. intros d. now destruct (find _ counts).
Qed.

Lemma daily_counts_dates (dataframe : list VolRow) :
  map dc_Date (daily_counts dataframe)
  = group_keys date_eq_dec date_leb (map Date dataframe).
Proof.
  unfold daily_counts. rewrite map_map.
  rewrite (map_ext _ fst) by (intros [d g]; reflexivity).
  apply groupby_keys.
Qed.

(** A row of the daily aggregate: the count and the sum over the records
    of its date. *)
Lemma daily_counts_In (dataframe : list VolRow) (c : DailyCount) :
  In c (daily_counts dataframe) ->
  In (dc_Date c) (map Date dataframe)
  /\ dc_Readings c
     = count (map Vol (filter (fun r => date_eqb (Date r) (dc_Date c)) dataframe))
  /\ dc_Volume c
     = sum (map Vol (filter (fun r => date_eqb (Date r) (dc_Date c)) dataframe)).
Proof.
  unfold daily_counts. rewrite in_map_iff. intros ([d g] & <- & Hin).
  apply groupby_In in Hin. destruct Hin as [(r & Hr & Hd) ->]. simpl.
  assert (E : forall l : list VolRow,
             filter (fun r => if date_eq_dec (Date r) d then true else false) l
             = filter (fun r => date_eqb (Date r) d) l).
  { intros l. apply filter_ext. intros a. destruct (date_eq_dec (Date a) d) as [->|Hne].
    - symmetry. now apply date_eqb_eq.
    - symmetry. apply not_true_is_false. intros H. now apply date_eqb_eq in H. }
  rewrite E. split; [|split; reflexivity].
  apply in_map_iff. eauto.
Qed.

Lemma find_date (counts : list DailyCount) (d : date) :
  match find (fun c => date_eqb (dc_Date c) d) counts with
  | Some c => In c counts /\ dc_Date c = d
  | None => forall c, In c counts -> dc_Date c <> d
  end.
Proof.
  destruct (find _ counts) as [c|] eqn:E.
  - apply find_some in E. destruct E as [Hin He]. now apply date_eqb_eq in He.
  - intros c Hc Hd. pose proof (find_none _ _ E c Hc) as Hf. simpl in Hf.
    rewrite Hd, (proj2 (date_eqb_eq d d) eq_refl) in Hf. discriminate.
Qed.

Lemma find_unique_date (counts : list DailyCount) (c : DailyCount) :
  NoDup (map dc_Date counts) -> In c counts ->
  find (fun c' => date_eqb (dc_Date c') (dc_Date c)) counts = Some c.
Proof.
  induction counts as [|h tl IH]; intros Hnd Hin; [contradiction|].
  simpl in *. inversion Hnd as [|? ? Hh Htl]; subst.
  destruct (date_eqb (dc_Date h) (dc_Date c)) eqn:E.
  - apply date_eqb_eq in E. destruct Hin as [->|Hin]; [reflexivity|].
    exfalso. apply Hh. rewrite E. now apply in_map.
  - destruct Hin as [->|Hin]; [|now apply IH].
    rewrite (proj2 (date_eqb_eq _ _) eq_refl) in E. discriminate.
Qed.

(** The rows of [process_plot_data]: one per label of the date range, with
    the aggregate of that date when there is one and nulls otherwise. *)
Lemma process_plot_data_rows (dataframe : list VolRow) (from_date to_date : date) :
  min_date (map Date dataframe) = Some from_date ->
  max_date (map Date dataframe) = Some to_date ->
  exists rows,
    process_plot_data dataframe = Ok rows
    /\ map p_Date rows = date_range (start_date from_date) to_date
    /\ forall row, In row rows ->
         Rate row = fmul (Volume row) (Some (1000 / 86400)%R)
         /\ match find (fun c => date_eqb (dc_Date c) (p_Date row)) (daily_counts dataframe) with
            | Some c => Readings row = Some (IZR (dc_Readings c)) /\ Volume row = dc_Volume c
            | None => Readings row = Some 0%R /\ Volume row = NaN
            end.
Proof.
  intros Hmin Hmax. unfold process_plot_data. rewrite Hmin, Hmax.
  eexists. split; [reflexivity|]. split.
  - rewrite map_map.
    rewrite (map_ext _ (fun x => fst (fst (fst x))))
      by (intros [[[d rd] vol] ma]; reflexivity).
    rewrite <- (map_map fst (fun x => fst (fst x))).
    rewrite map_fst_combine by (now rewrite rolling_mean_length, length_map).
    apply reindex_labels.
  - intros row Hrow. apply in_map_iff in Hrow.
    destruct Hrow as ([[[d rd] vol] ma] & <- & Hin). apply in_combine_l in Hin.
    unfold reindex in Hin. apply in_map_iff in Hin. destruct Hin as (d' & Heq & _).
    cbn [Rate Volume Readings p_Date]. split; [reflexivity|].
    destruct (find (fun c => date_eqb (dc_Date c) d') (daily_counts dataframe)) eqn:E;
      inversion Heq; subst; rewrite E; split; reflexivity.
Qed.

Lemma min_max_defined (dataframe : list VolRow) :
  dataframe <> [] ->
  exists from_date to_date,
    min_date (map Date dataframe) = Some from_date
    /\ max_date (map Date dataframe) = Some to_date.
Proof.
  destruct dataframe as [|r rows]; [congruence|]. intros _. simpl. eauto.
Qed.

(** The first and the last date bound the range that is filled. *)
Lemma plot_range_bounds (dataframe : list VolRow) (from_date to_date : date) :
  Forall (fun r => valid_date (Date r)) dataframe ->
  min_date (map Date dataframe) = Some from_date ->
  max_date (map Date dataframe) = Some to_date ->
  valid_date from_date /\ valid_date to_date
  /\ date_leb (start_date from_date) from_date = true
  /\ forall d, In d (map Date dataframe) ->
       valid_date d /\ date_leb from_date d = true /\ date_leb d to_date = true.
Proof.
  intros Hvalid Hmin Hmax.
  apply min_date_spec in Hmin. destruct Hmin as [Hfrom Hle].
  apply max_date_spec in Hmax. destruct Hmax as [Hto Hge].
  assert (Hv : forall d, In d (map Date dataframe) -> valid_date d).
  { intros d Hd. apply in_map_iff in Hd. destruct Hd as (r & <- & Hr).
    rewrite Forall_forall in Hvalid. now apply Hvalid. }
  split; [now apply Hv|]. split; [now apply Hv|].
  split; [apply start_date_le; now apply Hv|].
  intros d Hd. auto.
Qed.

(** C5: on a series with at least one record, [process_plot_data] returns
    a table whose first row is 1 July of the previous calendar year when the
    month of the first observed date is June or earlier, and 1 July of the
    same year otherwise; the first observation 2020-03-15 gives 2019-07-01
    and 2020-09-01 gives 2020-07-01. *)
Theorem C5_water_year_start :
  (forall dataframe from_date,
      Forall (fun r => valid_date (Date r)) dataframe ->
      min_date (map Date dataframe) = Some from_date ->
      exists rows,
        process_plot_data dataframe = Ok rows
        /\ hd_error (map p_Date rows)
           = Some (if month from_date <=? 6
                   then mkdate (year from_date - 1) 7 1
                   else mkdate (year from_date) 7 1))
  /\ start_date (mkdate 2020 3 15) = mkdate 2019 7 1
  /\ start_date (mkdate 2020 9 1) = mkdate 2020 7 1.
Proof.
  split; [|split; reflexivity].
  intros dataframe from_date Hvalid Hmin.
  destruct (min_max_defined dataframe) as (f & to_date & Hf & Hmax).
  { intros ->. discriminate. }
  rewrite Hmin in Hf. inversion Hf; subst f.
  destruct (process_plot_data_rows _ _ _ Hmin Hmax) as (rows & Hok & Hdates & _).
  destruct (plot_range_bounds _ _ _ Hvalid Hmin Hmax) as (Hvf & Hvt & Hstart & Hall).
  exists rows. split; [assumption|]. rewrite Hdates.
  rewrite date_range_head.
  - reflexivity.
  - pose proof (toordinal_le _ _ (start_date_valid from_date) Hvf Hstart).
    apply min_date_spec in Hmin. destruct Hmin as [Hin _].
    destruct (Hall _ Hin) as (_ & _ & Hft).
    pose proof (toordinal_le _ _ Hvf Hvt Hft). lia.
Qed.

Lemma march_series_valid : Forall (fun r => valid_date (Date r)) march_series.
Proof.
  apply Forall_forall. intros r Hr. unfold march_series, convert_rows in Hr.
  simpl in Hr. destruct Hr as [<-|[<-|[]]]; unfold valid_date, days_in_month; simpl; lia.
Qed.

Lemma september_series_valid : Forall (fun r => valid_date (Date r)) september_series.
Proof.
  apply Forall_forall. intros r Hr. unfold september_series, convert_rows in Hr.
  simpl in Hr. destruct Hr as [<-|[<-|[]]]; unfold valid_date, days_in_month; simpl; lia.
Qed.

Lemma C5_water_year_start_witness :
  (exists rows, process_plot_data march_series = Ok rows
                /\ hd_error (map p_Date rows) = Some (mkdate 2019 7 1))
  /\ (exists rows, process_plot_data september_series = Ok rows
                   /\ hd_error (map p_Date rows) = Some (mkdate 2020 7 1)).
Proof.
  split.
  - apply (proj1 C5_water_year_start march_series (mkdate 2020 3 15)
             march_series_valid eq_refl).
  - apply (proj1 C5_water_year_start september_series (mkdate 2020 9 1)
             september_series_valid eq_refl).
Defined.

(** C6: on a series with at least one record, the table returned by
    [process_plot_data] has exactly one row for every calendar date from the
    start of the water year to the last observed date.  A row whose date has
    no row in the daily aggregate has a reading count of 0, a missing volume
    and a missing rate; every row of the daily aggregate is found under its
    date with its count and its sum unchanged, and with the rate
    volume * (1000 / 86400). *)
Theorem C6_gap_filled_series (dataframe : list VolRow) :
  dataframe <> [] ->
  Forall (fun r => valid_date (Date r)) dataframe ->
  exists rows from_date to_date,
    process_plot_data dataframe = Ok rows
    /\ min_date (map Date dataframe) = Some from_date
    /\ max_date (map Date dataframe) = Some to_date
    /\ NoDup (map p_Date rows)
    /\ (forall d, valid_date d ->
          (In d (map p_Date rows)
           <-> date_leb (start_date from_date) d = true /\ date_leb d to_date = true))
    /\ (forall row, In row rows ->
          (forall c, In c (daily_counts dataframe) -> dc_Date c <> p_Date row) ->
          Readings row = Some 0%R /\ Volume row = NaN /\ Rate row = NaN)
    /\ (forall c, In c (daily_counts dataframe) ->
          exists row, In row rows
                      /\ p_Date row = dc_Date c
                      /\ Readings row = Some (IZR (dc_Readings c))
                      /\ Volume row = dc_Volume c
                      /\ Rate row = fmul (dc_Volume c) (Some (1000 / 86400)%R)).
Proof.
  intros Hne Hvalid.
  destruct (min_max_defined dataframe Hne) as (from_date & to_date & Hmin & Hmax).
  destruct (process_plot_data_rows _ _ _ Hmin Hmax) as (rows & Hok & Hdates & Hrows).
  destruct (plot_range_bounds _ _ _ Hvalid Hmin Hmax) as (Hvf & Hvt & Hstart & Hall).
  exists rows, from_date, to_date.
  split; [assumption|]. split; [assumption|]. split; [assumption|].
  split; [|split; [|split]].
  - rewrite Hdates. apply days_from_NoDup, start_date_valid.
  - intros d Hd. rewrite Hdates. apply date_range_In; auto using start_date_valid.
  - intros row Hrow Habsent. destruct (Hrows row Hrow) as [Hrate Hfind].
    pose proof (find_date (daily_counts dataframe) (p_Date row)) as Hf.
    destruct (find _ (daily_counts dataframe)) as [c|].
    + exfalso. destruct Hf as [Hin Hd]. exact (Habsent c Hin Hd).
    + destruct Hfind as [Hr Hv]. rewrite Hrate, Hv. auto.
  - intros c Hc.
    assert (Hd : In (dc_Date c) (map p_Date rows)).
    { rewrite Hdates.
      destruct (daily_counts_In _ _ Hc) as (Hin & _).
      destruct (Hall _ Hin) as (Hv & Hle1 & Hle2).
      apply date_range_In; auto using start_date_valid. split; [|assumption].
      eapply date_leb_trans; eassumption. }
    apply in_map_iff in Hd. destruct Hd as (row & Hdate & Hrow).
    exists row. split; [assumption|]. split; [assumption|].
    destruct (Hrows row Hrow) as [Hrate Hfind].
    rewrite Hdate, find_unique_date in Hfind; auto.
    + destruct Hfind as [Hr Hv]. rewrite Hrate, Hv. auto.
    + rewrite daily_counts_dates. apply group_keys_NoDup.
Qed.

Lemma march_series_dates :
  map Date march_series = [mkdate 2020 3 15; mkdate 2020 3 17].
Proof. reflexivity. Qed.

Lemma C6_gap_filled_series_witness :
  exists rows row,
    process_plot_data march_series = Ok rows
    /\ In row rows
    /\ p_Date row = mkdate 2020 3 16
    /\ Readings row = Some 0%R /\ Volume row = NaN /\ Rate row = NaN.
Proof.
  assert (Hne : march_series <> []) by discriminate.
  destruct (C6_gap_filled_series march_series Hne march_series_valid)
    as (rows & f & t & Hok & Hmin & Hmax & _ & Hcov & Habsent & _).
  rewrite march_series_dates in Hmin, Hmax.
  injection Hmin as <-. injection Hmax as <-.
  assert (Hv : valid_date (mkdate 2020 3 16))
    by (unfold valid_date, days_in_month; simpl; lia).
  pose proof (proj2 (Hcov _ Hv) (conj eq_refl eq_refl)) as Hin.
  apply in_map_iff in Hin. destruct Hin as (row & Hdate & Hrow).
  exists rows, row. split; [assumption|]. split; [assumption|]. split; [assumption|].
  apply Habsent; [assumption|].
  intros c Hc. apply daily_counts_In in Hc. destruct Hc as (Hc & _).
  rewrite march_series_dates, Hdate in *.
  destruct Hc as [<-|[<-|[]]]; discriminate.
Defined.

(** ** Monthly extraction statistics and the left join *)

Lemma generate_extraction_stats_rows (dataframe : list VolRow) :
  generate_extraction_stats dataframe
  = map (fun '(m, g) =>
           {| ex_Month := m;
              MinExtraction := round (fmin (map Vol g)) 3;
              MeanExtraction := round (mean (map Vol g)) 1;
              MaxExtraction := round (fmax (map Vol g)) 1 |})
        (groupby string_dec String.leb row_month
                 (filter (fun r => fgt (Vol r) (Some 0%R)) dataframe)).
Proof.
  unfold generate_extraction_stats.
  destruct (filter (fun r => fgt (Vol r) (Some 0%R)) dataframe) as [|r l]; [reflexivity|].
  destruct (Z.leb_spec 1 (Z.of_nat (List.length (r :: l)))) as [_|H]; [reflexivity|].
  simpl List.length in H. lia.
Qed.

Lemma generate_extraction_stats_months (dataframe : list VolRow) :
  NoDup (map ex_Month (generate_extraction_stats dataframe)).
Proof.
  rewrite generate_extraction_stats_rows, map_map.
  rewrite (map_ext _ fst) by (intros [m g]; reflexivity).
  rewrite groupby_keys. apply group_keys_NoDup.
Qed.

Lemma positive_group (dataframe : list VolRow) (m : string) :
  filter (fun r => if string_dec (row_month r) m then true else false)
         (filter (fun r => fgt (Vol r) (Some 0%R)) dataframe)
  = filter (fun r => fgt (Vol r) (Some 0%R) && (row_month r =? m)%string) dataframe.
Proof.
  rewrite filter_filter_andb. apply filter_ext. intros a. now rewrite string_dec_eqb.
Qed.

(** The extraction row of a month: none when the month has no record of
    positive volume, else the rounded minimum, mean and maximum of the
    positive volumes of that month. *)
Lemma generate_extraction_stats_find (dataframe : list VolRow) (m : string) :
  let g := filter (fun r => fgt (Vol r) (Some 0%R) && (row_month r =? m)%string) dataframe in
  match find (fun e => (ex_Month e =? m)%string) (generate_extraction_stats dataframe) with
  | Some e =>
      g <> []
      /\ e = {| ex_Month := m;
                MinExtraction := round (fmin (map Vol g)) 3;
                MeanExtraction := round (mean (map Vol g)) 1;
                MaxExtraction := round (fmax (map Vol g)) 1 |}
  | None => g = []
  end.
Proof.
  cbv zeta. rewrite generate_extraction_stats_rows.
  destruct (find _ _) as [e|] eqn:E.
  - apply find_some in E. destruct E as [Hin Hm]. apply String.eqb_eq in Hm.
    apply in_map_iff in Hin. destruct Hin as ([m' g'] & <- & Hin).
    simpl in Hm. subst m'. apply groupby_In in Hin. destruct Hin as [(r & Hr & Hk) ->].
    rewrite positive_group. split; [|reflexivity].
    intros Hnil.
    assert (Hr' : In r (filter (fun r => fgt (Vol r) (Some 0%R)
                                         && (row_month r =? m)%string) dataframe)).
    { apply filter_In in Hr. destruct Hr as [Hr Hpos]. apply filter_In. split; auto.
      now rewrite Hpos, Hk, String.eqb_refl. }
    rewrite Hnil in Hr'. contradiction.
  - destruct (filter (fun r => fgt (Vol r) (Some 0%R) && (row_month r =? m)%string)
                     dataframe) as [|r g] eqn:G; [reflexivity|].
    exfalso.
    assert (Hr : In r (r :: g)) by now left.
    rewrite <- G in Hr. apply filter_In in Hr. destruct Hr as [Hr Hb].
    apply andb_true_iff in Hb. destruct Hb as [Hpos Hm]. apply String.eqb_eq in Hm.
    pose proof (find_none _ _ E
      {| ex_Month := m;
         MinExtraction := round (fmin (map Vol (r :: g))) 3;
         MeanExtraction := round (mean (map Vol (r :: g))) 1;
         MaxExtraction := round (fmax (map Vol (r :: g))) 1 |}) as Hf.
    simpl in Hf. rewrite String.eqb_refl in Hf.
    assert (false = true); [|discriminate]. symmetry. apply Hf.
    apply in_map_iff. exists (m, r :: g). split; [reflexivity|].
    apply groupby_In. split.
    + exists r. split; [apply filter_In; auto|assumption].
    + now rewrite positive_group, G.
Qed.

Lemma filter_unique_month (dataframe2 : list ExtractionMonthly) (m : string) :
  NoDup (map ex_Month dataframe2) ->
  filter (fun r => (ex_Month r =? m)%string) dataframe2
  = match find (fun r => (ex_Month r =? m)%string) dataframe2 with
    | Some r => [r]
    | None => []
    end.
Proof.
  induction dataframe2 as [|h tl IH]; intros Hnd; simpl; [reflexivity|].
  inversion Hnd as [|? ? Hh Htl]; subst.
  destruct (ex_Month h =? m)%string eqn:E.
  - f_equal. apply filter_none. intros x Hx.
    apply String.eqb_eq in E. apply String.eqb_neq. intros Hm.
    apply Hh. rewrite E, <- Hm. now apply in_map.
  - now apply IH.
Qed.

(** With distinct month keys on the right, the left join keeps the rows of
    the left table one for one. *)
Lemma merge_left_unique (dataframe1 : list MonthlyStat) (dataframe2 : list ExtractionMonthly) :
  NoDup (map ex_Month dataframe2) ->
  merge_left dataframe1 dataframe2
  = map (fun l => (l, find (fun r => (ex_Month r =? ms_Month l)%string) dataframe2))
        dataframe1.
Proof.
  intros Hnd. unfold merge_left.
  induction dataframe1 as [|l tl IH]; [reflexivity|].
  cbn [flat_map map] in *. rewrite IH, (filter_unique_month _ _ Hnd).
  destruct (find _ dataframe2); reflexivity.
Qed.

(** C7: in the consent-aware script the extraction statistics are the
    rounded minimum, mean and maximum over the records of volume > 0 of the
    per-reading table, month by month, and [combine_monthly_stats] joins
    them to the monthly table by month key: the joined table keeps the rows
    of the monthly table one for one and in order; a month with no record
    of positive volume has null (NaN) extraction statistics, any other month
    the statistics of its positive volumes. *)
Theorem C7_extraction_stats_left_join (vol_data2 : list VolRow) (i : nat) (ms : MonthlyStat) :
  let monthly_stats := generate_monthly_stats (generate_daily_stats (spike_flagged vol_data2)) in
  let extraction_stats := generate_extraction_stats vol_data2 in
  let monthly_stats2 := combine_monthly_stats monthly_stats extraction_stats in
  let g := filter (fun r => fgt (Vol r) (Some 0%R) && (row_month r =? ms_Month ms)%string)
                  vol_data2 in
  nth_error monthly_stats i = Some ms ->
  List.length monthly_stats2 = List.length monthly_stats
  /\ exists c,
       nth_error monthly_stats2 i = Some c
       /\ c_MeasType c = MeasType ms
       /\ c_DaysWithData c = DaysWithData ms
       /\ c_TotalReports c = TotalReports ms
       /\ c_Spikes_5sd c = Spikes_5sd ms
       /\ c_Spikes_10sd c = Spikes_10sd ms
       /\ c_Spikes_20sd c = Spikes_20sd ms
       /\ (g = [] ->
           c_MinExtraction c = NaN /\ c_MeanExtraction c = NaN /\ c_MaxExtraction c = NaN)
       /\ (g <> [] ->
           c_MinExtraction c = round (fmin (map Vol g)) 3
           /\ c_MeanExtraction c = round (mean (map Vol g)) 1
           /\ c_MaxExtraction c = round (fmax (map Vol g)) 1).
Proof.
  cbv zeta. intros Hnth. unfold combine_monthly_stats.
  rewrite merge_left_unique by apply generate_extraction_stats_months.
  rewrite map_map. split; [apply length_map|].
  rewrite nth_error_map, Hnth. cbn [option_map]. eexists. split; [reflexivity|].
  cbn [c_MeasType c_DaysWithData c_TotalReports c_Spikes_5sd c_Spikes_10sd c_Spikes_20sd
       c_MinExtraction c_MeanExtraction c_MaxExtraction].
  repeat (split; [reflexivity|]).
  pose proof (generate_extraction_stats_find vol_data2 (ms_Month ms)) as Hf.
  cbv zeta in Hf.
  destruct (find _ (generate_extraction_stats vol_data2)) as [e|].
  - destruct Hf as [Hne ->]. split; [intros Hnil; contradiction|].
    intros _. simpl. auto.
  - split; [intros _; simpl; auto | intros Hne; contradiction].
Qed.

(** A series of at most 100 records is never flagged. *)
Lemma spike_flagged_short (dataframe : list VolRow) :
  Z.of_nat (List.length dataframe) <= 100 ->
  spike_flagged dataframe
  = map (fun r => {| vol_row := r; sd5 := 0; sd10 := 0; sd20 := 0 |}) dataframe.
Proof.
  intros Hlen. unfold spike_flagged.
  destruct (calculate_spike_parameters dataframe) as [mu sigma].
  unfold detect_spikes. rewrite length_map.
  destruct (Z.ltb_spec 100 (Z.of_nat (List.length dataframe))); [lia|].
  now rewrite andb_false_r.
Qed.

Lemma idle_march_monthly :
  nth_error (generate_monthly_stats (generate_daily_stats (spike_flagged idle_march_series))) 0
  = Some idle_march_row.
Proof.
  rewrite spike_flagged_short by (vm_compute; discriminate).
  vm_compute. reflexivity.
Qed.

Lemma idle_march_no_extraction :
  filter (fun r => fgt (Vol r) (Some 0%R) && (row_month r =? "2020-03")%string)
         idle_march_series = [].
Proof.
  apply filter_none. intros r Hr. unfold idle_march_series, convert_rows in Hr.
  simpl in Hr. destruct Hr as [<-|[<-|[<-|[]]]].
  - simpl. Rcompare. reflexivity.
  - apply andb_false_intro2. vm_compute. reflexivity.
  - apply andb_false_intro2. vm_compute. reflexivity.
Qed.

Lemma C7_extraction_stats_left_join_witness :
  exists c,
    nth_error (combine_monthly_stats
                 (generate_monthly_stats
                    (generate_daily_stats (spike_flagged idle_march_series)))
                 (generate_extraction_stats idle_march_series)) 0 = Some c
    /\ c_MeasType c = "Compliance Volume"
    /\ c_DaysWithData c = 1
    /\ c_MinExtraction c = NaN /\ c_MeanExtraction c = NaN /\ c_MaxExtraction c = NaN.
Proof.
  destruct (C7_extraction_stats_left_join idle_march_series 0 idle_march_row
              idle_march_monthly)
    as (_ & c & Hc & Hm & Hd & _ & _ & _ & _ & Hnull & _).
  exists c. split; [exact Hc|]. split; [exact Hm|]. split; [exact Hd|].
  apply Hnull. exact idle_march_no_extraction.
Defined.

(** ** Empty extraction *)

(** On a table with typed columns and no rows the statistics stages return
    empty tables; the gap filling raises. *)
Lemma empty_table_stages :
  convert_water_use_data (Frame []) = Ok []
  /\ negative_handling [] = ([], [])
  /\ spike_flagged [] = []
  /\ generate_daily_stats [] = []
  /\ generate_monthly_stats [] = []
  /\ process_plot_data [] = Raise AttributeError.
Proof.
  repeat split.
Qed.

(** C8 fails on the code: when the service has no data for the only
    measurement of the list, [extract_water_use_data] returns the table made
    by [pd.DataFrame(columns=...)], which has no rows and untyped columns,
    and the unit conversion raises on its [.dt] accessor; both branches of
    [main] end with that exception instead of empty tables. *)
Theorem C8_empty_extraction_raises :
  extract_water_use_data no_data single_measurement = Ok ColumnsOnly
  /\ convert_water_use_data ColumnsOnly = Raise AttributeError
  /\ main_statistics no_data single_measurement = Raise AttributeError
  /\ main_plots no_data single_measurement = Raise AttributeError.
Proof. repeat split. Qed.

(** * Further properties of the pipeline *)

(** ** Sums over groups *)

Section GroupSums.
Context {M : Type} (zero : M) (add : M -> M -> M).
Hypothesis add_assoc : forall a b c, add a (add b c) = add (add a b) c.
Hypothesis add_comm : forall a b, add a b = add b a.
Hypothesis add_zero_l : forall a, add zero a = a.

Lemma msum_app (l l' : list M) :
  msum zero add (l ++ l') = add (msum zero add l) (msum zero add l').
Proof.
  induction l as [|a l IH]; simpl; [now rewrite add_zero_l|].
  now rewrite IH, add_assoc.
Qed.

Lemma msum_map_add {A} (f g : A -> M) (l : list A) :
  msum zero add (map (fun x => add (f x) (g x)) l) = add (msum zero add (map f l)) (msum zero add (map g l)).
Proof.
  induction l as [|a l IH]; simpl; [now rewrite add_zero_l|].
  rewrite IH, !add_assoc. f_equal.
  rewrite <- !add_assoc. f_equal. apply add_comm.
Qed.

Lemma msum_map_zero {A} (l : list A) : msum zero add (map (fun _ => zero) l) = zero.
Proof. induction l as [|a l IH]; simpl; [reflexivity|]. now rewrite IH, add_zero_l. Qed.

Context {K : Type} (K_eq_dec : forall a b : K, {a = b} + {a <> b}).

Lemma msum_single_key (v : M) (x : K) (ks : list K) :
  NoDup ks -> In x ks ->
  msum zero add (map (fun k => if K_eq_dec x k then v else zero) ks) = v.
Proof.
  induction 1 as [|k ks Hk Hnd IH]; intros Hin; [contradiction|]. simpl.
  destruct (K_eq_dec x k) as [->|Hne].
  - rewrite (map_ext_in _ (fun _ => zero)).
    + rewrite msum_map_zero, add_comm. apply add_zero_l.
    + intros k' Hk'. destruct (K_eq_dec k k') as [->|]; [contradiction|reflexivity].
  - rewrite add_zero_l. apply IH. destruct Hin as [->|Hin]; [congruence|assumption].
Qed.

(** Summing a quantity group by group gives the sum over all rows. *)
Lemma msum_partition {A} (key : A -> K) (f : A -> M) (ks : list K) (rows : list A) :
  NoDup ks -> (forall r, In r rows -> In (key r) ks) ->
  msum zero add (map (fun k => msum zero add (map f (filter (fun r => if K_eq_dec (key r) k then true else false)
                                         rows))) ks)
  = msum zero add (map f rows).
Proof.
  intros Hnd. induction rows as [|r rows IH]; intros Hin.
  - simpl. apply msum_map_zero.
  - rewrite (map_ext _ (fun k => add (if K_eq_dec (key r) k then f r else zero)
                       (msum zero add (map f (filter (fun r' => if K_eq_dec (key r') k then true else false)
                                            rows))))).
    + rewrite msum_map_add, msum_single_key, IH; auto.
      * intros r' Hr'. apply Hin. now right.
      * apply Hin. now left.
    + intros k. simpl. destruct (K_eq_dec (key r) k); simpl; [reflexivity|].
      now rewrite add_zero_l.
Qed.

Lemma msum_groupby {A} (leb : K -> K -> bool) (key : A -> K) (f : A -> M) (rows : list A) :
  msum zero add (map (fun kg => msum zero add (map f (snd kg))) (groupby K_eq_dec leb key rows))
  = msum zero add (map f rows).
Proof.
  unfold groupby. rewrite map_map. simpl.
  apply msum_partition.
  - apply group_keys_NoDup.
  - intros r Hr. apply group_keys_In. now apply in_map.
Qed.
End GroupSums.

Lemma Zsum_msum (l : list Z) : Zsum l = msum 0 Z.add l.
Proof. reflexivity. Qed.

Lemma Rsum_msum (l : list R) : Rsum l = msum 0%R Rplus l.
Proof. reflexivity. Qed.

Lemma Zsum_groupby {K A} (K_eq_dec : forall a b : K, {a = b} + {a <> b})
    (leb : K -> K -> bool) (key : A -> K) (f : A -> Z) (rows : list A) :
  Zsum (map (fun kg => Zsum (map f (snd kg))) (groupby K_eq_dec leb key rows))
  = Zsum (map f rows).
Proof.
  apply (msum_groupby 0 Z.add); intros; lia.
Qed.

Lemma Rsum_groupby {K A} (K_eq_dec : forall a b : K, {a = b} + {a <> b})
    (leb : K -> K -> bool) (key : A -> K) (f : A -> R) (rows : list A) :
  Rsum (map (fun kg => Rsum (map f (snd kg))) (groupby K_eq_dec leb key rows))
  = Rsum (map f rows).
Proof.
  apply (msum_groupby 0%R Rplus); intros; lra.
Qed.

(** ** Meter runs *)

Lemma convert_rows_all_meter (rows : list Reading) :
  Forall (fun r => Measurement r = "Water Meter") rows ->
  map Vol (convert_rows rows) = diff (map Value rows).
Proof.
  intros H. unfold convert_rows.
  assert (G : forall ds, List.length ds = List.length rows ->
    map Vol (map (fun '(r, d) => {| reading := r; Date := ts_date (DateTime r);
                                    Vol := if is_water_meter r then d else Value r |})
                 (combine rows ds)) = ds).
  { induction H as [|r rows Hr Hrows IH]; intros ds Hlen.
    - destruct ds; [reflexivity|discriminate].
    - destruct ds as [|d ds]; [discriminate|]. simpl.
      unfold is_water_meter at 1. apply String.eqb_eq in Hr. rewrite Hr.
      f_equal. apply IH. simpl in Hlen. lia. }
  apply G. now rewrite diff_length, length_map.
Qed.

Lemma convert_rows_readings (rows : list Reading) :
  map reading (convert_rows rows) = rows
  /\ map Date (convert_rows rows) = map (fun r => ts_date (DateTime r)) rows.
Proof.
  assert (Hf : map fst (combine rows (diff (map Value rows))) = rows)
    by (apply map_fst_combine; now rewrite diff_length, length_map).
  unfold convert_rows. rewrite !map_map. split.
  - rewrite (map_ext _ fst) by (intros [r d]; reflexivity). exact Hf.
  - rewrite (map_ext _ (fun x => ts_date (DateTime (fst x))))
      by (intros [r d]; reflexivity).
    rewrite <- (map_map fst (fun r => ts_date (DateTime r))). now rewrite Hf.
Qed.

Lemma last_cons_default {A} (l : list A) : forall a d d',
  last (a :: l) d = last (a :: l) d'.
Proof.
  induction l as [|b l IH]; intros a d d'; [reflexivity|].
  change (last (b :: l) d = last (b :: l) d'). apply IH.
Qed.

Lemma diff_from_telescope (xs : list R) : forall p,
  Rsum (dropna (diff_from (Some p) (map Some xs))) = (last xs p - p)%R.
Proof.
  induction xs as [|x xs IH]; intros p; [simpl; lra|].
  cbn [map diff_from fsub dropna Rsum fold_right]. fold (Rsum (dropna (diff_from (Some x) (map Some xs)))).
  rewrite IH. destruct xs as [|y ys]; [simpl; lra|].
  rewrite (last_cons_default ys y x p).
  change (last (x :: y :: ys) p) with (last (y :: ys) p). lra.
Qed.

Lemma defined_values (rows : list Reading) :
  Forall (fun r => Value r <> NaN) rows ->
  exists xs, map Value rows = map Some xs /\ List.length xs = List.length rows.
Proof.
  induction 1 as [|r rows Hr Hrows (xs & IH & Hlen)]; [exists []; auto|].
  destruct (Value r) as [x|] eqn:E; [|exfalso; now apply Hr].
  exists (x :: xs). simpl. now rewrite E, IH, Hlen.
Qed.

Lemma last_map_default {A B} (f : A -> B) (l : list A) (d : A) :
  last (map f l) (f d) = f (last l d).
Proof.
  induction l as [|a l IH]; [reflexivity|].
  destruct l as [|b l]; [reflexivity|]. exact IH.
Qed.

Lemma last_map_Some (xs : list R) (p : R) : last (map Some xs) (Some p) = Some (last xs p).
Proof.
  induction xs as [|x xs IH]; [reflexivity|].
  simpl. destruct xs; [reflexivity|]. exact IH.
Qed.

Lemma convert_rows_telescope (first : Reading) (rows : list Reading) :
  Forall (fun r => Measurement r = "Water Meter") (first :: rows) ->
  Forall (fun r => Value r <> NaN) (first :: rows) ->
  sum (map Vol (convert_rows (first :: rows)))
  = fsub (Value (last rows first)) (Value first).
Proof.
  intros Hwm Hdef. rewrite (convert_rows_all_meter _ Hwm).
  destruct (defined_values _ Hdef) as (xs & Hxs & Hlen).
  destruct xs as [|p xs]; [discriminate|].
  change (map Value (first :: rows)) with (Value first :: map Value rows) in *.
  simpl in Hxs. injection Hxs as Hp Hxs.
  rewrite Hp, Hxs. unfold sum, diff, NaN. cbn [dropna].
  rewrite diff_from_telescope.
  replace (Value (last rows first)) with (last (map Value rows) (Value first)).
  - rewrite Hxs, Hp, last_map_Some. reflexivity.
  - apply last_map_default.
Qed.

Lemma whole_readings_defined (rows : list Reading) (bound : Z) :
  Forall (fun r => exists z, Value r = Some (IZR z) /\ 0 <= z <= bound) rows ->
  Forall (fun r => Value r <> NaN) rows.
Proof.
  intros H. eapply Forall_impl; [|exact H].
  intros r (z & Hz & _). rewrite Hz. discriminate.
Qed.

(** X1: take a run of n Water Meter readings that are whole numbers between
    0 and a bound with n * bound < 2^53, so that every difference of two
    readings and every sum of such differences is exact in double
    precision.  The volumes that the conversion derives add up to the last
    reading minus the first, and every record but the first has a
    volume. *)
Theorem meter_run_total (first : Reading) (rows : list Reading) (bound : Z) :
  Forall (fun r => Measurement r = "Water Meter") (first :: rows) ->
  Forall (fun r => exists z, Value r = Some (IZR z) /\ 0 <= z <= bound) (first :: rows) ->
  Z.of_nat (List.length (first :: rows)) * bound < 2 ^ 53 ->
  sum (map Vol (convert_rows (first :: rows)))
  = fsub (Value (last rows first)) (Value first)
  /\ count (map Vol (convert_rows (first :: rows))) = Z.of_nat (List.length rows).
Proof.
  intros Hwm Hwhole _. pose proof (whole_readings_defined _ _ Hwhole) as Hdef.
  split; [now apply convert_rows_telescope|].
  rewrite (convert_rows_all_meter _ Hwm).
  destruct (defined_values _ Hdef) as (xs & Hxs & Hlen).
  rewrite Hxs. unfold count, diff.
  destruct xs as [|p xs]; [discriminate|].
  cbn [map dropna NaN]. unfold NaN. cbn [dropna].
  simpl in Hlen. injection Hlen as Hlen. rewrite <- Hlen. f_equal.
  clear. revert p. induction xs as [|x xs IH]; intros p; [reflexivity|].
  cbn [diff_from map dropna fsub List.length]. now rewrite IH.
Qed.

Lemma meter_run_whole :
  Forall (fun r => exists z, Value r = Some (IZR z) /\ 0 <= z <= 20) meter_run.
Proof.
  repeat constructor;
    [exists 10|exists 15|exists 12|exists 20]; (split; [reflexivity|lia]).
Qed.

Lemma meter_run_total_witness :
  sum (map Vol (convert_rows meter_run)) = Some (20 - 10)%R.
Proof.
  apply (fun Hwm Hwhole Hbound =>
           proj1 (meter_run_total
                    (mkReading "Water Meter" (at_day 2020 3 15 0) (Some 10%R))
                    (List.tl meter_run) 20 Hwm Hwhole Hbound)).
  - repeat constructor.
  - exact meter_run_whole.
  - vm_compute. reflexivity.
Defined.

Lemma filtered_sum_ge (dataframe : list VolRow) :
  (Rsum (dropna (map Vol dataframe))
   <= Rsum (dropna (map Vol (remove_negative_values dataframe))))%R
  /\ (0 <= Rsum (dropna (map Vol (remove_negative_values dataframe))))%R.
Proof.
  unfold remove_negative_values, Rsum, fge, fle.
  induction dataframe as [|r df [IH1 IH2]]; cbn [filter map dropna]; [simpl; lra|].
  destruct (Vol r) as [x|] eqn:E; [|auto].
  destruct (Rleb 0 x) eqn:Hx.
  - apply Rleb_true in Hx. cbn [map dropna]. rewrite E. cbn [fold_right]. lra.
  - apply Rleb_false in Hx. cbn [fold_right]. lra.
Qed.

(** X2: take a run of n Water Meter readings that are whole numbers between
    0 and a bound with n * bound < 2^53, so that every difference of two
    readings and every sum of such differences is exact in double
    precision.  After the records of negative volume are removed, the total
    of the run is at least the last reading minus the first, and not
    negative: every backward step of the meter is left out of the total. *)
Theorem filtered_meter_run_total (first : Reading) (rows : list Reading) (bound : Z) :
  Forall (fun r => Measurement r = "Water Meter") (first :: rows) ->
  Forall (fun r => exists z, Value r = Some (IZR z) /\ 0 <= z <= bound) (first :: rows) ->
  Z.of_nat (List.length (first :: rows)) * bound < 2 ^ 53 ->
  exists total first_value last_value,
    sum (map Vol (remove_negative_values (convert_rows (first :: rows)))) = Some total
    /\ Value first = Some first_value
    /\ Value (last rows first) = Some last_value
    /\ (last_value - first_value <= total)%R
    /\ (0 <= total)%R.
Proof.
  intros Hwm Hwhole _. pose proof (whole_readings_defined _ _ Hwhole) as Hdef.
  pose proof (convert_rows_telescope first rows Hwm Hdef) as Ht.
  destruct (filtered_sum_ge (convert_rows (first :: rows))) as [Hge Hpos].
  unfold sum in *.
  remember (Rsum (dropna (map Vol (convert_rows (first :: rows))))) as all_volumes.
  destruct (Value first) as [a|] eqn:Ea;
    [|inversion Hdef as [|? ? H0 ?]; exfalso; now apply H0].
  destruct (Value (last rows first)) as [b|] eqn:Eb; [|discriminate].
  cbn [fsub] in Ht. injection Ht as Ht.
  eexists _, a, b. split; [reflexivity|]. split; [reflexivity|]. split; [reflexivity|].
  split; [lra|exact Hpos].
Qed.

Lemma filtered_meter_run_total_witness :
  exists total,
    sum (map Vol (remove_negative_values (convert_rows meter_run))) = Some total
    /\ (20 - 10 <= total)%R.
Proof.
  destruct (filtered_meter_run_total
              (mkReading "Water Meter" (at_day 2020 3 15 0) (Some 10%R))
              (List.tl meter_run) 20)
    as (total & a & b & Ht & Ha & Hb & Hle & _).
  - repeat constructor.
  - exact meter_run_whole.
  - vm_compute. reflexivity.
  - exists total. split; [exact Ht|].
    simpl in Ha, Hb. injection Ha as <-. injection Hb as <-. exact Hle.
Defined.

(** ** The Snowflake CASE against the Hilltop conversion *)

Lemma lag_from_meter (partition : list Observation) : forall prev,
  Forall (fun o => AttributeName o = "Water Meter") partition ->
  lag_from prev partition
  = map Ok (diff_from (match prev with Some p => ObservationValue p | None => None end)
                      (map ObservationValue partition)).
Proof.
  induction partition as [|o tl IH]; intros prev H; [reflexivity|].
  inversion H as [|? ? Ho Htl]; subst. cbn [lag_from map diff_from].
  rewrite (IH (Some o) Htl). f_equal.
  unfold MeasuredValue. apply String.eqb_eq in Ho. now rewrite Ho.
Qed.

(** X3: on a partition of Water Meter observations the Snowflake CASE and
    [convert_water_use_data] derive the same volumes from the same values,
    reading by reading, a NULL (NaN) first. *)
Theorem snowflake_meter_volumes_agree (rows : list Reading) (partition : list Observation) :
  Forall (fun r => Measurement r = "Water Meter") rows ->
  Forall (fun o => AttributeName o = "Water Meter") partition ->
  map ObservationValue partition = map Value rows ->
  TYPE_CORRECTED_COMBINED_METERS partition = map (fun v => Ok (Vol v)) (convert_rows rows).
Proof.
  intros Hrows Hpart Hvalues. unfold TYPE_CORRECTED_COMBINED_METERS.
  rewrite <- (map_map Vol Ok), (convert_rows_all_meter _ Hrows), <- Hvalues.
  destruct partition as [|o tl]; [reflexivity|].
  inversion Hpart as [|? ? Ho Htl]; subst. cbn [lag_from map diff].
  rewrite (lag_from_meter tl (Some o) Htl). f_equal.
  unfold MeasuredValue. apply String.eqb_eq in Ho. rewrite Ho.
  unfold sql_sub. now destruct (ObservationValue o).
Qed.

Lemma snowflake_meter_volumes_agree_witness :
  TYPE_CORRECTED_COMBINED_METERS meter_partition
  = map (fun v => Ok (Vol v)) (convert_rows meter_run).
Proof.
  apply (snowflake_meter_volumes_agree meter_run meter_partition).
  - repeat constructor.
  - repeat constructor.
  - reflexivity.
Defined.

(** X4: the CASE raises a division by zero exactly on a non-NULL Flow value
    whose previous observation carries the same second, and on a non-NULL
    Average Flow value whose previous observation lies in the same clock
    hour; in every other case it returns a value or NULL. *)
Theorem MeasuredValue_division_by_zero (obs : Observation) (prev : option Observation) :
  MeasuredValue obs prev = Raise DivisionByZero
  <-> exists p x,
        prev = Some p /\ ObservationValue obs = Some x
        /\ ((AttributeName obs = "Flow"
             /\ epoch_seconds (ObservationDateTime obs)
                = epoch_seconds (ObservationDateTime p))
            \/ (AttributeName obs = "Average Flow"
                /\ epoch_seconds (ObservationDateTime obs) / 3600
                   = epoch_seconds (ObservationDateTime p) / 3600)).
Proof.
  unfold MeasuredValue.
  destruct (String.eqb_spec (AttributeName obs) "Water Meter") as [Hwm|Hwm].
  { split; [discriminate|]. intros (p & x & _ & _ & [[H _]|[H _]]); congruence. }
  destruct (String.eqb_spec (AttributeName obs) "Flow") as [Hf|Hf].
  { destruct prev as [p|], (ObservationValue obs) as [x|]; simpl;
      try (split; [discriminate | intros (? & ? & ? & ? & ?); discriminate]).
    destruct (Z.eqb_spec (epoch_seconds (ObservationDateTime obs)
                          - epoch_seconds (ObservationDateTime p)) 0) as [E|E].
    - split; [|reflexivity]. intros _. exists p, x. repeat split; auto. left. split; auto. lia.
    - split; [discriminate|]. intros (p' & x' & Hp & _ & [[_ H]|[H _]]).
      + inversion Hp; subst. lia.
      + congruence. }
  destruct (String.eqb_spec (AttributeName obs) "Average Flow") as [Ha|Ha].
  { destruct prev as [p|], (ObservationValue obs) as [x|]; simpl;
      try (split; [discriminate | intros (? & ? & ? & ? & ?); discriminate]).
    destruct (Z.eqb_spec (epoch_seconds (ObservationDateTime obs) / 3600
                          - epoch_seconds (ObservationDateTime p) / 3600) 0) as [E|E].
    - split; [|reflexivity]. intros _. exists p, x. repeat split; auto. right. split; auto. lia.
    - split; [discriminate|]. intros (p' & x' & Hp & _ & [[H _]|[_ H]]).
      + congruence.
      + inversion Hp; subst. lia. }
  split; [discriminate|]. intros (p & x & _ & _ & [[H _]|[H _]]); congruence.
Qed.

Lemma MeasuredValue_division_by_zero_witness :
  MeasuredValue average_flow_obs (Some average_flow_prev) = Raise DivisionByZero.
Proof.
  apply (proj2 (MeasuredValue_division_by_zero average_flow_obs (Some average_flow_prev))).
  exists average_flow_prev, 6%R. split; [reflexivity|]. split; [reflexivity|].
  right. split; reflexivity.
Defined.

(** ** Totals of the negative-value summary *)

Lemma count_indicator (l : list float) :
  count l = Zsum (map (fun v => match v with Some _ => 1 | None => 0 end) l).
Proof.
  unfold count, Zsum.
  induction l as [|[x|] l IH]; cbn [dropna map fold_right List.length]; lia.
Qed.

Lemma count_map {A} (f : A -> float) (l : list A) :
  count (map f l) = Zsum (map (fun r => match f r with Some _ => 1 | None => 0 end) l).
Proof. now rewrite count_indicator, map_map. Qed.

Lemma Rsum_negative (xs : list R) :
  Forall (fun x => (x < 0)%R) xs -> xs <> [] -> (Rsum xs < 0)%R.
Proof.
  induction 1 as [|x xs Hx Hxs IH]; intros Hne; [congruence|].
  simpl. destruct xs as [|y ys]; [simpl; lra|].
  assert (Rsum (y :: ys) < 0)%R by (apply IH; discriminate). lra.
Qed.

Lemma filter_three_way {A} (f g h : A -> bool) (l : list A) :
  (forall x, (f x = true /\ g x = false /\ h x = false)
             \/ (f x = false /\ g x = true /\ h x = false)
             \/ (f x = false /\ g x = false /\ h x = true)) ->
  List.length l
  = (List.length (filter f l) + List.length (filter g l) + List.length (filter h l))%nat.
Proof.
  intros H. induction l as [|a l IH]; [reflexivity|]. simpl.
  destruct (H a) as [(-> & -> & ->)|[(-> & -> & ->)|(-> & -> & ->)]]; simpl; lia.
Qed.

(** X5: the monthly counts of the negative-value summary add up to the
    count that the Quality Assessment script reports, the number of records
    of volume < 0; every row of the summary counts at least one record and
    has a sum below 0; and every record of the converted table is either
    kept by the filter, counted as negative, or has a missing volume. *)
Theorem negative_summary_totals (vol_data : list VolRow) :
  Zsum (map Negative_Value_Count (summarise_negative_values vol_data))
  = QualityAssessment.summarise_negative_values vol_data
  /\ QualityAssessment.summarise_negative_values vol_data
     = Z.of_nat (List.length (filter (fun r => flt (Vol r) (Some 0%R)) vol_data))
  /\ (forall n, In n (summarise_negative_values vol_data) ->
        1 <= Negative_Value_Count n
        /\ exists s, Negative_Value_Sum n = Some s /\ (s < 0)%R)
  /\ List.length vol_data
     = (List.length (remove_negative_values vol_data)
        + List.length (filter (fun r => flt (Vol r) (Some 0%R)) vol_data)
        + List.length (filter (fun r => match Vol r with None => true | _ => false end)
                              vol_data))%nat.
Proof.
  split; [|split; [|split]].
  - unfold summarise_negative_values, QualityAssessment.summarise_negative_values.
    rewrite map_map.
    rewrite (map_ext _ (fun kg => Zsum (map (fun r => match Vol r with
                                                      | Some _ => 1 | None => 0 end)
                                            (snd kg))))
      by (intros [m g]; simpl; apply count_map).
    rewrite Zsum_groupby. now rewrite count_map.
  - unfold QualityAssessment.summarise_negative_values, count.
    rewrite dropna_defined, length_map; [reflexivity|].
    apply Forall_forall. intros v Hv. apply in_map_iff in Hv.
    destruct Hv as (r & <- & Hr). apply filter_In in Hr. destruct Hr as [_ Hneg].
    apply flt_Some in Hneg. destruct Hneg as (x & _ & -> & _). discriminate.
  - intros n Hn. apply summarise_negative_values_In in Hn. cbv zeta in Hn.
    destruct Hn as (Hne & Hc & Hs). rewrite Hc, Hs.
    set (g := filter (fun r => flt (Vol r) (Some 0%R)
                               && (row_month r =? neg_Month n)%string) vol_data) in *.
    assert (Hneg : Forall (fun x => (x < 0)%R) (dropna (map Vol g))).
    { clear Hne Hc Hs. subst g. induction vol_data as [|r df IH]; [constructor|].
      cbn [filter]. destruct (flt (Vol r) (Some 0%R)) eqn:E; cbn [andb]; [|exact IH].
      destruct (row_month r =? neg_Month n)%string; [|exact IH].
      apply flt_Some in E. destruct E as (x & z & Hx & Hz & Hlt). inversion Hz; subst z.
      cbn [map dropna]. rewrite Hx. constructor; assumption. }
    assert (Hlen : List.length (dropna (map Vol g)) = List.length g).
    { rewrite dropna_defined, length_map; [reflexivity|].
      apply Forall_forall. intros v Hv. apply in_map_iff in Hv.
      destruct Hv as (r & <- & Hr). apply filter_In in Hr. destruct Hr as [_ Hb].
      apply andb_true_iff in Hb. destruct Hb as [Hb _].
      apply flt_Some in Hb. destruct Hb as (x & _ & -> & _). discriminate. }
    split.
    + unfold count. rewrite Hlen. destruct g; [congruence|simpl; lia].
    + exists (Rsum (dropna (map Vol g))). split; [reflexivity|].
      apply Rsum_negative; [assumption|]. intros Hnil. rewrite Hnil in Hlen.
      destruct g; [congruence|discriminate].
  - unfold remove_negative_values. apply filter_three_way. intros r.
    unfold fge, fle, flt. destruct (Vol r) as [x|]; [|auto].
    unfold Rleb, Rltb. destruct (Rle_dec 0 x), (Rlt_dec x 0); auto; exfalso; lra.
Qed.

Lemma negative_month_summary :
  summarise_negative_values negative_month
  = [ {| neg_Month := "2020-03"; Negative_Value_Count := 3;
         Negative_Value_Sum := Some (-5)%R |} ].
Proof.
  rewrite negative_month_rows. unfold summarise_negative_values, negative_month_readings.
  simpl map. simpl filter. Rcompare.
  rewrite (groupby_single_key string_dec String.leb row_month "2020-03")
    by (intros x [<-|[<-|[<-|[]]]]; reflexivity).
  simpl. unfold count, sum. simpl. repeat f_equal. lra.
Qed.

Lemma negative_summary_totals_witness :
  1 <= 3 /\ exists s, Some (-5)%R = Some s /\ (s < 0)%R.
Proof.
  apply (proj1 (proj2 (proj2 (negative_summary_totals negative_month)))
           {| neg_Month := "2020-03"; Negative_Value_Count := 3;
              Negative_Value_Sum := Some (-5)%R |}).
  rewrite negative_month_summary. left; reflexivity.
Defined.

(** ** Totals of the daily and monthly tables *)

Lemma Zsum_ones {A} (l : list A) : Zsum (map (fun _ => 1) l) = Z.of_nat (List.length l).
Proof. unfold Zsum. induction l as [|a l IH]; cbn [map fold_right List.length]; lia. Qed.

Lemma insert_sorted_length {K} (leb : K -> K -> bool) (k : K) (l : list K) :
  List.length (insert_sorted leb k l) = S (List.length l).
Proof.
  induction l as [|h tl IH]; [reflexivity|]. simpl.
  destruct (leb k h); simpl; [reflexivity|]. now rewrite IH.
Qed.

Lemma sort_keys_length {K} (leb : K -> K -> bool) (l : list K) :
  List.length (sort_keys leb l) = List.length l.
Proof.
  induction l as [|h tl IH]; [reflexivity|]. simpl.
  now rewrite insert_sorted_length, IH.
Qed.

Lemma generate_daily_stats_total (f : DailyStat -> Z) (g : StatRow -> Z)
    (vol_stats : list StatRow) :
  (forall d rows, f {| ds_Date := d;
                       ds_Measurement := string_max (map (fun r => Measurement (reading (vol_row r))) rows);
                       ds_Vol := count (map (fun r => Vol (vol_row r)) rows);
                       ds_sd5 := Zsum (map sd5 rows);
                       ds_sd10 := Zsum (map sd10 rows);
                       ds_sd20 := Zsum (map sd20 rows);
                       ds_Year := year d;
                       ds_MonthVal := month d;
                       ds_Month := month_key d |} = Zsum (map g rows)) ->
  Zsum (map f (generate_daily_stats vol_stats)) = Zsum (map g vol_stats).
Proof.
  intros Hf. unfold generate_daily_stats. rewrite map_map.
  rewrite (map_ext _ (fun kg => Zsum (map g (snd kg)))) by (intros [d rows]; apply Hf).
  apply Zsum_groupby.
Qed.

Lemma generate_monthly_stats_total (f : MonthlyStat -> Z) (g : DailyStat -> Z)
    (daily_stats : list DailyStat) :
  (forall m rows, f {| ms_Month := m;
                       MeasType := string_max (map ds_Measurement rows);
                       DaysWithData := Z.of_nat (List.length (map ds_Vol rows));
                       TotalReports := Zsum (map ds_Vol rows);
                       Spikes_5sd := Zsum (map ds_sd5 rows);
                       Spikes_10sd := Zsum (map ds_sd10 rows);
                       Spikes_20sd := Zsum (map ds_sd20 rows) |} = Zsum (map g rows)) ->
  Zsum (map f (generate_monthly_stats daily_stats)) = Zsum (map g daily_stats).
Proof.
  intros Hf. unfold generate_monthly_stats. rewrite map_map.
  rewrite (map_ext _ (fun kg => Zsum (map g (snd kg)))) by (intros [m rows]; apply Hf).
  apply Zsum_groupby.
Qed.

(** X6: the monthly table loses and duplicates nothing: over all months the
    reports add up to the number of records with a volume, the days with
    data to the number of distinct dates, and each spike column to the
    number of records flagged at that threshold. *)
Theorem monthly_totals_conserved (vol_stats : list StatRow) :
  let daily_stats := generate_daily_stats vol_stats in
  let monthly_stats := generate_monthly_stats daily_stats in
  Zsum (map TotalReports monthly_stats) = count (map (fun r => Vol (vol_row r)) vol_stats)
  /\ Zsum (map DaysWithData monthly_stats)
     = QualityAssessment.nunique date_eq_dec (map (fun r => Date (vol_row r)) vol_stats)
  /\ Zsum (map Spikes_5sd monthly_stats) = Zsum (map sd5 vol_stats)
  /\ Zsum (map Spikes_10sd monthly_stats) = Zsum (map sd10 vol_stats)
  /\ Zsum (map Spikes_20sd monthly_stats) = Zsum (map sd20 vol_stats).
Proof.
  cbv zeta. split; [|split; [|split; [|split]]].
  - rewrite (generate_monthly_stats_total TotalReports ds_Vol) by reflexivity.
    rewrite (generate_daily_stats_total ds_Vol
               (fun r => match Vol (vol_row r) with Some _ => 1 | None => 0 end))
      by (intros d rows; apply count_map).
    now rewrite count_map.
  - rewrite (generate_monthly_stats_total DaysWithData (fun _ => 1))
      by (intros m rows; simpl; now rewrite length_map, Zsum_ones).
    rewrite Zsum_ones. unfold generate_daily_stats, groupby, group_keys.
    unfold QualityAssessment.nunique. now rewrite !length_map, sort_keys_length.
  - rewrite (generate_monthly_stats_total Spikes_5sd ds_sd5) by reflexivity.
    now rewrite (generate_daily_stats_total ds_sd5 sd5) by reflexivity.
  - rewrite (generate_monthly_stats_total Spikes_10sd ds_sd10) by reflexivity.
    now rewrite (generate_daily_stats_total ds_sd10 sd10) by reflexivity.
  - rewrite (generate_monthly_stats_total Spikes_20sd ds_sd20) by reflexivity.
    now rewrite (generate_daily_stats_total ds_sd20 sd20) by reflexivity.
Qed.

Lemma Zsum_le {A} (f g : A -> Z) (l : list A) :
  (forall x, In x l -> f x <= g x) -> Zsum (map f l) <= Zsum (map g l).
Proof.
  unfold Zsum. induction l as [|a l IH]; intros H; cbn [map fold_right]; [lia|].
  pose proof (H a (or_introl eq_refl)).
  assert (fold_right Z.add 0 (map f l) <= fold_right Z.add 0 (map g l))
    by (apply IH; intros x Hx; apply H; now right).
  lia.
Qed.

Lemma Zsum_nonneg {A} (f : A -> Z) (l : list A) :
  (forall x, In x l -> 0 <= f x) -> 0 <= Zsum (map f l).
Proof.
  intros H. rewrite <- (Zsum_le (fun _ => 0) f l H).
  unfold Zsum. induction l as [|a l IH]; cbn [map fold_right]; [lia|].
  assert (0 <= fold_right Z.add 0 (map (fun _ : A => 0) l))
    by (apply IH; intros x Hx; apply H; now right).
  lia.
Qed.

(** A flagged record has a volume, and its flags are nested 0/1 values. *)
Lemma spike_flag_bounds (dataframe : list VolRow) (mu sigma : float) (s : StatRow) :
  In s (detect_spikes dataframe mu sigma) ->
  0 <= sd20 s /\ sd20 s <= sd10 s /\ sd10 s <= sd5 s
  /\ sd5 s <= match Vol (vol_row s) with Some _ => 1 | None => 0 end.
Proof.
  rewrite detect_spikes_rows, in_map_iff. intros (r & <- & _).
  cbn [sd5 sd10 sd20 vol_row].
  destruct (fge sigma (Some 1%R)) eqn:Hsd; cbn [andb];
    [|destruct (Vol r); lia].
  destruct (100 <? Z.of_nat (List.length dataframe)); cbn [andb];
    [|destruct (Vol r); lia].
  unfold fge in Hsd. apply fle_Some in Hsd.
  destruct Hsd as (one & sg & Hone & -> & Hge). inversion Hone; subst one.
  destruct (Vol r) as [x|], mu as [m|]; try (cbn; lia).
  unfold fgt, flt, fadd, fmul, Rltb.
  destruct (Rlt_dec (m + sg * 5) x), (Rlt_dec (m + sg * 10) x), (Rlt_dec (m + sg * 20) x);
    try lia; exfalso; nra.
Qed.

Lemma daily_spike_bounds (dataframe : list VolRow) (mu sigma : float) (d : DailyStat) :
  In d (generate_daily_stats (detect_spikes dataframe mu sigma)) ->
  0 <= ds_sd20 d /\ ds_sd20 d <= ds_sd10 d /\ ds_sd10 d <= ds_sd5 d /\ ds_sd5 d <= ds_Vol d.
Proof.
  unfold generate_daily_stats. rewrite in_map_iff. intros ([k g] & <- & Hin).
  apply groupby_In in Hin. destruct Hin as [_ ->].
  cbn [ds_sd5 ds_sd10 ds_sd20 ds_Vol]. rewrite count_map.
  set (g := filter _ (detect_spikes dataframe mu sigma)).
  assert (Hg : forall s, In s g -> In s (detect_spikes dataframe mu sigma))
    by (intros s Hs; apply filter_In in Hs; tauto).
  repeat split.
  - apply Zsum_nonneg. intros s Hs. apply (spike_flag_bounds _ _ _ _ (Hg s Hs)).
  - apply Zsum_le. intros s Hs. apply (spike_flag_bounds _ _ _ _ (Hg s Hs)).
  - apply Zsum_le. intros s Hs. apply (spike_flag_bounds _ _ _ _ (Hg s Hs)).
  - apply Zsum_le. intros s Hs. apply (spike_flag_bounds _ _ _ _ (Hg s Hs)).
Qed.

(** X7: in every row of the monthly table built from a flagged series, the
    spike counts are nested and bounded by the number of reports:
    0 <= Spikes > 20sd <= Spikes > 10sd <= Spikes > 5sd <= reports; and the
    row stands for at least one day with data. *)
Theorem monthly_spike_counts_nested (dataframe : list VolRow) (mu sigma : float)
    (m : MonthlyStat) :
  In m (generate_monthly_stats (generate_daily_stats (detect_spikes dataframe mu sigma))) ->
  0 <= Spikes_20sd m
  /\ Spikes_20sd m <= Spikes_10sd m
  /\ Spikes_10sd m <= Spikes_5sd m
  /\ Spikes_5sd m <= TotalReports m
  /\ 1 <= DaysWithData m.
Proof.
  unfold generate_monthly_stats. rewrite in_map_iff. intros ([k g] & <- & Hin).
  apply groupby_In in Hin. destruct Hin as [(d0 & Hd0 & Hk) ->].
  cbn [Spikes_5sd Spikes_10sd Spikes_20sd TotalReports DaysWithData].
  set (daily := generate_daily_stats (detect_spikes dataframe mu sigma)) in *.
  set (g := filter _ daily).
  assert (Hg : forall d, In d g -> In d daily)
    by (intros d Hd; apply filter_In in Hd; tauto).
  repeat split.
  - apply Zsum_nonneg. intros d Hd. apply (daily_spike_bounds _ _ _ _ (Hg d Hd)).
  - apply Zsum_le. intros d Hd. apply (daily_spike_bounds _ _ _ _ (Hg d Hd)).
  - apply Zsum_le. intros d Hd. apply (daily_spike_bounds _ _ _ _ (Hg d Hd)).
  - apply Zsum_le. intros d Hd. apply (daily_spike_bounds _ _ _ _ (Hg d Hd)).
  - rewrite length_map.
    assert (Hin : In d0 g).
    { apply filter_In. split; [assumption|]. destruct (string_dec (ds_Month d0) k); congruence. }
    destruct g; [contradiction|simpl; lia].
Qed.

Lemma spike_sample_flagged :
  detect_spikes spike_sample (Some 10%R) (Some 2%R)
  = map (fun r => {| vol_row := {| reading := r; Date := ts_date (DateTime r); Vol := Value r |};
                     sd5 := 0; sd10 := 0; sd20 := 0 |}) (segment 10 0 149)
    ++ [spike_sample_row].
Proof.
  rewrite detect_spikes_rows.
  replace (Z.of_nat (List.length spike_sample)) with 150
    by (unfold spike_sample, segment;
        now rewrite length_map, length_app, !length_map, !length_seq).
  unfold spike_sample. rewrite map_map, map_app. f_equal.
  - apply map_ext_in. intros r Hr. apply segment_In in Hr. destruct Hr as [_ Hv].
    cbn [Vol]. rewrite Hv. simpl. Rcompare. reflexivity.
  - unfold spike_sample_row. simpl. Rcompare. reflexivity.
Qed.

Lemma spike_sample_monthly :
  generate_monthly_stats (generate_daily_stats (detect_spikes spike_sample (Some 10%R) (Some 2%R)))
  = [spike_sample_month].
Proof. rewrite spike_sample_flagged. vm_compute. reflexivity. Qed.

Lemma monthly_spike_counts_nested_witness :
  0 <= 0 /\ 0 <= 1 /\ 1 <= 1 /\ 1 <= 150 /\ 1 <= 1.
Proof.
  apply (monthly_spike_counts_nested spike_sample (Some 10%R) (Some 2%R) spike_sample_month).
  rewrite spike_sample_monthly. left; reflexivity.
Defined.

(** ** Order of the grouped tables *)

Section SortingFacts.
Context {K : Type} (leb : K -> K -> bool).
Hypothesis leb_total : forall a b, leb a b = true \/ leb b a = true.
Hypothesis leb_trans : forall a b c, leb a b = true -> leb b c = true -> leb a c = true.

Lemma insert_sorted_sorted (k : K) (l : list K) :
  StronglySorted (fun a b => leb a b = true) l ->
  StronglySorted (fun a b => leb a b = true) (insert_sorted leb k l).
Proof.
  induction 1 as [|h tl Hs IH Hall]; simpl.
  - constructor; constructor.
  - destruct (leb k h) eqn:E.
    + constructor; [now constructor|]. constructor; [assumption|].
      rewrite Forall_forall in *. intros x Hx. eapply leb_trans; eauto.
    + constructor; [assumption|].
      apply Forall_forall. intros x Hx. apply insert_sorted_In in Hx.
      destruct Hx as [->|Hx].
      * destruct (leb_total h k); congruence.
      * rewrite Forall_forall in Hall. now apply Hall.
Qed.

Lemma sort_keys_sorted (l : list K) :
  StronglySorted (fun a b => leb a b = true) (sort_keys leb l).
Proof.
  induction l as [|h tl IH]; simpl; [constructor|]. now apply insert_sorted_sorted.
Qed.

Lemma sorted_strict (l : list K) :
  StronglySorted (fun a b => leb a b = true) l -> NoDup l ->
  StronglySorted (fun a b => leb a b = true /\ a <> b) l.
Proof.
  induction 1 as [|h tl Hs IH Hall]; intros Hnd; constructor.
  - apply IH. now inversion Hnd.
  - inversion Hnd as [|? ? Hh Htl]; subst.
    rewrite Forall_forall in *. intros x Hx. split; [now apply Hall|].
    intros ->. contradiction.
Qed.
End SortingFacts.

Lemma date_leb_total (a b : date) : date_leb a b = true \/ date_leb b a = true.
Proof.
  destruct (date_ltb_total a b) as [H|[->|H]].
  - left. now apply date_ltb_leb.
  - left. apply date_leb_refl.
  - right. now apply date_ltb_leb.
Qed.

Lemma date_ltb_iff (a b : date) : date_ltb a b = true <-> date_leb a b = true /\ a <> b.
Proof.
  rewrite date_leb_lex, date_ltb_spec. destruct a as [y m d], b as [y' m' d']. simpl. split.
  - intros H. split; [lia|]. intros E. inversion E. lia.
  - intros [H Hne].
    destruct H as [H|[-> [H|[-> H]]]]; auto.
    destruct (Z.eq_dec d d') as [->|]; [congruence|]. right. split; auto. right. lia.
Qed.

Lemma StronglySorted_weaken {A} (P Q : A -> A -> Prop) (l : list A) :
  (forall a b, P a b -> Q a b) -> StronglySorted P l -> StronglySorted Q l.
Proof.
  intros H. induction 1 as [|a l Hs IH Hall]; constructor; [assumption|].
  eapply Forall_impl; [|exact Hall]. intros b. apply H.
Qed.

Lemma group_keys_dates_sorted (l : list date) :
  StronglySorted (fun a b => date_ltb a b = true) (group_keys date_eq_dec date_leb l).
Proof.
  apply (StronglySorted_weaken (fun a b => date_leb a b = true /\ a <> b)).
  - intros a b. apply date_ltb_iff.
  - apply sorted_strict.
    + apply sort_keys_sorted; [apply date_leb_total | apply date_leb_trans].
    + apply group_keys_NoDup.
Qed.

Lemma generate_daily_stats_dates (vol_stats : list StatRow) :
  map ds_Date (generate_daily_stats vol_stats)
  = group_keys date_eq_dec date_leb (map (fun r => Date (vol_row r)) vol_stats).
Proof.
  unfold generate_daily_stats. rewrite map_map.
  rewrite (map_ext _ fst) by (intros [d g]; reflexivity). apply groupby_keys.
Qed.

(** X8: the daily table has one row for each date that has a record, and
    its rows are in strictly ascending date order. *)
Theorem daily_stats_chronological (vol_stats : list StatRow) :
  StronglySorted (fun a b => date_ltb a b = true)
                 (map ds_Date (generate_daily_stats vol_stats))
  /\ forall d, In d (map ds_Date (generate_daily_stats vol_stats))
               <-> In d (map (fun r => Date (vol_row r)) vol_stats).
Proof.
  rewrite generate_daily_stats_dates. split; [apply group_keys_dates_sorted|].
  intros d. apply group_keys_In.
Qed.

(** ** Month keys *)

Lemma ascii_compare_lt_trans (a b c : ascii) :
  Ascii.compare a b = Lt -> Ascii.compare b c = Lt -> Ascii.compare a c = Lt.
Proof.
  unfold Ascii.compare. rewrite !N.compare_lt_iff. apply N.lt_trans.
Qed.

Lemma ascii_compare_refl (a : ascii) : Ascii.compare a a = Eq.
Proof. unfold Ascii.compare. apply N.compare_refl. Qed.

Lemma string_compare_refl (s : string) : String.compare s s = Eq.
Proof. induction s as [|c s IH]; simpl; [reflexivity|]. now rewrite ascii_compare_refl. Qed.

Lemma string_compare_lt_trans (s1 : string) : forall s2 s3,
  String.compare s1 s2 = Lt -> String.compare s2 s3 = Lt -> String.compare s1 s3 = Lt.
Proof.
  induction s1 as [|c1 s1 IH]; intros [|c2 s2] [|c3 s3]; simpl; try discriminate; auto.
  destruct (Ascii.compare c1 c2) eqn:E12; try discriminate;
    destruct (Ascii.compare c2 c3) eqn:E23; try discriminate; intros H12 H23.
  - apply Ascii.compare_eq_iff in E12, E23. subst. rewrite ascii_compare_refl. eauto.
  - apply Ascii.compare_eq_iff in E12. subst. now rewrite E23.
  - apply Ascii.compare_eq_iff in E23. subst. now rewrite E12.
  - now rewrite (ascii_compare_lt_trans _ _ _ E12 E23).
Qed.

Lemma string_leb_trans (a b c : string) :
  String.leb a b = true -> String.leb b c = true -> String.leb a c = true.
Proof.
  unfold String.leb.
  destruct (String.compare a b) eqn:Eab; try discriminate;
    destruct (String.compare b c) eqn:Ebc; try discriminate; intros _ _.
  - apply String.compare_eq_iff in Eab, Ebc. subst. now rewrite string_compare_refl.
  - apply String.compare_eq_iff in Eab. subst. now rewrite Ebc.
  - apply String.compare_eq_iff in Ebc. subst. now rewrite Eab.
  - now rewrite (string_compare_lt_trans _ _ _ Eab Ebc).
Qed.

Lemma string_ltb_iff (a b : string) : String.ltb a b = true <-> String.leb a b = true /\ a <> b.
Proof.
  unfold String.ltb, String.leb. destruct (String.compare a b) eqn:E; split;
    try discriminate; try (intros [H _]; discriminate).
  - intros [_ H]. apply String.compare_eq_iff in E. contradiction.
  - intros _. split; [reflexivity|]. intros ->. rewrite string_compare_refl in E. discriminate.
  - reflexivity.
Qed.

Lemma string_compare_app (s1 : string) : forall s2 t1 t2,
  String.length s1 = String.length s2 ->
  String.compare (s1 ++ t1) (s2 ++ t2)
  = match String.compare s1 s2 with
    | Eq => String.compare t1 t2
    | c => c
    end.
Proof.
  induction s1 as [|c1 s1 IH]; intros [|c2 s2] t1 t2 Hlen; simpl in *; try discriminate.
  - reflexivity.
  - destruct (Ascii.compare c1 c2); auto.
Qed.

(** The decimal numerals of the years 1000 to 9999 have four characters
    and ascend with the year (checked year by year). *)
Lemma four_digit_years_checked :
  forallb (fun y => (String.length (str y) =? 4)%nat
                    && ((y =? 9999) || String.ltb (str y) (str (y + 1))))
          (map (fun n => 1000 + Z.of_nat n) (seq 0 (Z.to_nat 9000))) = true.
Proof. vm_compute. reflexivity. Qed.

Lemma four_digit_year (y : Z) :
  1000 <= y <= 9999 ->
  String.length (str y) = 4%nat
  /\ (y < 9999 -> String.compare (str y) (str (y + 1)) = Lt).
Proof.
  intros Hy. pose proof four_digit_years_checked as H.
  rewrite forallb_forall in H.
  assert (Hin : In y (map (fun n => 1000 + Z.of_nat n) (seq 0 (Z.to_nat 9000)))).
  { apply in_map_iff. exists (Z.to_nat (y - 1000)). split; [lia|]. apply in_seq. lia. }
  apply H in Hin. apply andb_true_iff in Hin. destruct Hin as [Hlen Hlt].
  split; [now apply Nat.eqb_eq|].
  intros Hy'. apply orb_true_iff in Hlt. destruct Hlt as [Hlt|Hlt].
  - apply Z.eqb_eq in Hlt. lia.
  - unfold String.ltb in Hlt. destruct (String.compare (str y) (str (y + 1))); congruence.
Qed.

Lemma year_numerals_ascend (n : nat) : forall y,
  1000 <= y -> y + 1 + Z.of_nat n <= 9999 ->
  String.compare (str y) (str (y + 1 + Z.of_nat n)) = Lt.
Proof.
  induction n as [|n IH]; intros y Hlo Hhi.
  - replace (y + 1 + Z.of_nat 0) with (y + 1) by lia. apply four_digit_year; lia.
  - apply (string_compare_lt_trans _ (str (y + 1 + Z.of_nat n))).
    + apply IH; lia.
    + replace (y + 1 + Z.of_nat (S n)) with (y + 1 + Z.of_nat n + 1) by lia.
      apply four_digit_year; lia.
Qed.

Lemma year_numerals_compare (y1 y2 : Z) :
  1000 <= y1 <= 9999 -> 1000 <= y2 <= 9999 ->
  String.compare (str y1) (str y2) = Z.compare y1 y2.
Proof.
  intros H1 H2. destruct (Z.compare_spec y1 y2) as [->|Hlt|Hgt].
  - apply string_compare_refl.
  - replace y2 with (y1 + 1 + Z.of_nat (Z.to_nat (y2 - y1 - 1))) by lia.
    apply year_numerals_ascend; lia.
  - rewrite String.compare_antisym.
    replace y1 with (y2 + 1 + Z.of_nat (Z.to_nat (y1 - y2 - 1))) by lia.
    rewrite year_numerals_ascend by lia. reflexivity.
Qed.

Lemma format_02_compare (m1 m2 : Z) :
  1 <= m1 <= 12 -> 1 <= m2 <= 12 ->
  String.compare (format_02 m1) (format_02 m2) = Z.compare m1 m2.
Proof.
  intros H1 H2. month_cases m1; month_cases m2; vm_compute; reflexivity.
Qed.

Lemma month_key_compare (a b : date) :
  1000 <= year a <= 9999 -> 1 <= month a <= 12 ->
  1000 <= year b <= 9999 -> 1 <= month b <= 12 ->
  String.compare (month_key a) (month_key b)
  = match Z.compare (year a) (year b) with
    | Eq => Z.compare (month a) (month b)
    | c => c
    end.
Proof.
  intros Hya Hma Hyb Hmb. unfold month_key.
  rewrite string_compare_app
    by (now rewrite (proj1 (four_digit_year _ Hya)), (proj1 (four_digit_year _ Hyb))).
  rewrite year_numerals_compare by assumption.
  destruct (Z.compare (year a) (year b)); try reflexivity.
  rewrite (string_compare_app "-" "-") by reflexivity. cbn [String.compare].
  rewrite ascii_compare_refl. cbn. apply format_02_compare; assumption.
Qed.

Lemma month_key_inj (a b : date) :
  1000 <= year a <= 9999 -> 1 <= month a <= 12 ->
  1000 <= year b <= 9999 -> 1 <= month b <= 12 ->
  month_key a = month_key b -> year a = year b /\ month a = month b.
Proof.
  intros Hya Hma Hyb Hmb Heq.
  pose proof (month_key_compare a b Hya Hma Hyb Hmb) as H.
  rewrite Heq, string_compare_refl in H.
  destruct (Z.compare_spec (year a) (year b)); try discriminate.
  destruct (Z.compare_spec (month a) (month b)); try discriminate. auto.
Qed.

(** X9: for dates with a four-digit year, the month keys "YYYY-MM" compare
    as strings the way their (year, month) pairs compare in the calendar;
    in particular equal keys mean the same month of the same year. *)
Theorem month_key_order (a b : date) :
  1000 <= year a <= 9999 -> 1 <= month a <= 12 ->
  1000 <= year b <= 9999 -> 1 <= month b <= 12 ->
  String.compare (month_key a) (month_key b)
  = match Z.compare (year a) (year b) with
    | Eq => Z.compare (month a) (month b)
    | c => c
    end
  /\ (month_key a = month_key b <-> year a = year b /\ month a = month b).
Proof.
  intros Hya Hma Hyb Hmb. split; [now apply month_key_compare|]. split.
  - now apply month_key_inj.
  - intros [Hy Hm]. unfold month_key. now rewrite Hy, Hm.
Qed.

Lemma month_key_order_witness :
  String.compare (month_key (mkdate 2020 12 31)) (month_key (mkdate 2021 1 1)) = Lt.
Proof.
  apply (fun Hya Hma Hyb Hmb =>
           proj1 (month_key_order (mkdate 2020 12 31) (mkdate 2021 1 1) Hya Hma Hyb Hmb));
    simpl; lia.
Defined.

Lemma group_keys_strings_sorted (l : list string) :
  StronglySorted (fun a b => String.ltb a b = true) (group_keys string_dec String.leb l).
Proof.
  apply (StronglySorted_weaken (fun a b => String.leb a b = true /\ a <> b)).
  - intros a b. apply string_ltb_iff.
  - apply sorted_strict.
    + apply sort_keys_sorted; [apply String.leb_total | apply string_leb_trans].
    + apply group_keys_NoDup.
Qed.

Lemma generate_monthly_stats_months (daily_stats : list DailyStat) :
  map ms_Month (generate_monthly_stats daily_stats)
  = group_keys string_dec String.leb (map ds_Month daily_stats).
Proof.
  unfold generate_monthly_stats. rewrite map_map.
  rewrite (map_ext _ fst) by (intros [m g]; reflexivity). apply groupby_keys.
Qed.

Lemma StronglySorted_nth {A} (P : A -> A -> Prop) (l : list A) :
  StronglySorted P l ->
  forall i j a b, nth_error l i = Some a -> nth_error l j = Some b -> (i < j)%nat -> P a b.
Proof.
  induction 1 as [|h tl Hs IH Hall]; intros i j a b Hi Hj Hlt.
  - destruct i; discriminate.
  - destruct j as [|j]; [lia|]. simpl in Hj. destruct i as [|i]; simpl in Hi.
    + inversion Hi; subst. rewrite Forall_forall in Hall. apply Hall.
      eapply nth_error_In; eauto.
    + eapply IH; eauto. lia.
Qed.


Lemma idle_march_months :
  map ms_Month (generate_monthly_stats (generate_daily_stats (spike_flagged idle_march_series)))
  = ["2020-03"; "2020-04"].
Proof.
  rewrite spike_flagged_short by (vm_compute; discriminate).
  vm_compute. reflexivity.
Qed.


(** Rows with distinct keys keep distinct keys when some are filtered out. *)
Lemma NoDup_map_filter {Row Key : Type} (keep : Row -> bool) (key : Row -> Key)
    (rows : list Row) (Hkeys : NoDup (map key rows)) :
  NoDup (map key (filter keep rows)).
Proof.
  induction rows as [|r rows IH]; simpl; [constructor|].
  inversion Hkeys as [|? ? Hr Hrows]; subst. destruct (keep r); simpl; [|auto].
  constructor; [|auto]. intros Hin. apply Hr.
  apply in_map_iff in Hin. destruct Hin as (x & Hx & Hin).
  apply in_map_iff. exists x. split; [assumption|]. apply filter_In in Hin. tauto.
Qed.

Lemma NoDup_map_on {A B} (f : A -> B) (l : list A) :
  (forall x y, In x l -> In y l -> f x = f y -> x = y) -> NoDup l -> NoDup (map f l).
Proof.
  intros Hinj. induction 1 as [|a l Ha Hl IH]; simpl; constructor.
  - intros Hin. apply in_map_iff in Hin. destruct Hin as (x & Hx & Hin).
    assert (x = a) by (apply Hinj; [now right | now left | assumption]). subst. contradiction.
  - apply IH. intros x y Hx Hy. apply Hinj; now right.
Qed.

Lemma generate_daily_stats_row (vol_stats : list StatRow) (d : DailyStat) :
  In d (generate_daily_stats vol_stats) ->
  ds_Month d = month_key (ds_Date d)
  /\ In (ds_Date d) (map (fun r => Date (vol_row r)) vol_stats).
Proof.
  intros Hd. split.
  - unfold generate_daily_stats in Hd. apply in_map_iff in Hd.
    destruct Hd as ([k g] & <- & _). reflexivity.
  - apply (group_keys_In date_eq_dec date_leb). rewrite <- generate_daily_stats_dates.
    now apply in_map.
Qed.

(** Distinct valid dates of one month are at most as many as its days. *)
Lemma dates_of_one_month (y mo : Z) (dates : list date) :
  NoDup dates ->
  (forall d, In d dates -> valid_date d /\ year d = y /\ month d = mo) ->
  Z.of_nat (List.length dates) <= days_in_month y mo.
Proof.
  intros Hnd Hall.
  assert (Hdays : NoDup (map (fun d => Z.to_nat (day d)) dates)).
  { apply NoDup_map_on; [|assumption]. intros a b Ha Hb Heq.
    destruct (Hall a Ha) as ([_ Hda] & Hya & Hma).
    destruct (Hall b Hb) as ([_ Hdb] & Hyb & Hmb).
    destruct a as [ya ma da], b as [yb mb db]. simpl in *. f_equal; lia. }
  assert (Hincl : incl (map (fun d => Z.to_nat (day d)) dates)
                       (seq 1 (Z.to_nat (days_in_month y mo)))).
  { intros n Hn. apply in_map_iff in Hn. destruct Hn as (d & <- & Hd).
    destruct (Hall d Hd) as ([_ Hday] & Hy & Hm). rewrite Hy, Hm in Hday.
    apply in_seq. lia. }
  pose proof (NoDup_incl_length Hdays Hincl) as Hlen.
  rewrite length_map, length_seq in Hlen.
  assert (0 <= days_in_month y mo)
    by (unfold days_in_month; destruct (mo =? 2); [destruct (is_leap y)|
        destruct ((mo =? 4) || (mo =? 6) || (mo =? 9) || (mo =? 11))]; lia).
  lia.
Qed.

(** X11: when the dates of the records are valid dates with four-digit
    years, every row of the monthly table is the row of one calendar month
    and its days with data are at least 1 and at most the days of that
    month. *)
Theorem days_with_data_bounded (vol_stats : list StatRow) (m : MonthlyStat) :
  Forall (fun r => valid_date (Date (vol_row r))
                   /\ 1000 <= year (Date (vol_row r)) <= 9999) vol_stats ->
  In m (generate_monthly_stats (generate_daily_stats vol_stats)) ->
  exists y mo,
    ms_Month m = month_key (mkdate y mo 1)
    /\ 1 <= mo <= 12
    /\ 1 <= DaysWithData m <= days_in_month y mo.
Proof.
  intros Hvalid Hm. unfold generate_monthly_stats in Hm. apply in_map_iff in Hm.
  destruct Hm as ([k g] & <- & Hin). apply groupby_In in Hin.
  destruct Hin as [(d0 & Hd0 & Hk) ->]. cbn [ms_Month DaysWithData].
  set (daily := generate_daily_stats vol_stats) in *.
  set (g := filter _ daily). rewrite length_map.
  assert (Hrange : forall d, In d daily ->
            valid_date (ds_Date d) /\ 1000 <= year (ds_Date d) <= 9999).
  { intros d Hd. destruct (generate_daily_stats_row _ _ Hd) as [_ Hdate].
    apply in_map_iff in Hdate. destruct Hdate as (r & <- & Hr).
    rewrite Forall_forall in Hvalid. now apply Hvalid. }
  destruct (Hrange d0 Hd0) as [[Hm0 Hday0] Hy0].
  exists (year (ds_Date d0)), (month (ds_Date d0)).
  split; [|split; [assumption|split]].
  - rewrite <- Hk, (proj1 (generate_daily_stats_row _ _ Hd0)). reflexivity.
  - assert (Hin : In d0 g).
    { apply filter_In. split; [assumption|]. destruct (string_dec (ds_Month d0) k); congruence. }
    destruct g; [contradiction|simpl; lia].
  - rewrite <- (length_map ds_Date). apply dates_of_one_month.
    + apply NoDup_map_filter.
      replace (map ds_Date daily)
        with (group_keys date_eq_dec date_leb (map (fun r => Date (vol_row r)) vol_stats)).
      * apply group_keys_NoDup.
      * unfold daily, generate_daily_stats. rewrite map_map.
        rewrite (map_ext _ fst) by (intros [d' g']; reflexivity).
        symmetry. apply groupby_keys.
    + intros d Hd. apply in_map_iff in Hd. destruct Hd as (x & <- & Hx).
      apply filter_In in Hx. destruct Hx as [Hx Hkey].
      destruct (string_dec (ds_Month x) k) as [Hkx|]; [|discriminate].
      destruct (Hrange x Hx) as [[Hmx Hdx] Hyx].
      split; [split; assumption|].
      apply month_key_inj; try assumption.
      rewrite <- (proj1 (generate_daily_stats_row _ _ Hx)),
              <- (proj1 (generate_daily_stats_row _ _ Hd0)). congruence.
Qed.

Lemma spike_sample_dates (s : StatRow) :
  In s (detect_spikes spike_sample (Some 10%R) (Some 2%R)) ->
  Date (vol_row s) = mkdate 2020 3 15.
Proof.
  intros Hs. apply (in_map vol_row) in Hs. rewrite detect_spikes_vol_rows in Hs.
  unfold spike_sample in Hs. apply in_map_iff in Hs. destruct Hs as (r & <- & Hr).
  apply in_app_or in Hr. unfold segment in Hr.
  destruct Hr as [Hr|Hr]; apply in_map_iff in Hr; destruct Hr as (i & <- & _); reflexivity.
Qed.

Lemma days_with_data_bounded_witness :
  exists y mo,
    "2020-03" = month_key (mkdate y mo 1)
    /\ 1 <= mo <= 12
    /\ 1 <= 1 <= days_in_month y mo.
Proof.
  apply (days_with_data_bounded (detect_spikes spike_sample (Some 10%R) (Some 2%R))
           spike_sample_month).
  - apply Forall_forall. intros s Hs. rewrite (spike_sample_dates s Hs).
    unfold valid_date, days_in_month. simpl. lia.
  - rewrite spike_sample_monthly. left; reflexivity.
Defined.

(** ** The water year and the rows of the gap-filled table *)

Lemma july_to_july (y : Z) :
  toordinal (mkdate (y + 1) 7 1)
  = toordinal (mkdate y 7 1) + 365 + (if is_leap (y + 1) then 1 else 0).
Proof.
  unfold toordinal. cbn [year month day]. rewrite days_before_year_succ.
  unfold days_before_month. cbn [days_before_month_table Z.ltb Z.compare Pos.compare
                                 Pos.compare_cont andb].
  destruct (is_leap y), (is_leap (y + 1)); lia.
Qed.

(** X12: the start date that [process_plot_data] derives is the 1 July of
    the water year that contains the first observation: it is on or before
    that date, the next 1 July is after it, fewer than 366 days lie between
    the two, and the start date of a start date is itself. *)
Theorem water_year_contains_first_observation (from_date : date) :
  valid_date from_date ->
  let s := start_date from_date in
  month s = 7 /\ day s = 1
  /\ date_leb s from_date = true
  /\ date_ltb from_date (mkdate (year s + 1) 7 1) = true
  /\ 0 <= toordinal from_date - toordinal s < 366
  /\ start_date s = s.
Proof.
  intros Hv. cbv zeta.
  assert (Hs : month (start_date from_date) = 7 /\ day (start_date from_date) = 1)
    by (unfold start_date; destruct (month from_date <=? 6); auto).
  assert (Hle : date_leb (start_date from_date) from_date = true)
    by now apply start_date_le.
  assert (Hlt : date_ltb from_date (mkdate (year (start_date from_date) + 1) 7 1) = true).
  { apply date_ltb_spec. destruct Hv as [Hm Hd]. unfold start_date.
    destruct (Z.leb_spec (month from_date) 6); simpl; lia. }
  assert (Hnext : valid_date (mkdate (year (start_date from_date) + 1) 7 1))
    by (unfold valid_date, days_in_month; simpl; lia).
  split; [tauto|]. split; [tauto|]. split; [assumption|]. split; [assumption|]. split.
  - pose proof (toordinal_le _ _ (start_date_valid from_date) Hv Hle).
    pose proof (toordinal_lt _ _ Hv Hnext Hlt) as Hup.
    rewrite july_to_july in Hup.
    replace (toordinal (mkdate (year (start_date from_date)) 7 1))
      with (toordinal (start_date from_date)) in Hup
      by (unfold start_date; destruct (month from_date <=? 6); reflexivity).
    destruct (is_leap (year (start_date from_date) + 1)); lia.
  - unfold start_date. destruct (month from_date <=? 6); reflexivity.
Qed.

Lemma water_year_contains_first_observation_witness :
  let s := start_date (mkdate 2020 3 15) in
  month s = 7 /\ day s = 1
  /\ date_leb s (mkdate 2020 3 15) = true
  /\ date_ltb (mkdate 2020 3 15) (mkdate (year s + 1) 7 1) = true
  /\ 0 <= toordinal (mkdate 2020 3 15) - toordinal s < 366
  /\ start_date s = s.
Proof.
  apply (water_year_contains_first_observation (mkdate 2020 3 15)).
  unfold valid_date, days_in_month. simpl. lia.
Defined.

Lemma days_from_nth (n : nat) : forall s i d,
  valid_date s -> nth_error (days_from n s) i = Some d ->
  valid_date d /\ toordinal d = toordinal s + Z.of_nat i.
Proof.
  induction n as [|n IH]; intros s i d Hs Hd; [destruct i; discriminate|].
  destruct i as [|i]; simpl in Hd.
  - inversion Hd; subst. split; [assumption|lia].
  - destruct (IH _ _ _ (next_day_valid s Hs) Hd) as [Hv Ho].
    split; [assumption|]. rewrite Ho, next_day_toordinal by assumption. lia.
Qed.

Lemma days_from_length (n : nat) (s : date) : List.length (days_from n s) = n.
Proof. revert s. induction n as [|n IH]; intros s; simpl; [reflexivity|]. now rewrite IH. Qed.

(** X13: the gap-filled table has one row for each day from the start of
    the water year to the last observed date, in calendar order: row i is
    the day i days after the start, and carries the year, month and day
    labels of that date. *)
Theorem plot_rows_consecutive (dataframe : list VolRow) (rows : list PlotRow)
    (from_date to_date : date) :
  Forall (fun r => valid_date (Date r)) dataframe ->
  process_plot_data dataframe = Ok rows ->
  min_date (map Date dataframe) = Some from_date ->
  max_date (map Date dataframe) = Some to_date ->
  Z.of_nat (List.length rows) = toordinal to_date - toordinal (start_date from_date) + 1
  /\ forall i row, nth_error rows i = Some row ->
       valid_date (p_Date row)
       /\ toordinal (p_Date row) = toordinal (start_date from_date) + Z.of_nat i
       /\ p_Year row = year (p_Date row)
       /\ p_MonthVal row = month (p_Date row)
       /\ p_Month row = month_key (p_Date row)
       /\ p_Day row = day (p_Date row).
Proof.
  intros Hvalid Hok Hmin Hmax.
  destruct (process_plot_data_rows _ _ _ Hmin Hmax) as (rows' & Hok' & Hdates & _).
  rewrite Hok in Hok'. injection Hok' as <-.
  destruct (plot_range_bounds _ _ _ Hvalid Hmin Hmax) as (Hvf & Hvt & Hstart & Hall).
  split.
  - rewrite <- (length_map p_Date), Hdates. unfold date_range. rewrite days_from_length.
    pose proof (toordinal_le _ _ (start_date_valid from_date) Hvf Hstart).
    apply min_date_spec in Hmin. destruct Hmin as [Hin _].
    destruct (Hall _ Hin) as (_ & _ & Hft).
    pose proof (toordinal_le _ _ Hvf Hvt Hft). lia.
  - intros i row Hrow.
    assert (Hd : nth_error (date_range (start_date from_date) to_date) i = Some (p_Date row))
      by (rewrite <- Hdates, nth_error_map, Hrow; reflexivity).
    destruct (days_from_nth _ _ _ _ (start_date_valid from_date) Hd) as [Hv Ho].
    split; [assumption|]. split; [assumption|].
    unfold process_plot_data in Hok. rewrite Hmin, Hmax in Hok. injection Hok as <-.
    apply nth_error_In in Hrow. apply in_map_iff in Hrow.
    destruct Hrow as ([[[d rd] vol] ma] & <- & _). repeat split.
Qed.

Lemma plot_rows_consecutive_witness :
  exists rows,
    process_plot_data march_series = Ok rows
    /\ Z.of_nat (List.length rows) = 261.
Proof.
  destruct (process_plot_data_rows march_series (mkdate 2020 3 15) (mkdate 2020 3 17)
              eq_refl eq_refl) as (rows & Hok & _).
  exists rows. split; [exact Hok|].
  destruct (plot_rows_consecutive march_series rows (mkdate 2020 3 15) (mkdate 2020 3 17)
              march_series_valid Hok eq_refl eq_refl) as [Hlen _].
  rewrite Hlen. reflexivity.
Defined.

(** ** The 30-day moving average *)

Lemma map_snd_combine {A B} (l : list A) : forall (l' : list B),
  List.length l' = List.length l -> map snd (combine l l') = l'.
Proof.
  induction l as [|a l IH]; intros [|b l'] H; simpl in *; try discriminate; auto.
  f_equal. apply IH. lia.
Qed.

Lemma process_plot_data_columns (dataframe : list VolRow) (rows : list PlotRow) :
  process_plot_data dataframe = Ok rows ->
  map MA30 rows = rolling_mean 30 21 (map Volume rows).
Proof.
  unfold process_plot_data.
  destruct (min_date (map Date dataframe)) as [from_date|]; [|discriminate].
  destruct (max_date (map Date dataframe)) as [to_date|]; [|discriminate].
  intros H. injection H as <-.
  set (X := reindex (daily_counts dataframe) (date_range (start_date from_date) to_date)).
  set (ma30 := rolling_mean 30 21 (map snd X)).
  assert (Hlen : List.length ma30 = List.length X)
    by (unfold ma30; now rewrite rolling_mean_length, length_map).
  rewrite !map_map.
  rewrite (map_ext _ snd) by (intros [[[d rd] vol] ma]; reflexivity).
  rewrite (map_ext (fun x => Volume _) (fun x => snd (fst x)))
    by (intros [[[d rd] vol] ma]; reflexivity).
  rewrite <- (map_map fst snd), map_fst_combine, map_snd_combine by assumption.
  reflexivity.
Qed.

Lemma rolling_mean_nth (w mp : nat) (l : list float) (i : nat) (x : float) :
  nth_error (rolling_mean w mp l) i = Some x ->
  x = (if (mp <=? List.length (dropna (window_at w l i)))%nat
       then mean (window_at w l i) else NaN).
Proof.
  unfold rolling_mean. rewrite nth_error_map.
  destruct (nth_error (seq 0 (List.length l)) i) as [k|] eqn:E; [|discriminate].
  assert (k = i).
  { assert (Hi : (i < List.length (seq 0 (List.length l)))%nat)
      by (apply nth_error_Some; congruence).
    rewrite length_seq in Hi.
    rewrite (nth_error_nth' _ 0%nat) in E by (now rewrite length_seq).
    rewrite seq_nth in E by assumption. now inversion E. }
  subst k. simpl. intros H. now inversion H.
Qed.

Lemma dropna_length_le (l : list float) : (List.length (dropna l) <= List.length l)%nat.
Proof. induction l as [|[x|] l IH]; simpl; lia. Qed.

(** The window of [rolling_mean] at row [i] of a column of a table: the
    entries of the rows [i - (w - 1)] to [i], or of the rows 0 to [i] where
    the table starts later. *)
Lemma window_at_rows {A} (f : A -> float) (w : nat) (rows : list A) (i : nat) :
  (i < List.length rows)%nat ->
  exists window : list A,
    window_at w (map f rows) i = map f window
    /\ List.length window = Nat.min w (S i)
    /\ forall k, (k < List.length window)%nat ->
         nth_error window k = nth_error rows (S i - List.length window + k).
Proof.
  intros Hi. exists (skipn (S i - w) (firstn (S i) rows)).
  assert (Hlen : List.length (skipn (S i - w) (firstn (S i) rows)) = Nat.min w (S i))
    by (rewrite length_skipn, length_firstn; lia).
  split; [|split; [exact Hlen|]].
  - unfold window_at. now rewrite firstn_map, skipn_map.
  - intros k Hk. rewrite Hlen in *. rewrite nth_error_skipn, nth_error_firstn.
    replace (S i - Nat.min w (S i))%nat with (S i - w)%nat by lia.
    destruct (Nat.ltb_spec (S i - w + k) (S i)); [reflexivity|lia].
Qed.

(** X14: the moving average of row i of the gap-filled table is taken over
    the window of that row and the 29 rows before it (over the rows 0 to i
    while i < 29): it is the mean of the volumes present in the window, and
    it is missing unless at least 21 of them are present; so it is missing
    on each of the first 20 rows. *)
Theorem moving_average_needs_21_days (dataframe : list VolRow) (rows : list PlotRow)
    (i : nat) (row : PlotRow) :
  process_plot_data dataframe = Ok rows ->
  nth_error rows i = Some row ->
  exists window : list PlotRow,
    List.length window = Nat.min 30 (S i)
    /\ (forall k, (k < List.length window)%nat ->
          nth_error window k = nth_error rows (S i - List.length window + k))
    /\ ((21 <= List.length (dropna (map Volume window)))%nat ->
        MA30 row = mean (map Volume window))
    /\ ((List.length (dropna (map Volume window)) < 21)%nat -> MA30 row = NaN)
    /\ ((i < 20)%nat -> MA30 row = NaN).
Proof.
  intros Hok Hrow.
  pose proof (process_plot_data_columns _ _ Hok) as Hcol.
  assert (Hma : nth_error (rolling_mean 30 21 (map Volume rows)) i = Some (MA30 row))
    by (rewrite <- Hcol, nth_error_map, Hrow; reflexivity).
  apply rolling_mean_nth in Hma.
  assert (Hi : (i < List.length rows)%nat) by (apply nth_error_Some; congruence).
  destruct (window_at_rows Volume 30 rows i Hi) as (window & Hw & Hlen & Hnth).
  rewrite Hw in Hma.
  pose proof (dropna_length_le (map Volume window)) as Hd. rewrite length_map in Hd.
  exists window. split; [exact Hlen|]. split; [exact Hnth|].
  destruct (Nat.leb_spec 21 (List.length (dropna (map Volume window)))) as [H21|H21].
  - split; [intros _; exact Hma|]. split; intros H; lia.
  - split; [intros H; lia|]. split; intros _; exact Hma.
Qed.

Lemma moving_average_needs_21_days_witness :
  exists rows row,
    process_plot_data march_series = Ok rows
    /\ nth_error rows 0 = Some row
    /\ MA30 row = NaN.
Proof.
  destruct (process_plot_data_rows march_series (mkdate 2020 3 15) (mkdate 2020 3 17)
              eq_refl eq_refl) as (rows & Hok & Hdates & _).
  destruct rows as [|row rows'].
  - exfalso. apply (f_equal (@hd_error date)) in Hdates.
    rewrite date_range_head in Hdates by (vm_compute; discriminate). discriminate.
  - exists (row :: rows'), row. split; [exact Hok|]. split; [reflexivity|].
    destruct (moving_average_needs_21_days march_series (row :: rows') 0 row Hok eq_refl)
      as (window & _ & _ & _ & _ & Hfirst).
    apply Hfirst. lia.
Defined.

(** ** Totals of the gap-filled table *)

Lemma Rsum_dropna (l : list float) :
  Rsum (dropna l) = Rsum (map (fun v => match v with Some x => x | None => 0%R end) l).
Proof.
  unfold Rsum. induction l as [|[x|] l IH]; cbn [dropna map fold_right]; lra.
Qed.

Lemma IZR_Zsum (l : list Z) : IZR (Zsum l) = Rsum (map IZR l).
Proof.
  unfold Zsum, Rsum. induction l as [|z l IH]; cbn [map fold_right]; [reflexivity|].
  now rewrite plus_IZR, IH.
Qed.

Lemma filter_unique_date (counts : list DailyCount) (d : date) :
  NoDup (map dc_Date counts) ->
  filter (fun c => if date_eq_dec (dc_Date c) d then true else false) counts
  = match find (fun c => date_eqb (dc_Date c) d) counts with
    | Some c => [c]
    | None => []
    end.
Proof.
  induction counts as [|h tl IH]; intros Hnd; simpl; [reflexivity|].
  inversion Hnd as [|? ? Hh Htl]; subst.
  destruct (date_eq_dec (dc_Date h) d) as [E|E].
  - rewrite (proj2 (date_eqb_eq _ _) E). f_equal. apply filter_none. intros x Hx.
    destruct (date_eq_dec (dc_Date x) d) as [Ex|]; [|reflexivity].
    exfalso. apply Hh. rewrite E, <- Ex. now apply in_map.
  - destruct (date_eqb (dc_Date h) d) eqn:Eb; [apply date_eqb_eq in Eb; contradiction|].
    now apply IH.
Qed.

(** Looking every label of the index up in the aggregate and adding what
    is found gives the total of the aggregate. *)
Lemma reindex_total (counts : list DailyCount) (idx : list date) (v : DailyCount -> R) :
  NoDup idx -> NoDup (map dc_Date counts) ->
  (forall c, In c counts -> In (dc_Date c) idx) ->
  Rsum (map (fun d => match find (fun c => date_eqb (dc_Date c) d) counts with
                      | Some c => v c
                      | None => 0%R
                      end) idx)
  = Rsum (map v counts).
Proof.
  intros Hidx Hkeys Hin.
  rewrite !Rsum_msum.
  rewrite <- (msum_partition 0%R Rplus) with (K_eq_dec := date_eq_dec) (key := dc_Date)
                                            (ks := idx) (rows := counts);
    try (intros; lra); auto.
  f_equal. apply map_ext. intros d. rewrite filter_unique_date by assumption.
  destruct (find _ counts); simpl; lra.
Qed.

Lemma daily_counts_totals (dataframe : list VolRow) :
  Rsum (map (fun c => IZR (dc_Readings c)) (daily_counts dataframe))
  = IZR (count (map Vol dataframe))
  /\ Rsum (map (fun c => match dc_Volume c with Some x => x | None => 0%R end)
               (daily_counts dataframe))
     = Rsum (dropna (map Vol dataframe)).
Proof.
  unfold daily_counts. rewrite !map_map. split.
  - rewrite (map_ext _ (fun kg => IZR (Zsum (map (fun r => match Vol r with
                                                           | Some _ => 1 | None => 0 end)
                                                 (snd kg)))))
      by (intros [d g]; simpl; now rewrite count_map).
    rewrite <- (map_map (fun kg => Zsum (map _ (snd kg))) IZR), <- IZR_Zsum.
    now rewrite Zsum_groupby, count_map.
  - rewrite (map_ext _ (fun kg => Rsum (map (fun r => match Vol r with
                                                      | Some x => x | None => 0%R end)
                                            (snd kg))))
      by (intros [d g]; simpl; now rewrite Rsum_dropna, map_map).
    now rewrite Rsum_groupby, Rsum_dropna, map_map.
Qed.

(** X15: gap filling keeps the totals.  Over the rows of the gap-filled
    table the reading counts add up to the number of records with a volume.
    When the volumes of the n records are whole numbers between -bound and
    bound with n * bound < 2^53, so that their sums are exact in double
    precision whatever the order, the volumes present in the table add up
    to the total volume of the series. *)
Theorem gap_filling_keeps_totals (dataframe : list VolRow) (rows : list PlotRow) :
  Forall (fun r => valid_date (Date r)) dataframe ->
  process_plot_data dataframe = Ok rows ->
  sum (map Readings rows) = Some (IZR (count (map Vol dataframe)))
  /\ forall bound,
       Forall (fun r => Vol r = NaN
                        \/ exists z, Vol r = Some (IZR z) /\ - bound <= z <= bound)
              dataframe ->
       Z.of_nat (List.length dataframe) * bound < 2 ^ 53 ->
       sum (map Volume rows) = sum (map Vol dataframe).
Proof.
  intros Hvalid Hok.
  assert (Hne : dataframe <> [])
    by (intros ->; discriminate).
  destruct (min_max_defined dataframe Hne) as (from_date & to_date & Hmin & Hmax).
  destruct (process_plot_data_rows _ _ _ Hmin Hmax) as (rows' & Hok' & Hdates & Hrows).
  rewrite Hok in Hok'. injection Hok' as <-.
  destruct (plot_range_bounds _ _ _ Hvalid Hmin Hmax) as (Hvf & Hvt & Hstart & Hall).
  set (counts := daily_counts dataframe) in *.
  set (idx := date_range (start_date from_date) to_date) in *.
  assert (Hidx : NoDup idx) by (apply days_from_NoDup, start_date_valid).
  assert (Hkeys : NoDup (map dc_Date counts))
    by (unfold counts; rewrite daily_counts_dates; apply group_keys_NoDup).
  assert (Hin : forall c, In c counts -> In (dc_Date c) idx).
  { intros c Hc. destruct (daily_counts_In _ _ Hc) as (Hd & _).
    destruct (Hall _ Hd) as (Hv & Hle1 & Hle2).
    apply date_range_In; auto using start_date_valid. split; [|assumption].
    eapply date_leb_trans; eassumption. }
  destruct (daily_counts_totals dataframe) as [Hcount Hvol]. fold counts in Hcount, Hvol.
  unfold sum. split; [|intros bound _ _]; f_equal.
  - rewrite Rsum_dropna, map_map, <- Hcount,
      <- (reindex_total counts idx (fun c => IZR (dc_Readings c)) Hidx Hkeys Hin),
      <- Hdates, map_map.
    f_equal. apply map_ext_in. intros row Hrow. destruct (Hrows row Hrow) as [_ Hf].
    destruct (find _ counts); destruct Hf as [-> _]; reflexivity.
  - rewrite Rsum_dropna, map_map, <- Hvol,
      <- (reindex_total counts idx
            (fun c => match dc_Volume c with Some x => x | None => 0%R end) Hidx Hkeys Hin),
      <- Hdates, map_map.
    f_equal. apply map_ext_in. intros row Hrow. destruct (Hrows row Hrow) as [_ Hf].
    destruct (find _ counts); destruct Hf as [_ ->]; reflexivity.
Qed.

Lemma march_series_whole :
  Forall (fun r => Vol r = NaN \/ exists z, Vol r = Some (IZR z) /\ - 5 <= z <= 5)
         march_series.
Proof.
  apply Forall_forall. intros r Hr. unfold march_series, convert_rows in Hr.
  simpl in Hr. destruct Hr as [<-|[<-|[]]]; right;
    [exists 5|exists 3]; (split; [reflexivity|lia]).
Qed.

Lemma gap_filling_keeps_totals_witness :
  exists rows,
    process_plot_data march_series = Ok rows
    /\ sum (map Readings rows) = Some (IZR (count (map Vol march_series)))
    /\ sum (map Volume rows) = sum (map Vol march_series).
Proof.
  destruct (process_plot_data_rows march_series (mkdate 2020 3 15) (mkdate 2020 3 17)
              eq_refl eq_refl) as (rows & Hok & _).
  exists rows. split; [exact Hok|].
  destruct (gap_filling_keeps_totals march_series rows march_series_valid Hok)
    as [Hcount Hvolume].
  split; [exact Hcount|]. apply (Hvolume 5); [exact march_series_whole|].
  vm_compute. reflexivity.
Defined.

(** ** The requests of the extraction loop *)

Lemma extract_fold (get_data : string -> date -> date -> option (list Reading))
    (dataframe : list MeasurementRow) : forall raw_data from_d,
  fst (fold_left (extract_step get_data) dataframe (raw_data, from_d))
  = fold_left (fun raw c =>
                 match get_data (c_measurement c) (c_from c) (c_to c) with
                 | Some tsdata2 => concat raw tsdata2
                 | None => raw
                 end)
              (get_data_calls from_d dataframe) raw_data.
Proof.
  induction dataframe as [|row rest IH]; intros raw_data from_d; [reflexivity|].
  cbn [fold_left get_data_calls extract_step].
  destruct (date_leb from_d (ToDate row)); [|apply IH].
  cbn [fold_left c_measurement c_from c_to].
  destruct (get_data (ml_Measurement row) from_d (ToDate row)); apply IH.
Qed.

Lemma fold_fetch_frame {C} (get : C -> option (list Reading)) (calls : list C) :
  forall rows,
    fold_left (fun raw c => match get c with
                            | Some tsdata2 => concat raw tsdata2
                            | None => raw
                            end) calls (Frame rows)
    = Frame (rows ++ flat_map (fun c => match get c with Some t => t | None => [] end) calls).
Proof.
  induction calls as [|c calls IH]; intros rows; cbn [fold_left flat_map].
  - now rewrite app_nil_r.
  - destruct (get c) as [t|]; cbn [concat]; rewrite IH; [now rewrite app_assoc|reflexivity].
Qed.

Lemma fold_fetch_columns {C} (get : C -> option (list Reading)) (calls : list C) :
  fold_left (fun raw c => match get c with
                          | Some tsdata2 => concat raw tsdata2
                          | None => raw
                          end) calls ColumnsOnly
  = match flat_map (fun c => match get c with Some t => t | None => [] end) calls with
    | [] => ColumnsOnly
    | rows => Frame rows
    end.
Proof.
  induction calls as [|c calls IH]; cbn [fold_left flat_map]; [reflexivity|].
  destruct (get c) as [[|r t]|]; cbn [concat app]; [exact IH| |exact IH].
  rewrite fold_fetch_frame. reflexivity.
Qed.

Lemma get_data_calls_ordered (dataframe : list MeasurementRow) : forall from_d,
  valid_date from_d ->
  Forall (fun r => valid_date (ToDate r)) dataframe ->
  Forall (fun c => valid_date (c_from c) /\ valid_date (c_to c)
                   /\ toordinal from_d <= toordinal (c_from c) <= toordinal (c_to c))
         (get_data_calls from_d dataframe)
  /\ StronglySorted (fun a b => toordinal (c_to a) < toordinal (c_from b))
                    (get_data_calls from_d dataframe).
Proof.
  induction dataframe as [|row rest IH]; intros from_d Hf Hall; cbn [get_data_calls].
  - split; constructor.
  - inversion Hall as [|? ? Hrow Hrest]; subst.
    destruct (date_leb from_d (ToDate row)) eqn:Hle; [|now apply IH].
    destruct (IH (next_day (ToDate row)) (next_day_valid _ Hrow) Hrest) as [Hcalls Hsorted].
    pose proof (toordinal_le _ _ Hf Hrow Hle) as Hord.
    pose proof (next_day_toordinal _ Hrow) as Hnext.
    split.
    + constructor; [cbn [c_from c_to]; split; [exact Hf|split; [exact Hrow|lia]]|].
      eapply Forall_impl; [|exact Hcalls]. cbn beta. intros c (Hvf & Hvt & Hc).
      split; [exact Hvf|split; [exact Hvt|lia]].
    + constructor; [exact Hsorted|].
      eapply Forall_impl; [|exact Hcalls]. cbn beta. cbn [c_to].
      intros c (_ & _ & Hc). lia.
Qed.

Lemma get_data_calls_rows (dataframe : list MeasurementRow) : forall from_d,
  Forall (fun c => exists row, In row dataframe
                               /\ c_measurement c = ml_Measurement row
                               /\ c_to c = ToDate row)
         (get_data_calls from_d dataframe).
Proof.
  induction dataframe as [|row rest IH]; intros from_d; cbn [get_data_calls];
    [constructor|].
  assert (Hrest : forall f, Forall (fun c => exists r, In r (row :: rest)
                                        /\ c_measurement c = ml_Measurement r
                                        /\ c_to c = ToDate r)
                                   (get_data_calls f rest)).
  { intros f. eapply Forall_impl; [|apply IH]. intros c (r & Hr & Hc).
    exists r. split; [now right|exact Hc]. }
  destruct (date_leb from_d (ToDate row)); [|apply Hrest].
  constructor; [|apply Hrest]. exists row. split; [now left|split; reflexivity].
Qed.

(** X16: the requests that [extract_water_use_data] sends do not depend on
    what the service answers.  The table it returns holds the rows of the
    answers to these requests, in order, and stays the untyped column-only
    table exactly when no request brought a row: when every request failed
    or was answered with an empty table.  For valid dates, every request
    covers a range that is not empty, the ranges are in ascending order and
    never overlap, and each ends at the ToDate of a row of the list. *)
Theorem extraction_requests (get_data : string -> date -> date -> option (list Reading))
    (first : MeasurementRow) (rest : list MeasurementRow) :
  valid_date (FromDate first) ->
  Forall (fun r => valid_date (ToDate r)) (first :: rest) ->
  let calls := get_data_calls (FromDate first) (first :: rest) in
  let answer c := get_data (c_measurement c) (c_from c) (c_to c) in
  extract_water_use_data get_data (first :: rest)
  = Ok (match flat_map (fun c => match answer c with Some t => t | None => [] end) calls with
        | [] => ColumnsOnly
        | rows => Frame rows
        end)
  /\ Forall (fun c => toordinal (FromDate first) <= toordinal (c_from c) <= toordinal (c_to c))
            calls
  /\ StronglySorted (fun a b => toordinal (c_to a) < toordinal (c_from b)) calls
  /\ Forall (fun c => exists row, In row (first :: rest)
                                  /\ c_measurement c = ml_Measurement row
                                  /\ c_to c = ToDate row) calls.
Proof.
  intros Hfrom Hto. cbv zeta.
  destruct (get_data_calls_ordered (first :: rest) (FromDate first) Hfrom Hto)
    as [Hcalls Hsorted].
  split; [|split; [|split]].
  - unfold extract_water_use_data. f_equal. rewrite extract_fold.
    apply (fold_fetch_columns
             (fun c => get_data (c_measurement c) (c_from c) (c_to c))).
  - eapply Forall_impl; [|exact Hcalls]. cbn beta. intros c (_ & _ & Hc). exact Hc.
  - exact Hsorted.
  - apply get_data_calls_rows.
Qed.

Lemma three_measurements_calls :
  get_data_calls (mkdate 2018 7 1) three_measurements
  = [ mkCall "Water Meter" (mkdate 2018 7 1) (mkdate 2019 6 30);
      mkCall "Compliance Volume" (mkdate 2019 7 1) (mkdate 2020 2 29) ].
Proof. vm_compute. reflexivity. Qed.

Lemma extraction_requests_witness :
  extract_water_use_data empty_answer three_measurements = Ok ColumnsOnly
  /\ StronglySorted (fun a b => toordinal (c_to a) < toordinal (c_from b))
       [ mkCall "Water Meter" (mkdate 2018 7 1) (mkdate 2019 6 30);
         mkCall "Compliance Volume" (mkdate 2019 7 1) (mkdate 2020 2 29) ].
Proof.
  rewrite <- three_measurements_calls.
  destruct (extraction_requests empty_answer
              (mkMeasurementRow "Water Meter" (mkdate 2018 7 1) (mkdate 2019 6 30))
              (List.tl three_measurements)) as (Hres & _ & Hsorted & _).
  - unfold valid_date, days_in_month; simpl; lia.
  - repeat constructor; unfold valid_date, days_in_month; simpl; lia.
  - split; [|exact Hsorted]. etransitivity; [exact Hres|reflexivity].
Defined.

(** ** The row of the Quality Assessment *)

Lemma nodup_length_le {A} (dec : forall a b : A, {a = b} + {a <> b}) (l : list A) :
  (List.length (nodup dec l) <= List.length l)%nat.
Proof.
  apply NoDup_incl_length; [apply NoDup_nodup|].
  intros x Hx. now apply nodup_In in Hx.
Qed.

(** Distinct valid dates between two days are at most as many as the days. *)
Lemma dates_in_range_count (lo hi : Z) (dates : list date) :
  lo <= hi ->
  NoDup dates ->
  (forall d, In d dates -> valid_date d /\ lo <= toordinal d <= hi) ->
  Z.of_nat (List.length dates) <= hi - lo + 1.
Proof.
  intros Hle Hnd Hall.
  assert (Hdays : NoDup (map (fun d => Z.to_nat (toordinal d - lo)) dates)).
  { apply NoDup_map_on; [|assumption]. intros a b Ha Hb Heq.
    destruct (Hall a Ha) as [Hva Hra]. destruct (Hall b Hb) as [Hvb Hrb].
    apply toordinal_inj; auto. lia. }
  assert (Hincl : incl (map (fun d => Z.to_nat (toordinal d - lo)) dates)
                       (seq 0 (Z.to_nat (hi - lo + 1)))).
  { intros n Hn. apply in_map_iff in Hn. destruct Hn as (d & <- & Hd).
    destruct (Hall d Hd) as [_ Hr]. apply in_seq. lia. }
  pose proof (NoDup_incl_length Hdays Hincl) as Hlen.
  rewrite length_map, length_seq in Hlen. lia.
Qed.

(** Every record with a volume is either kept by the filter or negative. *)
Lemma count_kept_and_negative (dataframe : list VolRow) :
  count (map Vol (remove_negative_values dataframe))
  + count (map Vol (filter (fun r => flt (Vol r) (Some 0%R)) dataframe))
  = count (map Vol dataframe).
Proof.
  unfold remove_negative_values, count, fge, fle, flt, Rleb, Rltb.
  induction dataframe as [|r df IH]; [reflexivity|].
  cbn [filter map dropna]. destruct (Vol r) as [x|] eqn:E; [|exact IH].
  cbn [List.length].
  destruct (Rle_dec 0 x), (Rlt_dec x 0); try (exfalso; lra);
    cbn [map dropna]; rewrite E; cbn [List.length]; lia.
Qed.

Lemma kept_volumes_counted (dataframe : list VolRow) :
  count (map Vol (remove_negative_values dataframe))
  = Z.of_nat (List.length (remove_negative_values dataframe)).
Proof.
  unfold count. rewrite dropna_defined, length_map; [reflexivity|].
  apply Forall_forall. intros v Hv. apply in_map_iff in Hv.
  destruct Hv as (r & <- & Hr). apply remove_negative_values_In in Hr.
  destruct Hr as (_ & x & -> & _). discriminate.
Qed.

Lemma min_date_none (l : list date) : min_date l = None -> l = [].
Proof. destruct l; [reflexivity|discriminate]. Qed.

Lemma max_date_none (l : list date) : max_date l = None -> l = [].
Proof. destruct l; [reflexivity|discriminate]. Qed.

(** X17: the row that the Quality Assessment writes for a site.  When no
    record of volume >= 0 is left the script raises; otherwise the row is
    consistent: the start date is not after the end date, the days with data
    are at least 1, at most the days of the period and at most the reports,
    the reports and the negative values together are the records that have
    a volume, and the spike counts are nested and at most the reports. *)
Theorem quality_assessment_row (rows : list Reading) (site : string) (meas_types : Z) :
  Forall (fun r => valid_date (ts_date (DateTime r))) rows ->
  let vol_data := convert_rows rows in
  (remove_negative_values vol_data = []
   /\ QualityAssessment.site_summary (Frame rows) site meas_types = Raise AttributeError)
  \/ exists stats,
       QualityAssessment.site_summary (Frame rows) site meas_types = Ok stats
       /\ date_leb (QualityAssessment.StartDate stats) (QualityAssessment.EndDate stats) = true
       /\ 1 <= QualityAssessment.DaysWithData stats <= QualityAssessment.TotalDays stats
       /\ QualityAssessment.DaysWithData stats <= QualityAssessment.TotalReports stats
       /\ QualityAssessment.TotalReports stats
          = Z.of_nat (List.length (remove_negative_values vol_data))
       /\ QualityAssessment.TotalReports stats + QualityAssessment.NegativeValues stats
          = count (map Vol vol_data)
       /\ 0 <= QualityAssessment.Spikes_20sd stats
       /\ QualityAssessment.Spikes_20sd stats <= QualityAssessment.Spikes_10sd stats
       /\ QualityAssessment.Spikes_10sd stats <= QualityAssessment.Spikes_5sd stats
       /\ QualityAssessment.Spikes_5sd stats <= QualityAssessment.TotalReports stats.
Proof.
  intros Hvalid. cbv zeta. set (vol_data := convert_rows rows).
  unfold QualityAssessment.site_summary, convert_water_use_data.
  cbn [dt_accessor bind]. fold vol_data.
  destruct (calculate_spike_parameters (remove_negative_values vol_data)) as [mu sigma].
  set (vol_data2 := remove_negative_values vol_data).
  set (vol_stats := detect_spikes vol_data2 mu sigma).
  assert (Hd : map (fun r => Date (vol_row r)) vol_stats = map Date vol_data2)
    by (unfold vol_stats; now rewrite <- (map_map vol_row Date), detect_spikes_vol_rows).
  assert (Hv : map (fun r => Vol (vol_row r)) vol_stats = map Vol vol_data2)
    by (unfold vol_stats; now rewrite <- (map_map vol_row Vol), detect_spikes_vol_rows).
  unfold QualityAssessment.generate_summary_stats. cbv zeta. rewrite Hd, Hv.
  destruct (min_date (map Date vol_data2)) as [s|] eqn:Hmin;
    [|left; split; [|reflexivity];
      apply min_date_none in Hmin; now apply map_eq_nil in Hmin].
  destruct (max_date (map Date vol_data2)) as [e|] eqn:Hmax;
    [|left; split; [|reflexivity];
      apply max_date_none in Hmax; now apply map_eq_nil in Hmax].
  right. eexists. split; [reflexivity|].
  cbn [QualityAssessment.StartDate QualityAssessment.EndDate QualityAssessment.TotalDays
       QualityAssessment.DaysWithData QualityAssessment.TotalReports
       QualityAssessment.NegativeValues QualityAssessment.Spikes_5sd
       QualityAssessment.Spikes_10sd QualityAssessment.Spikes_20sd].
  assert (Hvalid2 : Forall (fun r => valid_date (Date r)) vol_data2).
  { apply Forall_forall. intros r Hr. apply filter_In in Hr. destruct Hr as [Hr _].
    assert (Hin : In (Date r) (map Date vol_data)) by now apply in_map.
    unfold vol_data in Hin. rewrite (proj2 (convert_rows_readings rows)) in Hin.
    apply in_map_iff in Hin. destruct Hin as (x & <- & Hx).
    rewrite Forall_forall in Hvalid. now apply Hvalid. }
  destruct (plot_range_bounds _ _ _ Hvalid2 Hmin Hmax) as (Hvs & Hve & _ & Hall).
  pose proof (proj1 (min_date_spec _ _ Hmin)) as Hs.
  destruct (Hall s Hs) as (_ & _ & Hse).
  pose proof (toordinal_le _ _ Hvs Hve Hse) as Hord.
  pose proof (kept_volumes_counted vol_data) as Hkept. fold vol_data2 in Hkept.
  rewrite Hkept. unfold QualityAssessment.nunique.
  split; [exact Hse|]. split; [split|]; [| |split; [|split; [reflexivity|split]]].
  - assert (Hin : In s (nodup date_eq_dec (map Date vol_data2))) by now apply nodup_In.
    destruct (nodup date_eq_dec (map Date vol_data2)); [contradiction|simpl; lia].
  - apply dates_in_range_count; [exact Hord|apply NoDup_nodup|].
    intros d Hd'. apply nodup_In in Hd'. destruct (Hall d Hd') as (Hvd & Hsd & Hde).
    split; [exact Hvd|].
    pose proof (toordinal_le _ _ Hvs Hvd Hsd). pose proof (toordinal_le _ _ Hvd Hve Hde). lia.
  - pose proof (nodup_length_le date_eq_dec (map Date vol_data2)) as Hn.
    rewrite length_map in Hn. lia.
  - unfold QualityAssessment.summarise_negative_values.
    rewrite <- (count_kept_and_negative vol_data). fold vol_data2.
    now rewrite Hkept.
  - assert (Hb : forall x, In x vol_stats ->
              0 <= sd20 x /\ sd20 x <= sd10 x /\ sd10 x <= sd5 x
              /\ sd5 x <= match Vol (vol_row x) with Some _ => 1 | None => 0 end)
      by (intros x Hx; exact (spike_flag_bounds _ _ _ _ Hx)).
    rewrite <- Hkept, <- Hv, count_map.
    split; [apply Zsum_nonneg|split; [|split]; apply Zsum_le];
      intros x Hx; apply (Hb x Hx).
Qed.

Lemma quality_assessment_row_witness :
  exists stats,
    QualityAssessment.site_summary (Frame negative_month_readings) "K37/0001" 1 = Ok stats
    /\ QualityAssessment.TotalReports stats = 1
    /\ QualityAssessment.NegativeValues stats = 3.
Proof.
  assert (Hvalid : Forall (fun r => valid_date (ts_date (DateTime r)))
                          negative_month_readings)
    by (repeat constructor; unfold valid_date, days_in_month; simpl; lia).
  assert (Hkept : remove_negative_values negative_month
                  = [ {| reading := mkReading "Compliance Volume" (at_day 2020 3 16 0)
                                              (Some 5%R);
                         Date := mkdate 2020 3 16; Vol := Some 5%R |} ]).
  { rewrite negative_month_rows. unfold remove_negative_values, negative_month_readings.
    simpl map. simpl filter. Rcompare. reflexivity. }
  destruct (quality_assessment_row negative_month_readings "K37/0001" 1 Hvalid)
    as [[Hnone _]|(stats & Hok & _ & _ & _ & Hreports & Htotal & _)].
  - fold negative_month in Hnone. rewrite Hkept in Hnone. discriminate.
  - exists stats. split; [exact Hok|].
    fold negative_month in Hreports, Htotal. rewrite Hkept in Hreports.
    change (count (map Vol negative_month)) with 4 in Htotal.
    simpl in Hreports. split; [exact Hreports|lia].
Defined.

(** ** Rounding and the monthly extraction statistics *)

Lemma rint_cases (x : R) :
  exists f : R,
    x = (IZR (Int_part x) + f)%R /\ (0 <= f < 1)%R
    /\ (rint x = Int_part x \/ rint x = Int_part x + 1).
Proof.
  exists (frac_part x). destruct (base_fp x) as [H0 H1].
  split; [unfold frac_part; lra|]. split; [lra|].
  unfold rint. cbv zeta.
  destruct (Rlt_dec (frac_part x) (1 / 2)); [now left|].
  destruct (Rlt_dec (1 / 2) (frac_part x)); [now right|].
  destruct (Z.even (Int_part x)); [now left|now right].
Qed.

Lemma rint_nonneg (x : R) : (0 <= x)%R -> 0 <= rint x.
Proof.
  intros Hx. destruct (rint_cases x) as (f & Hf & Hrange & Hr).
  assert (-1 < Int_part x) by (apply lt_IZR; lra).
  destruct Hr as [-> | ->]; lia.
Qed.

(** [Series.round] of a value that is not negative is not negative. *)
Lemma round_nonneg (v : R) (decimals : nat) :
  (0 <= v)%R ->
  exists r, round (Some v) decimals = Some r /\ (0 <= r)%R.
Proof.
  intros Hv. assert (Hp : (0 < 10 ^ decimals)%R) by (apply pow_lt; lra).
  eexists. split; [reflexivity|].
  apply Rmult_le_pos; [|left; now apply Rinv_0_lt_compat].
  apply IZR_le. apply rint_nonneg. apply Rmult_le_pos; lra.
Qed.

Lemma fold_Rmin_bounds (xs : list R) : forall x,
  (forall y, In y (x :: xs) -> (fold_left Rmin xs x <= y)%R)
  /\ In (fold_left Rmin xs x) (x :: xs).
Proof.
  induction xs as [|z xs IH]; intros x; cbn [fold_left].
  - split; [intros y [<-|[]]; lra|now left].
  - destruct (IH (Rmin x z)) as [Hle Hin]. split.
    + intros y Hy.
      pose proof (Hle (Rmin x z) (or_introl eq_refl)) as Hm.
      pose proof (Rmin_l x z). pose proof (Rmin_r x z).
      destruct Hy as [<-|[<-|Hy]]; try lra. apply Hle. now right.
    + destruct Hin as [Hin|Hin]; [|right; now right].
      rewrite <- Hin. unfold Rmin. destruct (Rle_dec x z); [now left|right; now left].
Qed.

Lemma fold_Rmax_bounds (xs : list R) : forall x,
  (forall y, In y (x :: xs) -> (y <= fold_left Rmax xs x)%R)
  /\ In (fold_left Rmax xs x) (x :: xs).
Proof.
  induction xs as [|z xs IH]; intros x; cbn [fold_left].
  - split; [intros y [<-|[]]; lra|now left].
  - destruct (IH (Rmax x z)) as [Hle Hin]. split.
    + intros y Hy.
      pose proof (Hle (Rmax x z) (or_introl eq_refl)) as Hm.
      pose proof (Rmax_l x z). pose proof (Rmax_r x z).
      destruct Hy as [<-|[<-|Hy]]; try lra. apply Hle. now right.
    + destruct Hin as [Hin|Hin]; [|right; now right].
      rewrite <- Hin. unfold Rmax. destruct (Rle_dec x z); [right; now left|now left].
Qed.

Lemma Rsum_nonneg (xs : list R) : Forall (fun x => (0 <= x)%R) xs -> (0 <= Rsum xs)%R.
Proof. unfold Rsum. induction 1; cbn [fold_right]; lra. Qed.

Lemma In_dropna (l : list float) (x : R) : In x (dropna l) <-> In (Some x) l.
Proof.
  induction l as [|[y|] l IH]; cbn [dropna]; [tauto| |].
  - split; intros [H|H]; [left; now f_equal|right; tauto|left; congruence|right; tauto].
  - split; [intros H; right; tauto|intros [H|H]; [discriminate|tauto]].
Qed.

(** The records behind a row of the extraction statistics: those of its
    month whose volume is above 0. *)
Lemma extraction_group (dataframe : list VolRow) (e : ExtractionMonthly) :
  In e (generate_extraction_stats dataframe) ->
  let g := filter (fun r => fgt (Vol r) (Some 0%R) && (row_month r =? ex_Month e)%string)
                  dataframe in
  g <> []
  /\ e = {| ex_Month := ex_Month e;
            MinExtraction := round (fmin (map Vol g)) 3;
            MeanExtraction := round (mean (map Vol g)) 1;
            MaxExtraction := round (fmax (map Vol g)) 1 |}.
Proof.
  rewrite generate_extraction_stats_rows, in_map_iff.
  intros ([m g] & <- & Hin). apply groupby_In in Hin.
  destruct Hin as [(r0 & Hr0 & Hk) Hg]. cbn [ex_Month]. cbv zeta.
  rewrite positive_group in Hg. rewrite <- Hg. split; [|reflexivity].
  assert (Hr : In r0 g).
  { rewrite Hg. apply filter_In. apply filter_In in Hr0. destruct Hr0 as [Hin Hpos].
    split; [exact Hin|]. rewrite Hpos, Hk. cbn [andb]. apply String.eqb_refl. }
  intros Hnil. rewrite Hnil in Hr. contradiction.
Qed.


Lemma march_series_extraction :
  filter (fun r => fgt (Vol r) (Some 0%R) && (row_month r =? "2020-03")%string)
         march_series <> [].
Proof.
  set (r := {| reading := mkReading "Compliance Volume" (at_day 2020 3 15 0) (Some 5%R);
               Date := mkdate 2020 3 15; Vol := Some 5%R |}).
  assert (Hin : In r (filter (fun r => fgt (Vol r) (Some 0%R)
                                       && (row_month r =? "2020-03")%string)
                             march_series)).
  { apply filter_In. split.
    - unfold march_series, convert_rows. simpl. left. reflexivity.
    - apply andb_true_iff. split; [|vm_compute; reflexivity].
      unfold r, fgt, flt. cbn [Vol]. apply Rltb_true. lra. }
  intros Hnil. rewrite Hnil in Hin. contradiction.
Qed.


(** ** The daily sums of the Snowflake extraction *)

Lemma GROUP_BY_In {A K : Type} (K_eq_dec : forall a b : K, {a = b} + {a <> b})
    (key : A -> K) (rows : list A) (k : K) (g : list A) :
  In (k, g) (GROUP_BY K_eq_dec key rows)
  <-> (exists r, In r rows /\ key r = k)
      /\ g = filter (fun r => if K_eq_dec (key r) k then true else false) rows.
Proof.
  unfold GROUP_BY. rewrite in_map_iff. split.
  - intros (k' & Heq & Hin). inversion Heq; subst. split; [|reflexivity].
    apply nodup_In, in_map_iff in Hin. destruct Hin as (r & Hr & Hin). eauto.
  - intros [(r & Hr & Hk) ->]. exists k. split; [reflexivity|].
    apply nodup_In, in_map_iff. eauto.
Qed.

Lemma GROUP_BY_keys {A K : Type} (K_eq_dec : forall a b : K, {a = b} + {a <> b})
    (key : A -> K) (rows : list A) :
  map fst (GROUP_BY K_eq_dec key rows) = nodup K_eq_dec (map key rows).
Proof. unfold GROUP_BY. rewrite map_map. apply map_id. Qed.

Lemma filter_unique_key {A K : Type} (f : A -> K) (p : A -> bool) (l : list A) (x : A) :
  NoDup (map f l) -> In x l ->
  (forall y, In y l -> p y = true -> f y = f x) -> p x = true ->
  filter p l = [x].
Proof.
  induction l as [|a l IH]; intros Hnd Hin Hp Hx; [contradiction|].
  inversion Hnd as [|? ? Ha Hl]; subst. cbn [filter].
  destruct Hin as [->|Hin].
  - rewrite Hx. f_equal. apply filter_none. intros y Hy.
    destruct (p y) eqn:E; [|reflexivity]. exfalso. apply Ha.
    rewrite <- (Hp y (or_intror Hy) E). now apply in_map.
  - destruct (p a) eqn:E.
    + exfalso. apply Ha. rewrite (Hp a (or_introl eq_refl) E). now apply in_map.
    + apply IH; auto. intros y Hy. apply Hp. now right.
Qed.

(** A join that finds one match for every left row keeps the left rows, in
    their order. *)
Lemma flat_map_one_match {Left Right Out : Type} (matches : Left -> list Right)
    (out : Right -> Out) (left_out : Left -> Out) (left_rows : list Left) :
  (forall x, In x left_rows -> map out (matches x) = [left_out x]) ->
  map out (flat_map matches left_rows) = map left_out left_rows.
Proof.
  induction left_rows as [|x rest IH]; intros H; [reflexivity|].
  cbn [flat_map map]. rewrite map_app, (H x (or_introl eq_refl)), IH; [reflexivity|].
  intros y Hy. apply H. now right.
Qed.

Lemma DAILY_DATASOURCE_SUM_keys (corrected : list CorrectedRow) :
  map (fun d => (dds_SiteId d, dds_DATE d, dds_DataSource d))
      (DAILY_DATASOURCE_SUM corrected)
  = nodup site_date_source_eq_dec
          (map (fun r => (cr_SiteId r, ts_date (cr_ObservationDateTime r), cr_DataSource r))
               (filter (fun r => fge (cr_MeasuredValue r) (Some 0%R)) corrected)).
Proof.
  unfold DAILY_DATASOURCE_SUM. cbv zeta. rewrite map_map.
  rewrite (map_ext _ fst) by (intros [[[site day] source] g]; reflexivity).
  apply GROUP_BY_keys.
Qed.

(** Every daily sum is the sum of at least one value, none of them negative. *)
Lemma DAILY_DATASOURCE_SUM_In (corrected : list CorrectedRow) (d : DailySum) :
  In d (DAILY_DATASOURCE_SUM corrected) ->
  exists v, DailyMeasuredValue d = Some v /\ (0 <= v)%R.
Proof.
  unfold DAILY_DATASOURCE_SUM. cbv zeta. rewrite in_map_iff.
  intros ([k g] & <- & Hin). apply GROUP_BY_In in Hin.
  destruct Hin as [(r & Hr & Hk) Hg]. cbn [DailyMeasuredValue].
  assert (Hvals : Forall (fun x => (0 <= x)%R) (dropna (map cr_MeasuredValue g))).
  { apply Forall_forall. intros x Hx. apply In_dropna, in_map_iff in Hx.
    destruct Hx as (y & Hy & Hin). rewrite Hg in Hin.
    apply filter_In in Hin. destruct Hin as [Hin _].
    apply filter_In in Hin. destruct Hin as [_ Hge].
    unfold fge in Hge. apply fle_Some in Hge. destruct Hge as (z & x' & Hz & Hx' & Hle).
    inversion Hz; subst z. rewrite Hy in Hx'. inversion Hx'; subst. exact Hle. }
  assert (Hne : dropna (map cr_MeasuredValue g) <> []).
  { pose proof Hr as Hr'. apply filter_In in Hr'. destruct Hr' as [_ Hge].
    unfold fge in Hge. apply fle_Some in Hge. destruct Hge as (z & x & _ & Hx & _).
    assert (Hin : In x (dropna (map cr_MeasuredValue g))).
    { apply In_dropna. rewrite <- Hx. apply in_map. rewrite Hg. apply filter_In.
      split; [exact Hr|]. destruct (site_date_source_eq_dec _ k); [reflexivity|contradiction]. }
    intros Hnil. rewrite Hnil in Hin. contradiction. }
  unfold SUM. destruct (dropna (map cr_MeasuredValue g)) as [|x xs] eqn:E; [congruence|].
  eexists. split; [reflexivity|]. now apply Rsum_nonneg.
Qed.

Lemma NUMBER_OF_DATASOURCES_keys (dds : list DailySum) :
  NoDup (map (fun n => (nod_SiteId n, nod_DATE n)) (NUMBER_OF_DATASOURCES dds)).
Proof.
  unfold NUMBER_OF_DATASOURCES. rewrite map_map.
  rewrite (map_ext _ fst) by (intros [[s dt] g]; reflexivity).
  rewrite GROUP_BY_keys. apply NoDup_nodup.
Qed.

(** The row that NUMBER_OF_DATASOURCES has for the site and day of a daily
    sum, and the only one that the join matches with it. *)
Lemma NUMBER_OF_DATASOURCES_match (dds : list DailySum) (d : DailySum) :
  In d dds ->
  let g := filter (fun x => if site_date_eq_dec (dds_SiteId x, dds_DATE x)
                                                (dds_SiteId d, dds_DATE d)
                            then true else false) dds in
  In d g
  /\ filter (fun n => (nod_SiteId n =? dds_SiteId d)%string
                      && date_eqb (nod_DATE n) (dds_DATE d))
            (NUMBER_OF_DATASOURCES dds)
     = [ {| nod_SiteId := dds_SiteId d;
            nod_DATE := dds_DATE d;
            DuplicateDays := Z.of_nat (List.length g);
            nod_Max := fmax (map DailyMeasuredValue g);
            nod_Min := fmin (map DailyMeasuredValue g) |} ].
Proof.
  intros Hd g.
  assert (Hdg : In d g).
  { apply filter_In. split; [exact Hd|].
    destruct (site_date_eq_dec _ _); [reflexivity|contradiction]. }
  split; [exact Hdg|].
  apply (filter_unique_key (fun n => (nod_SiteId n, nod_DATE n))).
  - apply NUMBER_OF_DATASOURCES_keys.
  - unfold NUMBER_OF_DATASOURCES. apply in_map_iff.
    exists ((dds_SiteId d, dds_DATE d), g). split; [reflexivity|].
    apply GROUP_BY_In. split; [eauto|reflexivity].
  - intros n _ Hn. apply andb_true_iff in Hn. destruct Hn as [Hs Hdt].
    apply String.eqb_eq in Hs. apply date_eqb_eq in Hdt. cbn [nod_SiteId nod_DATE].
    now rewrite Hs, Hdt.
  - cbn [nod_SiteId nod_DATE]. apply andb_true_iff. split.
    + apply String.eqb_refl.
    + now apply date_eqb_eq.
Qed.

(** X19: the rows of the Snowflake result, read as a set of rows.  The
    join keeps the daily sums as they are, each once: there is exactly one
    row for each site, day and data source that has a value >= 0.  In every
    row the daily value is a sum of values that are none negative, so it is
    not negative; the number of data sources is the number of daily sums of
    that site and day and at least 1; Min and Max are not NULL and enclose
    the daily value; Difference is Max minus Min. *)
Theorem abstraction_data_rows (corrected : list CorrectedRow) :
  let DDS := DAILY_DATASOURCE_SUM corrected in
  map (fun r => (a_SiteId r, a_DATE r, a_DataSource r, a_DailyMeasuredValue r))
      (abstraction_data corrected)
  = map (fun d => (dds_SiteId d, dds_DATE d, dds_DataSource d, DailyMeasuredValue d)) DDS
  /\ NoDup (map (fun d => (dds_SiteId d, dds_DATE d, dds_DataSource d)) DDS)
  /\ (forall site day source,
        In (site, day, source)
           (map (fun d => (dds_SiteId d, dds_DATE d, dds_DataSource d)) DDS)
        <-> exists r, In r corrected
                      /\ fge (cr_MeasuredValue r) (Some 0%R) = true
                      /\ cr_SiteId r = site
                      /\ ts_date (cr_ObservationDateTime r) = day
                      /\ cr_DataSource r = source)
  /\ (forall row, In row (abstraction_data corrected) ->
        exists v lo hi : R,
          a_DailyMeasuredValue row = Some v
          /\ a_Min row = Some lo /\ a_Max row = Some hi
          /\ Difference row = Some (hi - lo)%R
          /\ (0 <= lo <= v)%R /\ (v <= hi)%R
          /\ a_DuplicateDays row
             = Z.of_nat (List.length
                           (filter (fun d => (dds_SiteId d =? a_SiteId row)%string
                                             && date_eqb (dds_DATE d) (a_DATE row))
                                   DDS))
          /\ 1 <= a_DuplicateDays row).
Proof.
  cbv zeta. set (DDS := DAILY_DATASOURCE_SUM corrected).
  split; [|split; [|split]].
  - unfold abstraction_data. cbv zeta. fold DDS.
    apply (flat_map_one_match
             (fun d => map (fun n =>
                              {| a_SiteId := dds_SiteId d;
                                 a_DATE := dds_DATE d;
                                 a_DataSource := dds_DataSource d;
                                 a_DailyMeasuredValue := DailyMeasuredValue d;
                                 a_DuplicateDays := DuplicateDays n;
                                 a_Max := nod_Max n;
                                 a_Min := nod_Min n;
                                 Difference := sql_sub (nod_Max n) (nod_Min n) |})
                           (filter (fun n => (nod_SiteId n =? dds_SiteId d)%string
                                             && date_eqb (nod_DATE n) (dds_DATE d))
                                   (NUMBER_OF_DATASOURCES DDS)))).
    intros d Hd. destruct (NUMBER_OF_DATASOURCES_match DDS d Hd) as [_ Hm].
    cbv zeta in Hm. rewrite Hm. reflexivity.
  - unfold DDS. rewrite DAILY_DATASOURCE_SUM_keys. apply NoDup_nodup.
  - intros site day source. unfold DDS. rewrite DAILY_DATASOURCE_SUM_keys.
    rewrite nodup_In, in_map_iff. split.
    + intros (r & Hk & Hr). apply filter_In in Hr. destruct Hr as [Hr Hge].
      inversion Hk; subst. exists r. auto.
    + intros (r & Hr & Hge & <- & <- & <-). exists r. split; [reflexivity|].
      apply filter_In. auto.
  - unfold abstraction_data. cbv zeta. fold DDS.
    intros row Hrow. apply in_flat_map in Hrow. destruct Hrow as (d & Hd & Hrow).
    destruct (NUMBER_OF_DATASOURCES_match DDS d Hd) as [Hdg Hmatch].
    cbv zeta in Hdg, Hmatch.
    rewrite Hmatch in Hrow. destruct Hrow as [<-|[]].
    cbn [a_DailyMeasuredValue a_Min a_Max Difference a_DuplicateDays a_SiteId a_DATE
         DuplicateDays nod_Max nod_Min].
    set (g := filter _ DDS) in *.
    assert (Hg : forall x, In x g -> exists v, DailyMeasuredValue x = Some v /\ (0 <= v)%R).
    { intros x Hx. apply filter_In in Hx. destruct Hx as [Hx _].
      now apply (DAILY_DATASOURCE_SUM_In corrected). }
    destruct (Hg d Hdg) as (v & Hv & Hv0).
    assert (Hin : In v (dropna (map DailyMeasuredValue g)))
      by (apply In_dropna; rewrite <- Hv; now apply in_map).
    assert (Hnonneg : forall y, In y (dropna (map DailyMeasuredValue g)) -> (0 <= y)%R).
    { intros y Hy. apply In_dropna, in_map_iff in Hy. destruct Hy as (x & Hx & Hxg).
      destruct (Hg x Hxg) as (w & Hw & Hw0). congruence. }
    unfold fmin, fmax.
    destruct (dropna (map DailyMeasuredValue g)) as [|x xs] eqn:E; [contradiction|].
    destruct (fold_Rmin_bounds xs x) as [Hmin Hmin_in].
    destruct (fold_Rmax_bounds xs x) as [Hmax Hmax_in].
    exists v, (fold_left Rmin xs x), (fold_left Rmax xs x).
    split; [exact Hv|]. split; [reflexivity|]. split; [reflexivity|].
    split; [reflexivity|].
    split; [split; [now apply Hnonneg|now apply Hmin]|]. split; [now apply Hmax|].
    split.
    + f_equal. f_equal. unfold g. apply filter_ext. intros a.
      destruct (site_date_eq_dec (dds_SiteId a, dds_DATE a) (dds_SiteId d, dds_DATE d))
        as [Heq|Hne].
      * inversion Heq as [[Hs Hdt]]. rewrite String.eqb_refl. symmetry.
        now apply date_eqb_eq.
      * destruct ((dds_SiteId a =? dds_SiteId d)%string) eqn:Hs; [|reflexivity].
        destruct (date_eqb (dds_DATE a) (dds_DATE d)) eqn:Hdt; [|reflexivity].
        apply String.eqb_eq in Hs. apply date_eqb_eq in Hdt. exfalso. apply Hne.
        now rewrite Hs, Hdt.
    + destruct g; [contradiction|]. cbn [List.length]. lia.
Qed.

Lemma two_sources_selected :
  In (mkCorrectedRow "K37/0001" "Manual" (at_day 2022 2 17 0) (Some 5%R)) two_sources
  /\ fge (Some 5%R) (Some 0%R) = true.
Proof.
  split; [right; right; left; reflexivity|].
  unfold fge, fle. apply Rleb_true. lra.
Qed.

Lemma abstraction_data_rows_witness :
  exists row v lo hi,
    In row (abstraction_data two_sources)
    /\ a_SiteId row = "K37/0001" /\ a_DATE row = mkdate 2022 2 17
    /\ a_DataSource row = "Manual"
    /\ a_DailyMeasuredValue row = Some v
    /\ a_Min row = Some lo /\ a_Max row = Some hi
    /\ (0 <= lo <= v)%R /\ (v <= hi)%R.
Proof.
  destruct (abstraction_data_rows two_sources) as (Hjoin & _ & Hkeys & Hrows).
  cbv zeta in Hjoin, Hkeys, Hrows.
  destruct two_sources_selected as [Hin Hge].
  assert (Hk : In ("K37/0001", mkdate 2022 2 17, "Manual")
                  (map (fun d => (dds_SiteId d, dds_DATE d, dds_DataSource d))
                       (DAILY_DATASOURCE_SUM two_sources))).
  { apply Hkeys. eexists. split; [exact Hin|]. split; [exact Hge|].
    split; [reflexivity|]. split; reflexivity. }
  apply in_map_iff in Hk. destruct Hk as (d & Hd & Hdin).
  assert (Hr : In (dds_SiteId d, dds_DATE d, dds_DataSource d, DailyMeasuredValue d)
                  (map (fun r => (a_SiteId r, a_DATE r, a_DataSource r,
                                  a_DailyMeasuredValue r))
                       (abstraction_data two_sources))).
  { rewrite Hjoin. apply in_map_iff. exists d. split; [reflexivity|exact Hdin]. }
  apply in_map_iff in Hr. destruct Hr as (row & Hrow & Hrin).
  destruct (Hrows row Hrin) as (v & lo & hi & Hv & Hlo & Hhi & _ & Hle & Hge' & _).
  inversion Hrow as [[Hs Hday Hsrc Hval]]. inversion Hd as [[Hs' Hday' Hsrc']].
  exists row, v, lo, hi.
  split; [exact Hrin|]. split; [congruence|]. split; [congruence|]. split; [congruence|].
  split; [exact Hv|]. split; [exact Hlo|]. split; [exact Hhi|].
  split; [exact Hle|exact Hge'].
Defined.

(** ** The plot table of the filtered series *)

Lemma process_plot_data_defined (dataframe : list VolRow) (rows : list PlotRow) :
  process_plot_data dataframe = Ok rows ->
  exists from_date to_date,
    min_date (map Date dataframe) = Some from_date
    /\ max_date (map Date dataframe) = Some to_date.
Proof.
  unfold process_plot_data.
  destruct (min_date (map Date dataframe)) as [from_date|]; [|discriminate].
  destruct (max_date (map Date dataframe)) as [to_date|]; [|discriminate].
  eauto.
Qed.

(** X20: [main] builds the plot table from the series without its negative
    values.  There a row of the table either belongs to a day without any
    record, and has 0 readings, no volume and no rate; or it has as many
    readings as the day has records, at least 1, a volume that is not
    negative, and a rate that is not negative and not above the volume. *)
Theorem plot_rows_of_filtered_series (vol_data : list VolRow) (rows : list PlotRow)
    (row : PlotRow) :
  process_plot_data (remove_negative_values vol_data) = Ok rows ->
  In row rows ->
  let day_records :=
    filter (fun r => date_eqb (Date r) (p_Date row)) (remove_negative_values vol_data) in
  (day_records = []
   /\ Readings row = Some 0%R /\ Volume row = NaN /\ Rate row = NaN)
  \/ (exists volume rate : R,
        day_records <> []
        /\ Readings row = Some (INR (List.length day_records))
        /\ Volume row = Some volume /\ Rate row = Some rate
        /\ (0 <= volume)%R /\ (0 <= rate <= volume)%R).
Proof.
  intros Hok Hrow. cbv zeta.
  set (vol_data2 := remove_negative_values vol_data) in *.
  destruct (process_plot_data_defined _ _ Hok) as (from_date & to_date & Hmin & Hmax).
  destruct (process_plot_data_rows _ _ _ Hmin Hmax) as (rows' & Hok' & _ & Hrows).
  rewrite Hok in Hok'. injection Hok' as <-.
  destruct (Hrows row Hrow) as [Hrate Hfind].
  pose proof (find_date (daily_counts vol_data2) (p_Date row)) as Hf.
  destruct (find _ (daily_counts vol_data2)) as [c|].
  - right. destruct Hf as [Hc Hd]. destruct Hfind as [Hr Hv].
    destruct (daily_counts_In _ _ Hc) as (Hin & Hcount & Hsum).
    rewrite Hd in Hcount, Hsum, Hin.
    set (g := filter (fun r => date_eqb (Date r) (p_Date row)) vol_data2) in *.
    assert (Hg : forall r, In r g -> exists x, Vol r = Some x /\ (0 <= x)%R).
    { intros r Hr'. apply filter_In in Hr'. destruct Hr' as [Hr' _].
      now apply remove_negative_values_In in Hr'. }
    assert (Hdef : List.length (dropna (map Vol g)) = List.length g).
    { rewrite dropna_defined, length_map; [reflexivity|].
      apply Forall_forall. intros v Hv'. apply in_map_iff in Hv'.
      destruct Hv' as (r & <- & Hr'). destruct (Hg r Hr') as (x & -> & _). discriminate. }
    assert (Hpos : (0 <= Rsum (dropna (map Vol g)))%R).
    { apply Rsum_nonneg, Forall_forall. intros x Hx. apply In_dropna, in_map_iff in Hx.
      destruct Hx as (r & Hr' & Hin'). destruct (Hg r Hin') as (y & Hy & Hy0). congruence. }
    exists (Rsum (dropna (map Vol g))), (Rsum (dropna (map Vol g)) * (1000 / 86400))%R.
    split; [|split; [|split; [|split; [|split]]]].
    + apply in_map_iff in Hin. destruct Hin as (r & Hr' & Hin).
      assert (Hrg : In r g)
        by (apply filter_In; split; [exact Hin|now apply date_eqb_eq]).
      intros Hnil. rewrite Hnil in Hrg. contradiction.
    + rewrite Hr, Hcount. unfold count. rewrite Hdef. now rewrite INR_IZR_INZ.
    + rewrite Hv, Hsum. reflexivity.
    + rewrite Hrate, Hv, Hsum. reflexivity.
    + exact Hpos.
    + lra.
  - left. destruct Hfind as [Hr Hv]. split; [|split; [exact Hr|split; [exact Hv|]]].
    + apply filter_none. intros r Hr'.
      destruct (date_eqb (Date r) (p_Date row)) eqn:E; [|reflexivity]. exfalso.
      apply date_eqb_eq in E.
      assert (Hk : In (p_Date row) (map dc_Date (daily_counts vol_data2))).
      { rewrite daily_counts_dates. apply group_keys_In. rewrite <- E. now apply in_map. }
      apply in_map_iff in Hk. destruct Hk as (c & Hc & Hin). exact (Hf c Hin Hc).
    + rewrite Hrate, Hv. reflexivity.
Qed.

Lemma march_series_kept : remove_negative_values march_series = march_series.
Proof.
  apply filter_all. intros r Hr. unfold march_series, convert_rows in Hr. simpl in Hr.
  destruct Hr as [<-|[<-|[]]]; unfold fge, fle; cbn [Vol]; apply Rleb_true; lra.
Qed.

Lemma plot_rows_of_filtered_series_witness :
  exists rows row,
    process_plot_data (remove_negative_values march_series) = Ok rows
    /\ nth_error rows 0 = Some row
    /\ Readings row = Some 0%R /\ Volume row = NaN /\ Rate row = NaN.
Proof.
  destruct (process_plot_data_rows march_series (mkdate 2020 3 15) (mkdate 2020 3 17)
              eq_refl eq_refl) as (rows & Hok & Hdates & _).
  rewrite <- march_series_kept in Hok at 1.
  destruct rows as [|row rows'].
  - exfalso. apply (f_equal (@hd_error date)) in Hdates.
    rewrite date_range_head in Hdates by (vm_compute; discriminate). discriminate.
  - exists (row :: rows'), row. split; [exact Hok|]. split; [reflexivity|].
    destruct (plot_rows_of_filtered_series march_series (row :: rows') row Hok
                (or_introl eq_refl))
      as [(_ & Hr & Hv & Hrate)|(volume & rate & Hne & _)].
    + split; [exact Hr|]. split; [exact Hv|exact Hrate].
    + exfalso. apply Hne. rewrite march_series_kept.
      apply (f_equal (@hd_error date)) in Hdates.
      rewrite date_range_head in Hdates by (vm_compute; discriminate).
      cbn [map hd_error] in Hdates. injection Hdates as Hd. rewrite Hd.
      vm_compute. reflexivity.
Defined.
